(** * n8n-nodes-leapter: the schema resolver, the projector and the router

    A shallow embedding of the logic shared by the Leapter node and the
    Leapter Tool node (nodes/Leapter/utils.ts, Leapter.node.ts,
    LeapterTool.node.ts), followed by the properties of the specification
    that are about it.

    Conventions of the embedding.
    - A JavaScript value is a [value]; an object is the list of its own
      enumerable properties in [Object.entries] order, each key once.
      Properties inherited from a prototype are outside the model.
    - A string is a [string] whose characters are code units below 256;
      [toLowerCase], [\s] and [trim] are the restrictions of the
      ECMAScript ones to that range.
    - A number is an integer ([Z]); the routing score, the only fraction
      the code computes, is an exact rational ([Q]).
    - A function that may throw returns a [res]; [try]/[catch] is
      [catch]. *)

From Stdlib Require Import String Ascii List ZArith QArith Bool Arith Lia.
From Stdlib Require Import DecimalString.
Import ListNotations.

Local Close Scope Q_scope.
Local Open Scope string_scope.
Local Open Scope list_scope.
Local Open Scope nat_scope.

(** ** JavaScript values

    An object is the list of its own enumerable properties, in the order
    the engine enumerates them: the keys that are array indices first, in
    ascending order, then the other keys in the order they were added. *)

#[warning="-register-all"]
Inductive value : Type :=
| Undefined
| Null
| Bool (b : bool)
| Num (n : Z)
| Str (s : string)
| Arr (l : list value)
| Obj (fields : list (string * value)).

(** A string of the code is a value, and a value may be written as a
    text. *)
Coercion Str : string >-> value.
Bind Scope string_scope with value.

(** ** Exceptions and the result monad

    [NodeOperationError argument] is the error
    [new NodeOperationError(node, argument)] of n8n. Its [message] is
    made by the constructor, which is n8n's and not the repository's:
    see [exn_message]. *)

Inductive exn : Type :=
| TypeError (message : string)
| SyntaxError (message : string)
| RangeError (message : string)
| NodeOperationError (argument : value).

Definition is_NodeOperationError (e : exn) : bool :=
  match e with NodeOperationError _ => true | _ => false end.

Inductive res (A : Type) : Type :=
| Ok (a : A)
| Throw (e : exn).

Arguments Ok {A} a.
Arguments Throw {A} e.

Definition bind {A B : Type} (m : res A) (k : A -> res B) : res B :=
  match m with
  | Ok a => k a
  | Throw e => Throw e
  end.

Definition catch {A : Type} (m : res A) (h : exn -> res A) : res A :=
  match m with
  | Ok a => Ok a
  | Throw e => h e
  end.

Notation "x <- m ;; k" := (bind m (fun x => k))
  (at level 61, m at next level, right associativity).

Fixpoint mapM {A B : Type} (f : A -> res B) (l : list A) : res (list B) :=
  match l with
  | [] => Ok []
  | a :: l' => b <- f a ;; bs <- mapM f l' ;; Ok (b :: bs)
  end.

(** A loop that carries a state. *)
Fixpoint foldM {A B : Type} (f : B -> A -> res B) (l : list A) (b : B) : res B :=
  match l with
  | [] => Ok b
  | a :: l' => b' <- f b a ;; foldM f l' b'
  end.

(** ** Strings *)

Module Str.

Definition code (c : ascii) : nat := nat_of_ascii c.

(** [\s] and the characters [trim] removes, below 256. *)
Definition is_space (c : ascii) : bool :=
  let n := code c in
  ((9 <=? n) && (n <=? 13)) || (n =? 32) || (n =? 160).

Definition lower_char (c : ascii) : ascii :=
  let n := code c in
  if ((65 <=? n) && (n <=? 90))
     || ((192 <=? n) && (n <=? 222) && negb (n =? 215))
  then ascii_of_nat (n + 32) else c.

Fixpoint map (f : ascii -> ascii) (s : string) : string :=
  match s with
  | EmptyString => EmptyString
  | String c s' => String (f c) (map f s')
  end.

Fixpoint filter (p : ascii -> bool) (s : string) : string :=
  match s with
  | EmptyString => EmptyString
  | String c s' => if p c then String c (filter p s') else filter p s'
  end.

Fixpoint forallb (p : ascii -> bool) (s : string) : bool :=
  match s with
  | EmptyString => true
  | String c s' => p c && forallb p s'
  end.

Definition toLowerCase (s : string) : string := map lower_char s.

(** [s.startsWith(p)] *)
Definition startsWith (s p : string) : bool := String.prefix p s.

(** [s.endsWith(p)] *)
Definition endsWith (s p : string) : bool :=
  (String.length p <=? String.length s)
  && String.eqb (substring (String.length s - String.length p)
                           (String.length p) s) p.

(** [s.includes(p)] *)
Fixpoint includes (s p : string) : bool :=
  String.prefix p s
  || match s with
     | EmptyString => false
     | String _ s' => includes s' p
     end.

(** [s.slice(0, n)] *)
Definition slice0 (n : nat) (s : string) : string := substring 0 n s.

Fixpoint drop (n : nat) (s : string) : string :=
  match n, s with
  | O, _ => s
  | S n', String _ s' => drop n' s'
  | S _, EmptyString => EmptyString
  end.

Fixpoint trimStart (s : string) : string :=
  match s with
  | EmptyString => EmptyString
  | String c s' => if is_space c then trimStart s' else s
  end.

Fixpoint trimEnd (s : string) : string :=
  match s with
  | EmptyString => EmptyString
  | String c s' =>
      match trimEnd s' with
      | EmptyString => if is_space c then EmptyString else String c EmptyString
      | t => String c t
      end
  end.

Definition trim (s : string) : string := trimEnd (trimStart s).

(** [s.replace(p, r)] with a string pattern: the first occurrence only. *)
Fixpoint replaceFirst (p r s : string) : string :=
  if String.prefix p s then r ++ drop (String.length p) s
  else match s with
       | EmptyString => EmptyString
       | String c s' => String c (replaceFirst p r s')
       end.

(** [s.split(sep)] for a non-empty separator: [skip] counts the
    characters of a separator just matched that are still to be passed
    over, [cur] is the piece being read. *)
Fixpoint split_go (sep s : string) (skip : nat) (cur : string) : list string :=
  match s with
  | EmptyString => [cur]
  | String c s' =>
      match skip with
      | S k => split_go sep s' k cur
      | O =>
          if String.prefix sep s
          then cur :: split_go sep s' (String.length sep - 1) EmptyString
          else split_go sep s' 0 (cur ++ String c EmptyString)
      end
  end.

Fixpoint chars (s : string) : list string :=
  match s with
  | EmptyString => []
  | String c s' => String c EmptyString :: chars s'
  end.

Definition split (s sep : string) : list string :=
  match sep with
  | EmptyString => chars s
  | _ => split_go sep s 0 EmptyString
  end.

(** [l.join(sep)] *)
Definition join (l : list string) (sep : string) : string := String.concat sep l.

Definition of_nat (n : nat) : string := NilZero.string_of_uint (Nat.to_uint n).

Definition of_Z (z : Z) : string := NilZero.string_of_int (Z.to_int z).

(** The one-character string holding a double quote. *)
Definition dquote : string := String (ascii_of_nat 34) EmptyString.

End Str.

(** ** Operations on values *)

Module Js.

Definition truthy (v : value) : bool :=
  match v with
  | Undefined | Null => false
  | Bool b => b
  | Num n => negb (n =? 0)%Z
  | Str s => negb (String.eqb s EmptyString)
  | Arr _ | Obj _ => true
  end.

(** [a || b] *)
Definition or (a b : value) : value := if truthy a then a else b.

(** [typeof v === 'object' && v !== null] *)
Definition is_object (v : value) : bool :=
  match v with Arr _ | Obj _ => true | _ => false end.

Fixpoint lookup {A : Type} (k : string) (l : list (string * A)) : option A :=
  match l with
  | [] => None
  | (k', v) :: l' => if String.eqb k k' then Some v else lookup k l'
  end.

(** The canonical array index a property key denotes, if any. *)
Definition index_of_key (k : string) : option nat :=
  match NilZero.uint_of_string k with
  | Some d => if String.eqb (Str.of_nat (Nat.of_uint d)) k
              then Some (Nat.of_uint d) else None
  | None => None
  end.

Definition opt (o : option value) : value :=
  match o with Some v => v | None => Undefined end.

(** The names of the members every object inherits from
    [Object.prototype]. *)
Definition object_prototype : list string :=
  ["constructor"; "__defineGetter__"; "__defineSetter__"; "hasOwnProperty";
   "__lookupGetter__"; "__lookupSetter__"; "isPrototypeOf";
   "propertyIsEnumerable"; "toString"; "valueOf"; "__proto__";
   "toLocaleString"].

Definition inherited (k : string) : bool :=
  existsb (String.eqb k) object_prototype.

(** [v[k]] for a key under which [v] inherits nothing: the own property,
    or [undefined]. The keys the code writes out are such keys for the
    values of a JSON document. Where the key comes from the data, under
    a name of [object_prototype] the engine finds the inherited member,
    a function, which is no value of the embedding: the properties
    about such a key are stated for the names that are not
    [inherited]. *)
Definition get (v : value) (k : string) : res value :=
  match v with
  | Undefined =>
      Throw (TypeError ("Cannot read properties of undefined (reading '" ++ k ++ "')"))
  | Null =>
      Throw (TypeError ("Cannot read properties of null (reading '" ++ k ++ "')"))
  | Bool _ | Num _ => Ok Undefined
  | Str s =>
      if String.eqb k "length" then Ok (Num (Z.of_nat (String.length s)))
      else match index_of_key k with
           | Some i => Ok (opt (option_map (fun c => Str (String c EmptyString))
                                           (String.get i s)))
           | None => Ok Undefined
           end
  | Arr l =>
      if String.eqb k "length" then Ok (Num (Z.of_nat (List.length l)))
      else match index_of_key k with
           | Some i => Ok (nth i l Undefined)
           | None => Ok Undefined
           end
  | Obj fields => Ok (opt (lookup k fields))
  end.

(** [v?.[k]] *)
Definition get_opt (v : value) (k : string) : res value :=
  match v with
  | Undefined | Null => Ok Undefined
  | _ => get v k
  end.

Fixpoint indexed (i : nat) (l : list value) : list (string * value) :=
  match l with
  | [] => []
  | v :: l' => (Str.of_nat i, v) :: indexed (S i) l'
  end.

(** [Object.entries(v)] *)
Definition entries (v : value) : res (list (string * value)) :=
  match v with
  | Undefined | Null =>
      Throw (TypeError "Cannot convert undefined or null to object")
  | Bool _ | Num _ => Ok []
  | Str s => Ok (indexed 0 (List.map Str (Str.chars s)))
  | Arr l => Ok (indexed 0 l)
  | Obj fields => Ok fields
  end.

(** [Object.keys(v)] *)
Definition keys (v : value) : res (list string) :=
  es <- entries v ;; Ok (List.map fst es).

(** The array index a key denotes, if any: the key is the canonical
    numeral of an integer below [2^32 - 1]. *)
Definition array_index (k : string) : option N :=
  match NilZero.uint_of_string k with
  | Some d =>
      let n := N.of_uint d in
      if String.eqb (NilZero.string_of_uint (N.to_uint n)) k
         && (n <? 4294967295)%N
      then Some n else None
  | None => None
  end.

Definition has_key {A : Type} (fields : list (string * A)) (k : string)
  : bool :=
  existsb (fun kv => String.eqb k (fst kv)) fields.

(** A new value for a property the object has: its place is kept. *)
Fixpoint update {A : Type} (fields : list (string * A)) (k : string) (v : A)
  : list (string * A) :=
  match fields with
  | [] => []
  | (k', v') :: fs =>
      if String.eqb k k' then (k, v) :: fs else (k', v') :: update fs k v
  end.

(** Whether the new key [k] is enumerated before the key [k']: an array
    index before a greater one and before every other key. *)
Definition before (k k' : string) : bool :=
  match array_index k, array_index k' with
  | Some i, Some j => (i <? j)%N
  | Some _, None => true
  | None, _ => false
  end.

(** A property the object does not have: an array index takes its place
    among the indices, another key is added at the end. *)
Fixpoint insert {A : Type} (fields : list (string * A)) (k : string) (v : A)
  : list (string * A) :=
  match fields with
  | [] => [(k, v)]
  | (k', v') :: fs =>
      if before k k' then (k, v) :: fields else (k', v') :: insert fs k v
  end.

(** What an object literal and a spread do with one property:
    [CreateDataProperty(o, k, v)]. *)
Definition define {A : Type} (fields : list (string * A)) (k : string) (v : A)
  : list (string * A) :=
  if has_key fields k then update fields k v else insert fields k v.

(** [o[k] = v] on an object built by the code. The assignment to
    [__proto__] is taken by the setter of [Object.prototype]: it makes
    no property. *)
Definition set {A : Type} (fields : list (string * A)) (k : string) (v : A)
  : list (string * A) :=
  if String.eqb k "__proto__" then fields else define fields k v.

(** [{...a, ...b}] : the properties of [b] written over those of [a]. *)
Definition spread (a b : list (string * value)) : list (string * value) :=
  fold_left (fun acc kv => define acc (fst kv) (snd kv)) b a.

(** Strict equality on the values compared by the code (primitives). *)
Definition strict_eq (a b : value) : bool :=
  match a, b with
  | Undefined, Undefined | Null, Null => true
  | Bool x, Bool y => Bool.eqb x y
  | Num x, Num y => (x =? y)%Z
  | Str x, Str y => String.eqb x y
  | _, _ => false
  end.

(** The text a template literal inserts for [v]. *)
Fixpoint to_text (v : value) : string :=
  match v with
  | Undefined => "undefined"
  | Null => "null"
  | Bool true => "true"
  | Bool false => "false"
  | Num n => Str.of_Z n
  | Str s => s
  | Arr l =>
      let element (e : value) : string :=
        match e with
        | Undefined | Null => EmptyString
        | _ => to_text e
        end in
      (fix join_elements (l : list value) : string :=
         match l with
         | [] => EmptyString
         | [e] => element e
         | e :: l' => (element e ++ "," ++ join_elements l')%string
         end) l
  | Obj _ => "[object Object]"
  end.

(** A [Set<string>] keeps one copy of each element, in insertion order. *)
Definition set_has (s : list string) (k : string) : bool :=
  existsb (String.eqb k) s.

Definition set_add (s : list string) (k : string) : list string :=
  if set_has s k then s else s ++ [k].

Definition set_of_list (l : list string) : list string :=
  fold_left set_add l [].

End Js.

Import Js.

(** ** utils.ts *)

(** [resolveSchema]: the walk of the loop [for (const part of refPath)]. *)
Fixpoint walk (resolved : value) (refPath : list string) : res value :=
  match refPath with
  | [] => Ok resolved
  | part :: rest => next <- get resolved part ;; walk next rest
  end.

(** [schema.$ref.replace('#/', '').split('/')] *)
Definition refPath_of (ref : value) : res (list string) :=
  match ref with
  | Str r => Ok (Str.split (Str.replaceFirst "#/" EmptyString r) "/")
  | _ => Throw (TypeError "schema.$ref.replace is not a function")
  end.

Definition resolveSchema (schema spec : value) : res value :=
  ref <- get schema "$ref" ;;
  if truthy ref then
    refPath <- refPath_of ref ;;
    walk spec refPath
  else Ok schema.

(** What the code takes from the engine and from n8n: [JSON.parse] returns
    the parsed value or throws a [SyntaxError]; [JSON.stringify] and
    [toUpperCase] return a string; the request helper returns the
    response or throws; the constructor of [NodeOperationError] gives
    the error it makes of its argument a [message] of its own choice
    (it is known to replace some texts and to give none for an argument
    that is not a string). *)
Class Host : Type := {
  JSON_parse : string -> res value;
  JSON_stringify : value -> string;
  toUpperCase : string -> string;
  httpRequestWithAuthentication : value -> res value;
  NodeOperationError_message : value -> string
}.

(** [error.message] *)
Definition exn_message `{Host} (e : exn) : string :=
  match e with
  | TypeError m | SyntaxError m | RangeError m => m
  | NodeOperationError argument => NodeOperationError_message argument
  end.

Definition looks_like_json (trimmed : string) : bool :=
  (Str.startsWith trimmed "[" && Str.endsWith trimmed "]")
  || (Str.startsWith trimmed "{" && Str.endsWith trimmed "}").

Definition tryParseJson `{Host} (v : value) : res value :=
  match v with
  | Str s =>
      let trimmed := Str.trim s in
      if looks_like_json trimmed
      then catch (JSON_parse trimmed) (fun _ => Ok v)
      else Ok v
  | _ => Ok v
  end.

(** [sanitizeToolName] *)
Fixpoint collapse_spaces (s : string) (in_run : bool) : string :=
  match s with
  | EmptyString => EmptyString
  | String c s' =>
      if Str.is_space c
      then if in_run then collapse_spaces s' true
           else String "_" (collapse_spaces s' true)
      else String c (collapse_spaces s' false)
  end.

(** [[a-z0-9_-]] *)
Definition is_name_char (c : ascii) : bool :=
  let n := Str.code c in
  ((97 <=? n) && (n <=? 122)) || ((48 <=? n) && (n <=? 57))
  || (n =? 95) || (n =? 45).

Definition default_tool_name : string := "leapter_tool".

Definition sanitizeToolName (name : string) : string :=
  let s := Str.slice0 64
             (Str.filter is_name_char
                (collapse_spaces (Str.toLowerCase name) false)) in
  if String.eqb s EmptyString then default_tool_name else s.

(** [deduplicateToolNames]: [counts] is the [Map<string, number>]. *)
Definition counts_get (counts : list (string * nat)) (name : string) : nat :=
  match lookup name counts with Some n => n | None => 0 end.

Definition counts_set (counts : list (string * nat)) (name : string) (n : nat)
  : list (string * nat) := (name, n) :: counts.

Definition dedup_step (st : list (string * nat) * list string) (name : string)
  : list (string * nat) * list string :=
  let '(counts, result) := st in
  let count := counts_get counts name in
  let result' :=
    if count =? 0 then result ++ [name]
    else result ++ [Str.slice0 64 (name ++ "_" ++ Str.of_nat count)] in
  (counts_set counts name (count + 1), result').

Definition deduplicateToolNames (names : list string) : list string :=
  snd (fold_left dedup_step names ([], [])).

(** The part of zod the projection constructs. *)
#[warning="-register-all"]
Inductive zod : Type :=
| ZString
| ZEnum (values : value)
| ZNumber
| ZBoolean
| ZArray (item : zod)
| ZObject (shape : list (string * zod))
| ZRecordUnknown
| ZDescribed (inner : zod) (description : value)
| ZOptional (inner : zod).

(** [n > 0] for the [length] of a value of the declared type. *)
Definition gt0 (v : value) : bool :=
  match v with
  | Num n => (0 <? n)%Z
  | Bool b => b
  | _ => false
  end.

(** [resolved.enum && resolved.enum.length > 0] *)
Definition has_enum (enum : value) : res bool :=
  if truthy enum then len <- get enum "length" ;; Ok (gt0 len) else Ok false.

(** [required.includes(key)] for the value [required] holds. *)
Definition includes_key (required : value) (key : string) : res bool :=
  match required with
  | Arr l => Ok (existsb (strict_eq (Str key)) l)
  | Str s => Ok (Str.includes s key)
  | _ => Throw (TypeError "required.includes is not a function")
  end.

(** [resolved.required?.includes(key) ?? false] *)
Definition required_includes (resolved : value) (key : string) : res bool :=
  required <- get resolved "required" ;;
  match required with
  | Undefined | Null => Ok false
  | _ => includes_key required key
  end.

Definition describe (resolved : value) (zodType : zod) : res zod :=
  description <- get resolved "description" ;;
  Ok (if truthy description then ZDescribed zodType description else zodType).

Definition finish (required : bool) (zodType : zod) : zod :=
  if required then zodType else ZOptional zodType.

(** The [switch] of [openApiToZod] on [resolved.type]; [self] is the
    function itself, called on the items and on the properties. *)
Definition zodType_of (self : value -> bool -> res zod) (resolved ty : value)
  : res zod :=
  if strict_eq ty (Str "string") then
    enum <- get resolved "enum" ;;
    e <- has_enum enum ;;
    Ok (if e then ZEnum enum else ZString)
  else if strict_eq ty (Str "integer") || strict_eq ty (Str "number") then
    Ok ZNumber
  else if strict_eq ty (Str "boolean") then
    Ok ZBoolean
  else if strict_eq ty (Str "array") then
    items <- get resolved "items" ;;
    itemSchema <- (if truthy items then self items true else Ok ZString) ;;
    Ok (ZArray itemSchema)
  else if strict_eq ty (Str "object") then
    properties <- get resolved "properties" ;;
    if truthy properties then
      es <- entries properties ;;
      shape <- foldM (fun shape kp =>
                        isRequired <- required_includes resolved (fst kp) ;;
                        z <- self (snd kp) isRequired ;;
                        Ok (Js.set shape (fst kp) z)) es [] ;;
      Ok (ZObject shape)
    else Ok ZRecordUnknown
  else Ok ZString.

(** [openApiToZod]; [depth] bounds the call stack, which the engine reports
    as a [RangeError] when a chain of [$ref]s never ends. *)
Fixpoint openApiToZod (depth : nat) (schema spec : value) (required : bool)
  : res zod :=
  match depth with
  | O => Throw (RangeError "Maximum call stack size exceeded")
  | S d =>
      resolved <- resolveSchema schema spec ;;
      ty <- get resolved "type" ;;
      zodType <- zodType_of (fun s r => openApiToZod d s spec r) resolved ty ;;
      zodType' <- describe resolved zodType ;;
      Ok (finish required zodType')
  end.

(** [operation.requestBody?.content?.['application/json']] *)
Definition jsonContent_of (operation : value) : res value :=
  requestBody <- get operation "requestBody" ;;
  content <- get_opt requestBody "content" ;;
  get_opt content "application/json".

(** [buildZodSchemaFromOperation] *)
Definition buildZodSchemaFromOperation (depth : nat) (operation spec : value)
  : res (list (string * zod)) :=
  jsonContent <- jsonContent_of operation ;;
  rawSchema <- get_opt jsonContent "schema" ;;
  if negb (truthy rawSchema) then Ok []
  else
    schema <- resolveSchema rawSchema spec ;;
    p <- get schema "properties" ;;
    r <- get schema "required" ;;
    let properties := or p (Obj []) in
    let required := or r (Arr []) in
    es <- entries properties ;;
    foldM (fun zodShape kp =>
             isRequired <- includes_key required (fst kp) ;;
             z <- openApiToZod depth (snd kp) spec isRequired ;;
             Ok (Js.set zodShape (fst kp) z)) es [].

(** [fetchProjects]: the compound value of one project. *)
Record ProjectInfo : Type := {
  projectId : string;
  projectName : string;
  specUrl : string;
  editorBaseUrl : string
}.

Definition project_value (project : ProjectInfo) : string :=
  projectId project ++ "::" ++ specUrl project ++ "::"
  ++ editorBaseUrl project ++ "::" ++ projectName project.

(** [path.match(/\/models\/([^/]+)\/runs/)?.[1]] *)
Fixpoint segment (s : string) : string * string :=
  match s with
  | EmptyString => (EmptyString, EmptyString)
  | String c s' =>
      if Ascii.eqb c "/" then (EmptyString, s)
      else let '(seg, rest) := segment s' in (String c seg, rest)
  end.

Definition match_models_here (s : string) : option string :=
  if String.prefix "/models/" s then
    let '(id, rest) := segment (Str.drop 8 s) in
    if String.eqb id EmptyString then None
    else if String.prefix "/runs" rest then Some id else None
  else None.

Fixpoint match_models (path : string) : option string :=
  match match_models_here path with
  | Some id => Some id
  | None =>
      match path with
      | EmptyString => None
      | String _ path' => match_models path'
      end
  end.

Definition modelId_of (path : string) : value :=
  match match_models path with
  | Some id => Str id
  | None => Undefined
  end.

(** ** LeapterTool.node.ts *)

Module LeapterTool.

(** System fields injected by n8n into tool input data. *)
Definition SYSTEM_FIELDS : list string :=
  ["sessionId"; "action"; "chatInput"; "toolCallId"].

(** [typeof input.action === 'string' ? input.action : ''] *)
Definition action_of (input : value) : res string :=
  a <- get input "action" ;;
  Ok (match a with Str s => s | _ => EmptyString end).

(** The loop that fills [toolArgs]. *)
Definition toolArgs_of (input : value) : res (list (string * value)) :=
  es <- entries input ;;
  Ok (fold_left (fun toolArgs kv =>
                   if negb (set_has SYSTEM_FIELDS (fst kv))
                   then Js.set toolArgs (fst kv) (snd kv)
                   else toolArgs) es []).

Definition nth_part (parts : list string) (i : nat) : value :=
  match nth_error parts i with
  | Some s => Str s
  | None => Undefined
  end.

(** [!specUrl || !specUrl.startsWith('http')] *)
Definition bad_specUrl (specUrl : value) : bool :=
  match specUrl with
  | Str s => negb (truthy specUrl) || negb (Str.startsWith s "http")
  | _ => true
  end.

(** [s.replace(/\/$/, '')] *)
Fixpoint strip_trailing_slash (s : string) : string :=
  match s with
  | EmptyString => EmptyString
  | String c s' =>
      match s' with
      | EmptyString => if Ascii.eqb c "/" then EmptyString else s
      | _ => String c (strip_trailing_slash s')
      end
  end.

(** [spec.servers?.[0]?.url] *)
Definition server0_url (spec : value) : res value :=
  servers <- get spec "servers" ;;
  s0 <- get_opt servers "0" ;;
  get_opt s0 "url".

Definition serverUrl_of (spec : value) : res string :=
  url <- server0_url spec ;;
  match or url (Str EmptyString) with
  | Str u => Ok (strip_trailing_slash u)
  | _ => Throw (TypeError "(intermediate value).replace is not a function")
  end.

Record Blueprint : Type := {
  name : string;
  path : string;
  operationUrl : string;
  schemaKeys : list string
}.

(** [path.replace(/\//g, '_')] *)
Definition slashes_to_underscores (p : string) : string :=
  Str.map (fun c => if Ascii.eqb c "/" then "_"%char else c) p.

Definition sanitize_value (bpName : value) : res string :=
  match bpName with
  | Str s => Ok (sanitizeToolName s)
  | _ => Throw (TypeError "name.toLowerCase is not a function")
  end.

(** The keys of the request body schema of one operation. *)
Definition schemaKeys_of (operation spec : value) : res (list string) :=
  requestBody <- get operation "requestBody" ;;
  if truthy requestBody then
    c <- get requestBody "content" ;;
    content <- get_opt c "application/json" ;;
    rawSchema <- get_opt content "schema" ;;
    if truthy rawSchema then
      resolvedSchema <- resolveSchema rawSchema spec ;;
      properties <- get_opt resolvedSchema "properties" ;;
      if truthy properties then
        ks <- keys properties ;;
        Ok (set_of_list ks)
      else Ok []
    else Ok []
  else Ok [].

(** One turn of the loop over [Object.entries(spec.paths)]. *)
Definition blueprint_of (serverUrl : string) (spec : value)
  (entry : string * value) : res (option Blueprint) :=
  let '(p, pathItem) := entry in
  operation <- get pathItem "post" ;;
  if negb (truthy operation) then Ok None
  else
    deprecated <- get operation "deprecated" ;;
    if truthy deprecated then Ok None
    else
      summary <- get operation "summary" ;;
      operationId <- get operation "operationId" ;;
      let bpName := or (or summary operationId) (Str (slashes_to_underscores p)) in
      ks <- schemaKeys_of operation spec ;;
      n <- sanitize_value bpName ;;
      Ok (Some {| name := n; path := p;
                  operationUrl := serverUrl ++ p; schemaKeys := ks |}).

Fixpoint somes {A : Type} (l : list (option A)) : list A :=
  match l with
  | [] => []
  | Some a :: l' => a :: somes l'
  | None :: l' => somes l'
  end.

Definition collectBlueprints (serverUrl : string) (spec : value)
  : res (list Blueprint) :=
  paths <- get spec "paths" ;;
  es <- entries paths ;;
  bs <- mapM (blueprint_of serverUrl spec) es ;;
  Ok (somes bs).

(** Strategy 1: match by the action field. *)
Definition match_action (action : string) (blueprints : list Blueprint)
  : option Blueprint :=
  if negb (String.eqb action EmptyString) then
    let actionSanitized := sanitizeToolName action in
    find (fun bp => String.eqb (name bp) actionSanitized) blueprints
  else None.

(** The inner loop: how many input keys the blueprint's schema has. *)
Definition overlap (inputKeys : list string) (bp : Blueprint) : nat :=
  List.length (List.filter (set_has (schemaKeys bp)) inputKeys).

(** [score + coverage], the quotient taken in exact rationals. *)
Definition weightedScore (inputKeys : list string) (bp : Blueprint) : Q :=
  let score := overlap inputKeys bp in
  let coverage := (inject_Z (Z.of_nat score)
                   / inject_Z (Z.of_nat (List.length (schemaKeys bp))))%Q in
  (inject_Z (Z.of_nat score) + coverage)%Q.

(** [weightedScore > bestScore] *)
Definition Qgtb (a b : Q) : bool := negb (Qle_bool a b).

Definition score_step (inputKeys : list string)
  (st : Q * option Blueprint) (bp : Blueprint) : Q * option Blueprint :=
  let '(bestScore, matched) := st in
  if List.length (schemaKeys bp) =? 0 then st
  else
    let w := weightedScore inputKeys bp in
    if Qgtb w bestScore then (w, Some bp) else st.

(** Strategy 2: the single blueprint, or the best schema-key score. *)
Definition match_schema (blueprints : list Blueprint)
  (toolArgs : list (string * value)) : option Blueprint :=
  match blueprints with
  | [bp] => Some bp
  | [] => None
  | _ =>
      let inputKeys := set_of_list (List.map fst toolArgs) in
      snd (fold_left (score_step inputKeys) blueprints ((-1)%Q, None))
  end.

Definition route (action : string) (blueprints : list Blueprint)
  (toolArgs : list (string * value)) : option Blueprint :=
  match match_action action blueprints with
  | Some bp => Some bp
  | None => match_schema blueprints toolArgs
  end.

Section Execute.
Context `{Host}.

Definition no_match_message (blueprints : list Blueprint)
  (toolArgs : list (string * value)) : string :=
  "No blueprint matched the input arguments: "
  ++ JSON_stringify (Arr (List.map (fun kv => Str (fst kv)) toolArgs)) ++ ". "
  ++ "Available blueprints: " ++ Str.join (List.map name blueprints) ", ".

Definition spec_request (specUrl : string) : value :=
  Obj [("method", Str "GET"); ("url", Str specUrl); ("json", Bool true)].

Definition blueprint_request (executionId : string) (matched : Blueprint)
  (toolArgs : list (string * value)) : value :=
  Obj [("method", Str "POST");
       ("url", Str (operationUrl matched));
       ("headers", Obj [("X-Correlation-Id", Str executionId);
                        ("Content-Type", Str "application/json")]);
       ("body", Obj toolArgs);
       ("json", Bool true);
       ("returnFullResponse", Bool true);
       ("ignoreHttpStatusErrors", Bool true)].

(** [statusCode >= 400] on a number. *)
Definition ge400 (statusCode : value) : bool :=
  match statusCode with
  | Num n => (400 <=? n)%Z
  | _ => false
  end.

Definition generic_message (statusCode : value) : value :=
  Str ("Request failed with status " ++ to_text statusCode).

(** [errorBody.detail || errorBody.error || errorBody.message || `...`] *)
Definition errorMessage_of (errorBody statusCode : value) : res value :=
  detail <- get errorBody "detail" ;;
  error <- get errorBody "error" ;;
  message <- get errorBody "message" ;;
  Ok (or (or (or detail error) message) (generic_message statusCode)).

Definition errorBody_of (responseBody : value) : value :=
  if is_object responseBody then responseBody else Obj [].

(** [headers['x-run-id'] || headers['X-Run-Id']] *)
Definition runId_of (headers : value) : res value :=
  a <- get headers "x-run-id" ;;
  b <- get headers "X-Run-Id" ;;
  Ok (or a b).

Definition editorLink_of (matched_path : string) (editorBaseUrl : value)
  : value :=
  let modelId := modelId_of matched_path in
  if truthy modelId && truthy editorBaseUrl
     && negb (strict_eq editorBaseUrl (Str "undefined"))
  then Str (to_text editorBaseUrl ++ "/" ++ to_text modelId)
  else Str EmptyString.

Definition resultObj_of (responseBody : value) : res (list (string * value)) :=
  if is_object responseBody then entries responseBody
  else Ok [("result", responseBody)].

Definition record (json : list (string * value)) (itemIndex : nat) : value :=
  Obj [("json", Obj json);
       ("pairedItem", Obj [("item", Num (Z.of_nat itemIndex))])].

(** What the code does with the response of the blueprint call. *)
Definition classify (matched : Blueprint) (editorBaseUrl response : value)
  (itemIndex : nat) : res value :=
  sc <- get response "statusCode" ;;
  let statusCode := or sc (Num 200) in
  responseBody <- get response "body" ;;
  if ge400 statusCode then
    errorMessage <- errorMessage_of (errorBody_of responseBody) statusCode ;;
    Ok (record [("error", errorMessage); ("statusCode", statusCode)] itemIndex)
  else
    headers <- get response "headers" ;;
    runId <- runId_of headers ;;
    let editorLink := editorLink_of (path matched) editorBaseUrl in
    resultObj <- resultObj_of responseBody ;;
    Ok (record (Js.define resultObj "_metadata"
                  (Obj [("runId", runId); ("editorLink", editorLink)]))
               itemIndex).

(** The body of the [try] for one item. *)
Definition item_body (executionId projectValue : string) (input : value)
  (itemIndex : nat) : res value :=
  action <- action_of input ;;
  toolArgs <- toolArgs_of input ;;
  let projectParts := Str.split projectValue "::" in
  let specUrl := nth_part projectParts 1 in
  let editorBaseUrl := nth_part projectParts 2 in
  if bad_specUrl specUrl then
    Throw (NodeOperationError
             ("Invalid project configuration. Cannot parse spec URL from: "
              ++ Str.dquote ++ projectValue ++ Str.dquote))
  else
    spec <- httpRequestWithAuthentication (spec_request (to_text specUrl)) ;;
    serverUrl <- serverUrl_of spec ;;
    if negb (Str.startsWith serverUrl "http") then
      url <- server0_url spec ;;
      Throw (NodeOperationError
               ("OpenAPI spec server URL is not absolute: "
                ++ Str.dquote ++ to_text url ++ Str.dquote))
    else
      blueprints <- collectBlueprints serverUrl spec ;;
      match route action blueprints toolArgs with
      | None => Throw (NodeOperationError (no_match_message blueprints toolArgs))
      | Some matched =>
          response <- httpRequestWithAuthentication
                        (blueprint_request executionId matched toolArgs) ;;
          classify matched editorBaseUrl response itemIndex
      end.

(** [try { ... } catch (error) { ... }] around one item. *)
Definition item (executionId projectValue : string) (input : value)
  (itemIndex : nat) : res value :=
  catch (item_body executionId projectValue input itemIndex)
        (fun error =>
           if is_NodeOperationError error then Throw error
           else Throw (NodeOperationError
                         ("Blueprint execution failed: " ++ exn_message error))).

(** The loop of [execute] over the input items: the first item that
    throws ends the run. *)
Definition execute (executionId : string) (project : nat -> string)
  (items : list value) : res (list value) :=
  mapM (fun ix => item executionId (project (fst ix)) (snd ix) (fst ix))
       (combine (seq 0 (List.length items)) items).

End Execute.

End LeapterTool.

(** ** Leapter.node.ts

    The node carries its own copies of [resolveSchema] and [tryParseJson],
    identical to those of utils.ts. *)

Module Leapter.

Section Execute.
Context `{Host}.

(** ['k' in v] *)
Definition has_property (v : value) (k : string) : bool :=
  match v with
  | Obj fields => match lookup k fields with Some _ => true | None => false end
  | Arr l =>
      String.eqb k "length"
      || match index_of_key k with Some i => i <? List.length l | None => false end
  | _ => false
  end.

(** The properties [{...v}] copies. *)
Definition spread_entries (v : value) : res (list (string * value)) :=
  match v with
  | Undefined | Null => Ok []
  | _ => entries v
  end.

(** Visual mode: the loop over [Object.entries(paramValues)]. *)
Definition gather_step (bodyParams : list (string * value))
  (entry : string * value) : res (list (string * value)) :=
  let '(key, v) := entry in
  if Str.startsWith key "body." then
    let paramName := Str.replaceFirst "body." EmptyString key in
    parsedValue <- tryParseJson v ;;
    Ok (Js.set bodyParams paramName parsedValue)
  else Ok bodyParams.

Definition gather (inputMode : string) (parameters : value)
  (parametersJson : string) : res value :=
  if String.eqb inputMode "visual" then
    v <- get parameters "value" ;;
    es <- entries (or v (Obj [])) ;;
    bodyParams <- foldM gather_step es [] ;;
    Ok (Obj bodyParams)
  else JSON_parse parametersJson.

Definition part (parts : list string) (i : nat) : value :=
  match nth_error parts i with
  | Some s => Str s
  | None => Undefined
  end.

Definition modelId_of_value (path : value) : res value :=
  match path with
  | Str p => Ok (modelId_of p)
  | Undefined =>
      Throw (TypeError "Cannot read properties of undefined (reading 'match')")
  | _ => Throw (TypeError "path.match is not a function")
  end.

Definition request_of (method : string) (operationUrl executionId : value)
  (options bodyParams : value) : res value :=
  referer <- get options "referer" ;;
  timeout <- get options "timeout" ;;
  let headers :=
    [("X-Correlation-Id", or executionId (Str EmptyString));
     ("Content-Type", Str "application/json")]
    ++ (if truthy referer then [("X-Referer", referer)] else []) in
  let requestOptions :=
    [("method", Str (toUpperCase method));
     ("url", operationUrl);
     ("headers", Obj headers);
     ("body", bodyParams);
     ("json", Bool true);
     ("returnFullResponse", Bool true);
     ("ignoreHttpStatusErrors", Bool true)] in
  Ok (Obj (if truthy timeout then Js.set requestOptions "timeout" timeout
           else requestOptions)).

(** The three variables the code fills from the response. *)
Record Unpacked : Type := {
  responseBody : value;
  responseHeaders : value;
  statusCode : value
}.

Definition unpack (response : value) : res Unpacked :=
  if is_object response then
    if has_property response "body" && has_property response "headers" then
      body <- get response "body" ;;
      rb <- (match body with Str s => JSON_parse s | _ => Ok body end) ;;
      headers <- get response "headers" ;;
      sc <- get response "statusCode" ;;
      Ok {| responseBody := rb; responseHeaders := headers;
            statusCode := or sc (Num 200) |}
    else
      Ok {| responseBody := response; responseHeaders := Obj [];
            statusCode := Num 200 |}
  else
    match response with
    | Str s =>
        rb <- JSON_parse s ;;
        Ok {| responseBody := rb; responseHeaders := Obj [];
              statusCode := Num 200 |}
    | _ =>
        Ok {| responseBody := Obj []; responseHeaders := Obj [];
              statusCode := Num 200 |}
    end.

Definition record (json : list (string * value)) (itemIndex : nat) : value :=
  Obj [("json", Obj json);
       ("pairedItem", Obj [("item", Num (Z.of_nat itemIndex))])].

(** [modelId ? `${editorBaseUrl}/${modelId}` : editorBaseUrl] *)
Definition editorLink_of (modelId editorBaseUrl : value) : value :=
  if truthy modelId
  then Str (to_text editorBaseUrl ++ "/" ++ to_text modelId)
  else editorBaseUrl.

(** The check for an error status. *)
Definition error_status (continueOnFail : bool) (u : Unpacked)
  (itemIndex : nat) : res value :=
  errorMessage <- LeapterTool.errorMessage_of (responseBody u) (statusCode u) ;;
  if continueOnFail then
    rest <- spread_entries (responseBody u) ;;
    Ok (record (spread [("error", errorMessage); ("statusCode", statusCode u)]
                       rest) itemIndex)
  else Throw (NodeOperationError errorMessage).

Definition success (u : Unpacked) (modelId editorBaseUrl : value)
  (itemIndex : nat) : res value :=
  runId <- LeapterTool.runId_of (responseHeaders u) ;;
  let editorLink := editorLink_of modelId editorBaseUrl in
  rest <- spread_entries (responseBody u) ;;
  Ok (record (Js.define rest "_metadata"
                (Obj [("runId", runId); ("editorLink", editorLink)]))
             itemIndex).

Definition classify (continueOnFail : bool) (u : Unpacked)
  (modelId editorBaseUrl : value) (itemIndex : nat) : res value :=
  if LeapterTool.ge400 (statusCode u)
  then error_status continueOnFail u itemIndex
  else success u modelId editorBaseUrl itemIndex.

(** The body of the [try] for one item. *)
Definition item_body (continueOnFail : bool) (executionId : value)
  (operation inputMode : string) (options parameters : value)
  (parametersJson : string) (itemIndex : nat) : res value :=
  let parts := Str.split operation "::" in
  let method := part parts 0 in
  let path := part parts 1 in
  let operationUrl := part parts 2 in
  let editorBaseUrl := part parts 3 in
  modelId <- modelId_of_value path ;;
  bodyParams <- gather inputMode parameters parametersJson ;;
  request <- request_of (to_text method) operationUrl executionId
                        options bodyParams ;;
  response <- httpRequestWithAuthentication request ;;
  u <- unpack response ;;
  classify continueOnFail u modelId editorBaseUrl itemIndex.

(** [try { ... } catch (error) { ... }] around one item. *)
Definition item (continueOnFail : bool) (executionId : value)
  (operation inputMode : string) (options parameters : value)
  (parametersJson : string) (itemIndex : nat) : res value :=
  catch (item_body continueOnFail executionId operation inputMode options
                   parameters parametersJson itemIndex)
        (fun err =>
           if continueOnFail
           then Ok (record [("error", Str (exn_message err))] itemIndex)
           else Throw (NodeOperationError
                         ("Blueprint execution failed: " ++ exn_message err))).

(** The parameters of the node for one item. *)
Record NodeParameters : Type := {
  operation : string;
  inputMode : string;
  options : value;
  parameters : value;
  parametersJson : string
}.

(** [execute]: the check of the project, then the loop over the items. *)
Definition execute (continueOnFail : bool) (executionId projectValue : value)
  (getNodeParameters : nat -> NodeParameters) (items : list value)
  : res (list value) :=
  if negb (truthy projectValue) then
    Throw (NodeOperationError
             "No project selected. Please select a project first.")
  else
    mapM (fun itemIndex =>
            let p := getNodeParameters itemIndex in
            item continueOnFail executionId (operation p) (inputMode p)
                 (options p) (parameters p) (parametersJson p) itemIndex)
         (seq 0 (List.length items)).

End Execute.

End Leapter.

(** ** A project to run the nodes on

    One document with two blueprints, [Weather] (its body schema behind a
    [$ref], with a nested object) and [Search], served by a host that
    answers every blueprint call with status 200 and a run identifier. *)

Module Sample.

Definition string_schema : value := Obj [("type", Str "string")].

Definition details_schema : value :=
  Obj [("type", Str "object");
       ("properties", Obj [("units", string_schema); ("lang", string_schema)]);
       ("required", Arr [Str "units"])].

Definition weather_schema : value :=
  Obj [("type", Str "object");
       ("properties", Obj [("city", string_schema);
                           ("details", details_schema)]);
       ("required", Arr [Str "city"])].

Definition search_schema : value :=
  Obj [("type", Str "object");
       ("properties", Obj [("query", string_schema)]);
       ("required", Arr [Str "query"])].

Definition operation (summary : string) (schema : value) : value :=
  Obj [("summary", Str summary);
       ("requestBody",
        Obj [("content",
              Obj [("application/json", Obj [("schema", schema)])])])].

Definition weather_operation : value :=
  operation "Weather" (Obj [("$ref", Str "#/components/schemas/WeatherInput")]).

Definition spec : value :=
  Obj [("openapi", Str "3.0.0");
       ("servers", Arr [Obj [("url", Str "https://api.example.com/")]]);
       ("paths",
        Obj [("/models/weather/runs", Obj [("post", weather_operation)]);
             ("/models/search/runs",
              Obj [("post", operation "Search" search_schema)])]);
       ("components",
        Obj [("schemas", Obj [("WeatherInput", weather_schema)])])].

Definition response : value :=
  Obj [("body", Obj [("answer", Str "sunny")]);
       ("headers", Obj [("x-run-id", Str "abc123")]);
       ("statusCode", Num 200)].

Definition parse (s : string) : res value :=
  if String.eqb s "[]" then Ok (Arr [])
  else if String.eqb s "{}" then Ok (Obj [])
  else Throw (SyntaxError "Unexpected token").

Definition request (options : value) : res value :=
  match get options "method" with
  | Ok (Str "GET") => Ok spec
  | _ => Ok response
  end.

(** The message of an error as n8n is seen to make it: none for an
    argument that is not a string, a text of its own for one that holds
    the code of a refused connection, else the argument. *)
Definition message (argument : value) : string :=
  match argument with
  | Str text =>
      if Str.includes text "ECONNREFUSED"
      then "The service refused the connection - perhaps it is offline"
      else text
  | _ => EmptyString
  end.

Definition host : Host := {|
  JSON_parse := parse;
  JSON_stringify := fun _ => "[]";
  toUpperCase := fun s => s;
  httpRequestWithAuthentication := request;
  NodeOperationError_message := message
|}.

Definition projectValue : string :=
  project_value {| projectId := "p1";
                   projectName := "Demo";
                   specUrl := "https://lab.example.com/spec.json";
                   editorBaseUrl := "https://lab.example.com/editor" |}.

Definition input : value :=
  Obj [("sessionId", Str "s-1"); ("action", Str "Weather");
       ("city", Str "Paris"); ("toolCallId", Str "call-7")].

End Sample.

From Stdlib Require Import Permutation DecimalNat.

(** ** utils.ts and Leapter.node.ts: what the editor loads

    [fetchProjects] and [fetchOperations] of utils.ts are the bodies of
    [getProjects] and [getOperations] of Leapter.node.ts;
    [getOperationFields] and [mapOpenApiType] are the node's. *)

(** What these functions take from n8n and from the engine: the stored
    credentials, the [statusCode] an error object carries (the request
    helper sets it; a [NodeOperationError] has none) and
    [options.sort((a, b) => a.name.localeCompare(b.name))], of which only
    the fact that it returns the same options in some order is used. *)
Class Editor : Type := {
  getCredentials : res value;
  statusCode_of : exn -> value;
  sort_by_name : list value -> res (list value);
  node_error_without_status :
    forall message, statusCode_of (NodeOperationError message) = Undefined;
  sort_permutes :
    forall options sorted,
      sort_by_name options = Ok sorted -> Permutation options sorted
}.

Module Load.

(** [mapOpenApiType] *)
Definition typeMap : list (string * value) :=
  [("string", Str "string"); ("integer", Str "number");
   ("number", Str "number"); ("boolean", Str "boolean");
   ("object", Str "object"); ("array", Str "array")].

(** [typeMap[openApiType || 'string'] || 'string'], the read of
    [typeMap] being that of [get]: for a type whose name is not
    [inherited]. *)
Definition mapOpenApiType (openApiType : value) : value :=
  or (Js.opt (lookup (to_text (or openApiType (Str "string"))) typeMap))
     (Str "string").

(** [arr.map(f)] *)
Definition array_map (f : value -> res value) (arr : value) : res (list value) :=
  match arr with
  | Arr l => mapM f l
  | Undefined =>
      Throw (TypeError "Cannot read properties of undefined (reading 'map')")
  | Null => Throw (TypeError "Cannot read properties of null (reading 'map')")
  | _ => Throw (TypeError "map is not a function")
  end.

(** [!v || v.length === 0] *)
Definition missing_or_empty (v : value) : res bool :=
  if negb (truthy v) then Ok true
  else len <- get v "length" ;; Ok (strict_eq len (Num 0)).

(** [err.statusCode === 401 || err.statusCode === 403] *)
Definition unauthorized `{Editor} (err : exn) : bool :=
  strict_eq (statusCode_of err) (Num 401)
  || strict_eq (statusCode_of err) (Num 403).

Section Editor.
Context `{Host} `{Editor}.

(** The option [fetchProjects] makes of one project. *)
Definition project_option (project : value) : res value :=
  projectName <- get project "projectName" ;;
  projectId <- get project "projectId" ;;
  specUrl <- get project "specUrl" ;;
  editorBaseUrl <- get project "editorBaseUrl" ;;
  Ok (Obj [("name", projectName);
           ("value", Str (to_text projectId ++ "::" ++ to_text specUrl ++ "::"
                          ++ to_text editorBaseUrl ++ "::"
                          ++ to_text projectName));
           ("description", Str ("Project ID: " ++ to_text projectId))]).

Definition projects_request (labUrl : value) : value :=
  Obj [("method", Str "POST");
       ("url", Str (to_text labUrl ++ "/api/v1/n8n/projects"));
       ("json", Bool true)].

(** The body of the [try] of [fetchProjects]. *)
Definition fetchProjects_body : res (list value) :=
  credentials <- getCredentials ;;
  labUrl <- get credentials "server" ;;
  discoveryResponse <- httpRequestWithAuthentication (projects_request labUrl) ;;
  projects <- get discoveryResponse "projects" ;;
  none <- missing_or_empty projects ;;
  if none then
    Throw (NodeOperationError
             "No projects found. Ensure your API key has access to at least one project.")
  else
    options <- array_map project_option projects ;;
    sort_by_name options.

Definition fetchProjects : res (list value) :=
  catch fetchProjects_body
        (fun err =>
           if unauthorized err then
             Throw (NodeOperationError
                      "Invalid API key or no project access. Please check your credentials.")
           else Throw (NodeOperationError
                         ("Failed to load projects: " ++ exn_message err))).

(** [{ method: 'GET', url: specUrl, json: true }] *)
Definition spec_request (specUrl : value) : value :=
  Obj [("method", Str "GET"); ("url", specUrl); ("json", Bool true)].

(** [spec.servers[0].url.replace(/\/$/, '')] *)
Definition serverUrl_of (spec : value) : res string :=
  servers <- get spec "servers" ;;
  s0 <- get servers "0" ;;
  url <- get s0 "url" ;;
  match url with
  | Str u => Ok (LeapterTool.strip_trailing_slash u)
  | Undefined =>
      Throw (TypeError "Cannot read properties of undefined (reading 'replace')")
  | Null =>
      Throw (TypeError "Cannot read properties of null (reading 'replace')")
  | _ => Throw (TypeError "spec.servers[0].url.replace is not a function")
  end.

(** The two checks of the document. *)
Definition check_spec (spec : value) : res unit :=
  openapi <- get spec "openapi" ;;
  paths <- get spec "paths" ;;
  if negb (truthy openapi) || negb (truthy paths) then
    Throw (NodeOperationError "Invalid OpenAPI specification")
  else
    servers <- get spec "servers" ;;
    none <- missing_or_empty servers ;;
    if none then
      Throw (NodeOperationError
               "OpenAPI spec must define at least one server URL")
    else Ok tt.

(** One turn of the loop of [fetchOperations]. *)
Definition operation_option (serverUrl : string) (editorBaseUrl : value)
  (entry : string * value) : res (option value) :=
  let '(path, pathItem) := entry in
  operation <- get pathItem "post" ;;
  if negb (truthy operation) then Ok None
  else
    deprecated <- get operation "deprecated" ;;
    if truthy deprecated then Ok None
    else
      let modelId := or (modelId_of path) (Str path) in
      let operationUrl := (serverUrl ++ path)%string in
      summary <- get operation "summary" ;;
      let blueprintName := or summary modelId in
      description <- get operation "description" ;;
      Ok (Some (Obj [("name", blueprintName);
                     ("value",
                      Str ("post::" ++ path ++ "::" ++ operationUrl ++ "::"
                           ++ to_text editorBaseUrl ++ "::"
                           ++ to_text blueprintName));
                     ("description", or description Undefined)])).

(** The body of the [try] of [fetchOperations]. *)
Definition fetchOperations_body (projectValue : string) : res (list value) :=
  let parts := Str.split projectValue "::" in
  let specUrl := LeapterTool.nth_part parts 1 in
  let editorBaseUrl := LeapterTool.nth_part parts 2 in
  spec <- httpRequestWithAuthentication (spec_request specUrl) ;;
  _ <- check_spec spec ;;
  serverUrl <- serverUrl_of spec ;;
  paths <- get spec "paths" ;;
  es <- entries (or paths (Obj [])) ;;
  returnData <- mapM (operation_option serverUrl editorBaseUrl) es ;;
  sort_by_name (LeapterTool.somes returnData).

Definition fetchOperations (projectValue : string) : res (list value) :=
  if String.eqb projectValue EmptyString then Ok []
  else
    catch (fetchOperations_body projectValue)
          (fun err =>
             if Str.includes (exn_message err) "Invalid API key"
                || unauthorized err
             then Throw (NodeOperationError
                           "Invalid API key. Please check your credentials.")
             else Throw (NodeOperationError
                           ("Failed to load blueprints: " ++ exn_message err))).

(** [resolvedField.enum.map((value) => ({ name: value, value: value }))] *)
Definition enum_options (enum : value) : res value :=
  l <- array_map (fun v => Ok (Obj [("name", v); ("value", v)])) enum ;;
  Ok (Arr l).

Definition string_array_placeholder : string :=
  "[" ++ Str.dquote ++ "value1" ++ Str.dquote ++ ", "
  ++ Str.dquote ++ "value2" ++ Str.dquote ++ "]".

(** The field [getOperationFields] makes of one property. *)
Definition field_of (spec required : value) (entry : string * value)
  : res value :=
  let '(fieldName, fieldSchema) := entry in
  resolvedField <- resolveSchema fieldSchema spec ;;
  description <- get resolvedField "description" ;;
  let fieldDisplayName :=
    if truthy description
    then (fieldName ++ " - " ++ to_text description)%string
    else fieldName in
  enum <- get resolvedField "enum" ;;
  if truthy enum then
    isRequired <- includes_key required fieldName ;;
    options <- enum_options enum ;;
    Ok (Obj [("id", Str ("body." ++ fieldName));
             ("displayName", Str fieldDisplayName);
             ("required", Bool isRequired);
             ("defaultMatch", Bool false);
             ("display", Bool true);
             ("type", Str "options");
             ("options", options);
             ("canBeUsedToMatch", Bool false)])
  else
    ty <- get resolvedField "type" ;;
    if strict_eq ty (Str "array") then
      items <- get resolvedField "items" ;;
      it <- get_opt items "type" ;;
      let itemType := or it (Str "string") in
      isRequired <- includes_key required fieldName ;;
      Ok (Obj [("id", Str ("body." ++ fieldName));
               ("displayName", Str (fieldDisplayName ++ " (JSON array)"));
               ("required", Bool isRequired);
               ("defaultMatch", Bool false);
               ("display", Bool true);
               ("type", Str "string");
               ("canBeUsedToMatch", Bool false);
               ("defaultValue",
                Str (if strict_eq itemType (Str "string")
                     then string_array_placeholder else "[1, 2, 3]"))])
    else
      isRequired <- includes_key required fieldName ;;
      Ok (Obj [("id", Str ("body." ++ fieldName));
               ("displayName", Str fieldDisplayName);
               ("required", Bool isRequired);
               ("defaultMatch", Bool false);
               ("display", Bool true);
               ("type", mapOpenApiType ty);
               ("canBeUsedToMatch", Bool false)]).

(** The fields of the request body of one operation. *)
Definition body_fields (operationDef spec : value) : res (list value) :=
  requestBody <- get operationDef "requestBody" ;;
  if truthy requestBody then
    content <- get requestBody "content" ;;
    jsonContent <- get_opt content "application/json" ;;
    rawSchema <- get_opt jsonContent "schema" ;;
    if truthy rawSchema then
      schema <- resolveSchema rawSchema spec ;;
      p <- get schema "properties" ;;
      r <- get schema "required" ;;
      es <- entries (or p (Obj [])) ;;
      mapM (field_of spec (or r (Arr []))) es
    else Ok []
  else Ok [].

(** The body of the [try] of [getOperationFields]. *)
Definition getOperationFields_body (projectValue operationValue : string)
  : res (list value) :=
  let specUrl := LeapterTool.nth_part (Str.split projectValue "::") 1 in
  let method := LeapterTool.nth_part (Str.split operationValue "::") 0 in
  let path := LeapterTool.nth_part (Str.split operationValue "::") 1 in
  spec <- httpRequestWithAuthentication (spec_request specUrl) ;;
  paths <- get spec "paths" ;;
  pathItem <- get paths (to_text path) ;;
  if negb (truthy pathItem) then
    Throw (NodeOperationError ("Path " ++ to_text path ++ " not found in spec"))
  else
    operationDef <- get pathItem (to_text method) ;;
    if negb (truthy operationDef) then
      Throw (NodeOperationError
               ("Operation " ++ to_text method ++ " " ++ to_text path
                ++ " not found in spec"))
    else body_fields operationDef spec.

Definition getOperationFields (projectValue operationValue : string)
  : res (list value) :=
  if String.eqb projectValue EmptyString
     || String.eqb operationValue EmptyString
  then Ok []
  else
    catch (getOperationFields_body projectValue operationValue)
          (fun err =>
             Throw (NodeOperationError
                      ("Failed to load operation fields: " ++ exn_message err))).

End Editor.

End Load.

(** ** LeapterTool.node.ts: the tools given to the agent

    [createTool] of the first version of the node, whose tools call the
    blueprint themselves, and [supplyData] of the last version, whose
    tools are called through [execute]. [describeOperationParams] of
    utils.ts is a parameter of [supplyData]. *)

Module Supply.

(** The fields of [opts] that [func] reads. *)
Record Options : Type := {
  editorBaseUrl : value;
  path : string;
  operationUrl : string;
  hasSchema : bool;
  executionId : string
}.

(** [...(typeof responseBody === 'object' ? responseBody
        : { result: responseBody })] *)
Definition spread_result (responseBody : value)
  : res (list (string * value)) :=
  match responseBody with
  | Null => Ok []
  | Arr _ | Obj _ => entries responseBody
  | _ => Ok [("result", responseBody)]
  end.

Definition newline : string := String (ascii_of_nat 10) EmptyString.

(** [filterArray.map((v) => v.split('::')[1])] *)
Definition filterPath_of (v : value) : res value :=
  match v with
  | Str s => Ok (LeapterTool.nth_part (Str.split s "::") 1)
  | Undefined =>
      Throw (TypeError "Cannot read properties of undefined (reading 'split')")
  | Null => Throw (TypeError "Cannot read properties of null (reading 'split')")
  | _ => Throw (TypeError "v.split is not a function")
  end.

(** The elements of [filterPaths]; of the set only [size > 0] and [has]
    are used. *)
Definition filterPaths_of (blueprintFilter : value) : res (list value) :=
  match blueprintFilter with
  | Arr filterArray => mapM filterPath_of filterArray
  | _ => Ok []
  end.

Definition hasFilter (filterPaths : list value) : bool :=
  0 <? List.length filterPaths.

(** [filterPaths.has(path)] *)
Definition has (filterPaths : list value) (p : string) : bool :=
  existsb (strict_eq (Str p)) filterPaths.

Record ToolEntry : Type := {
  entry_name : string;
  entry_description : string;
  entry_schema : list (string * zod)
}.

(** What [new DynamicStructuredTool] is given; [func] ignores its
    arguments, [tool_func] is what it returns. *)
Record Tool : Type := {
  tool_name : value;
  tool_description : string;
  tool_schema : zod;
  tool_func : string;
  sourceNodeName : value
}.

(** [spec.servers[0].url] *)
Definition rawServerUrl_of (spec : value) : res value :=
  servers <- get spec "servers" ;;
  s0 <- get servers "0" ;;
  get s0 "url".

Section SupplyData.
Context `{Host}.

(** [func] of the tool [createTool] makes: the body of its [try]. *)
Definition func_body (opts : Options) (toolArgs : value) : res string :=
  let body := if hasSchema opts then toolArgs else Obj [] in
  response <- httpRequestWithAuthentication
                (Obj [("method", Str "POST");
                      ("url", Str (operationUrl opts));
                      ("headers",
                       Obj [("X-Correlation-Id", Str (executionId opts));
                            ("Content-Type", Str "application/json")]);
                      ("body", body);
                      ("json", Bool true);
                      ("returnFullResponse", Bool true);
                      ("ignoreHttpStatusErrors", Bool true)]) ;;
  sc <- get response "statusCode" ;;
  let statusCode := or sc (Num 200) in
  responseBody <- get response "body" ;;
  if LeapterTool.ge400 statusCode then
    errorMessage <- LeapterTool.errorMessage_of
                      (LeapterTool.errorBody_of responseBody) statusCode ;;
    Ok (JSON_stringify (Obj [("error", errorMessage);
                             ("statusCode", statusCode)]))
  else
    headers <- get response "headers" ;;
    runId <- LeapterTool.runId_of headers ;;
    let editorLink :=
      Leapter.editorLink_of (modelId_of (path opts)) (editorBaseUrl opts) in
    rest <- spread_result responseBody ;;
    Ok (JSON_stringify
          (Obj (Js.define rest "_metadata"
                  (Obj [("runId", runId); ("editorLink", editorLink)])))).

Definition func (opts : Options) (toolArgs : value) : res string :=
  catch (func_body opts toolArgs)
        (fun err =>
           Ok (JSON_stringify
                 (Obj [("error",
                        Str ("Blueprint execution failed: "
                             ++ exn_message err))]))).

Variable describeOperationParams : value -> value -> res value.

(** One turn of the loop of [supplyData] over the paths. *)
Definition toolEntry_of (depth : nat) (spec toolDescriptionPrefix : value)
  (filterPaths : list value) (entry : string * value)
  : res (option ToolEntry) :=
  let '(p, pathItem) := entry in
  operation <- get pathItem "post" ;;
  if negb (truthy operation) then Ok None
  else
    deprecated <- get operation "deprecated" ;;
    if truthy deprecated then Ok None
    else if hasFilter filterPaths && negb (has filterPaths p) then Ok None
    else
      summary <- get operation "summary" ;;
      operationId <- get operation "operationId" ;;
      let blueprintName :=
        or (or summary operationId)
           (Str (LeapterTool.slashes_to_underscores p)) in
      toolName <- LeapterTool.sanitize_value blueprintName ;;
      paramDescription <- describeOperationParams operation spec ;;
      description <- get operation "description" ;;
      let lines :=
        List.filter truthy
          [toolDescriptionPrefix;
           or (or description summary) blueprintName;
           paramDescription] in
      zodShape <- buildZodSchemaFromOperation depth operation spec ;;
      Ok (Some {| entry_name := toolName;
                  entry_description :=
                    Str.join (List.map to_text lines) newline;
                  entry_schema := zodShape |}).

(** [toolEntries.map((entry, i) => new DynamicStructuredTool({...}))] *)
Definition tool_of (uniqueNames : list string) (nodeName : value)
  (i : nat) (entry : ToolEntry) : Tool :=
  let hasSchema := 0 <? List.length (entry_schema entry) in
  {| tool_name := LeapterTool.nth_part uniqueNames i;
     tool_description := entry_description entry;
     tool_schema :=
       if hasSchema then ZObject (entry_schema entry)
       else ZObject [("input",
                      ZDescribed (ZOptional ZString) (Str "Optional input"))];
     tool_func :=
       JSON_stringify
         (Obj [("error",
                Str "Unexpected: func should not be called directly")]);
     sourceNodeName := nodeName |}.

Definition supplyData (depth : nat) (projectValue : string)
  (blueprintFilter toolDescriptionPrefix nodeName : value)
  : res (list Tool) :=
  if String.eqb projectValue EmptyString then
    Throw (NodeOperationError
             "No project selected. Please select a project first.")
  else
    let specUrl := LeapterTool.nth_part (Str.split projectValue "::") 1 in
    if LeapterTool.bad_specUrl specUrl then
      Throw (NodeOperationError
               ("Invalid project value. Expected compound format but got: "
                ++ Str.dquote ++ projectValue ++ Str.dquote
                ++ " (parsed specUrl: " ++ Str.dquote ++ to_text specUrl
                ++ Str.dquote ++ ")"))
    else
      spec <- httpRequestWithAuthentication (Load.spec_request specUrl) ;;
      _ <- Load.check_spec spec ;;
      serverUrl <- Load.serverUrl_of spec ;;
      if negb (Str.startsWith serverUrl "http://")
         && negb (Str.startsWith serverUrl "https://")
      then
        rawServerUrl <- rawServerUrl_of spec ;;
        Throw (NodeOperationError
                 ("OpenAPI spec server URL must be absolute, got: "
                  ++ Str.dquote ++ to_text rawServerUrl ++ Str.dquote ++ ". "
                  ++ "The spec.servers[0].url must include the protocol and host."))
      else
        filterPaths <- filterPaths_of blueprintFilter ;;
        paths <- get spec "paths" ;;
        es <- entries paths ;;
        found <- mapM (toolEntry_of depth spec toolDescriptionPrefix
                                    filterPaths) es ;;
        let toolEntries := LeapterTool.somes found in
        if List.length toolEntries =? 0 then
          Throw (NodeOperationError
                   "No blueprints found in the selected project. Ensure the project has published blueprints.")
        else
          let uniqueNames :=
            deduplicateToolNames (List.map entry_name toolEntries) in
          Ok (List.map (fun ie => tool_of uniqueNames nodeName (fst ie) (snd ie))
                       (combine (seq 0 (List.length toolEntries)) toolEntries)).

End SupplyData.

End Supply.

(** ** A lab to load from

    The server of the sample project: it lists two projects, serves the
    sample document and answers blueprint calls as before. Its editor
    sorts by insertion, comparing names as strings. *)

Module Lab.

Definition project (id name : string) : value :=
  Obj [("projectId", Str id);
       ("projectName", Str name);
       ("specUrl", Str ("https://lab.example.com/specs/" ++ id ++ ".json"));
       ("editorBaseUrl", Str ("https://lab.example.com/editor/" ++ id))].

Definition discovery : value :=
  Obj [("accountId", Str "acc-1");
       ("projects", Arr [project "p2" "Zeta"; project "p1" "Demo"])].

Definition request (options : value) : res value :=
  match get options "method", get options "url" with
  | Ok (Str "GET"), _ => Ok Sample.spec
  | _, Ok (Str url) =>
      if Str.endsWith url "/api/v1/n8n/projects" then Ok discovery
      else Ok Sample.response
  | _, _ => Ok Sample.response
  end.

Definition host : Host := {|
  JSON_parse := Sample.parse;
  JSON_stringify := fun _ => "[]";
  toUpperCase := fun s => s;
  httpRequestWithAuthentication := request;
  NodeOperationError_message := Sample.message
|}.

Definition name_of (option : value) : string :=
  match get option "name" with
  | Ok v => to_text v
  | Throw _ => EmptyString
  end.

Fixpoint insert (o : value) (l : list value) : list value :=
  match l with
  | [] => [o]
  | x :: l' =>
      if String.leb (name_of o) (name_of x) then o :: l
      else x :: insert o l'
  end.

Definition sort (l : list value) : list value := fold_right insert [] l.

Lemma insert_permutes (o : value) (l : list value) :
  Permutation (o :: l) (insert o l).
Proof.
  induction l as [|x l IH]; simpl; [apply Permutation_refl|].
  destruct (String.leb (name_of o) (name_of x)); [apply Permutation_refl|].
  apply perm_trans with (x :: o :: l); [apply perm_swap|].
  now apply perm_skip.
Qed.

Lemma sort_is_permutation (l : list value) : Permutation l (sort l).
Proof.
  induction l as [|x l IH]; simpl; [constructor|].
  apply perm_trans with (x :: sort l); [now apply perm_skip|].
  apply insert_permutes.
Qed.

Lemma sorted_is_permutation (l sorted : list value) :
  Ok (sort l) = Ok sorted -> Permutation l sorted.
Proof. intros [= <-]. apply sort_is_permutation. Qed.

Definition editor : Editor := {|
  getCredentials := Ok (Obj [("server", Str "https://lab.example.com")]);
  statusCode_of := fun _ => Undefined;
  sort_by_name := fun l => Ok (sort l);
  node_error_without_status := fun _ => eq_refl;
  sort_permutes := sorted_is_permutation
|}.

(** The same lab with no project to list. *)
Definition host_without_projects : Host := {|
  JSON_parse := Sample.parse;
  JSON_stringify := fun _ => "[]";
  toUpperCase := fun s => s;
  httpRequestWithAuthentication :=
    fun _ => Ok (Obj [("accountId", Str "acc-1"); ("projects", Arr [])]);
  NodeOperationError_message := Sample.message
|}.

(** A server whose document declares no version. *)
Definition host_without_version : Host := {|
  JSON_parse := Sample.parse;
  JSON_stringify := fun _ => "[]";
  toUpperCase := fun s => s;
  httpRequestWithAuthentication :=
    fun _ => Ok (Obj [("paths", Obj []); ("servers", Arr [])]);
  NodeOperationError_message := Sample.message
|}.

(** A server that knows no blueprint: every call is answered with 404. *)
Definition not_found : value :=
  Obj [("body", Obj [("detail", Str "not found"); ("error", Str "E404")]);
       ("headers", Obj []);
       ("statusCode", Num 404)].

Definition host_not_found : Host := {|
  JSON_parse := Sample.parse;
  JSON_stringify := fun _ => "[]";
  toUpperCase := fun s => s;
  httpRequestWithAuthentication := fun _ => Ok not_found;
  NodeOperationError_message := Sample.message
|}.

(** The parameters of the node that runs the weather blueprint. *)
Definition weather_parameters : Leapter.NodeParameters := {|
  Leapter.operation :=
    "post::/models/weather/runs::https://api.example.com/models/weather/runs::https://lab.example.com/editor/p1::Weather";
  Leapter.inputMode := "visual";
  Leapter.options := Obj [];
  Leapter.parameters := Obj [("value", Obj [("body.city", Str "Paris")])];
  Leapter.parametersJson := "{}"
|}.

(** A document whose only blueprint takes a tree: a node has a value
    and children, which are nodes. *)
Definition children_schema : value :=
  Obj [("type", Str "array");
       ("items", Obj [("$ref", Str "#/components/schemas/Tree")])].

Definition tree_schema : value :=
  Obj [("type", Str "object");
       ("properties", Obj [("value", Sample.string_schema);
                           ("children", children_schema)])].

Definition tree_spec : value :=
  Obj [("openapi", Str "3.0.0");
       ("servers", Arr [Obj [("url", Str "https://api.example.com/")]]);
       ("paths",
        Obj [("/models/tree/runs",
              Obj [("post",
                    Sample.operation "Tree"
                      (Obj [("$ref", Str "#/components/schemas/Tree")]))])]);
       ("components", Obj [("schemas", Obj [("Tree", tree_schema)])])].

(** A description of the parameters of an operation: none. *)
Definition describeOperationParams (operation spec : value) : res value :=
  Ok (Str EmptyString).

(** A server that cannot be reached. *)
Definition host_unreachable : Host := {|
  JSON_parse := Sample.parse;
  JSON_stringify := fun _ => "[]";
  toUpperCase := fun s => s;
  httpRequestWithAuthentication :=
    fun _ => Throw (TypeError "connect ECONNREFUSED");
  NodeOperationError_message := Sample.message
|}.

End Lab.

(** * Properties *)

(** ** Strings *)

Module StrFacts.

Lemma append_nil_r (s : string) : (s ++ EmptyString)%string = s.
Proof. induction s as [|c s IH]; simpl; [reflexivity | now rewrite IH]. Qed.

Lemma append_assoc (a b c : string) :
  ((a ++ b) ++ c)%string = (a ++ (b ++ c))%string.
Proof. induction a as [|x a IH]; simpl; [reflexivity | now rewrite IH]. Qed.

Lemma slice0_length (n : nat) (s : string) :
  String.length (Str.slice0 n s) <= n.
Proof.
  unfold Str.slice0. revert s.
  induction n as [|n IH]; intros [|c s]; simpl; try lia.
  specialize (IH s). lia.
Qed.

Lemma forallb_slice0 (p : ascii -> bool) (n : nat) (s : string) :
  Str.forallb p s = true -> Str.forallb p (Str.slice0 n s) = true.
Proof.
  unfold Str.slice0. revert s.
  induction n as [|n IH]; intros [|c s]; simpl; intros Hp; try reflexivity.
  apply andb_true_iff in Hp as [Hc Hs]. now rewrite Hc, IH.
Qed.

Lemma forallb_filter (p : ascii -> bool) (s : string) :
  Str.forallb p (Str.filter p s) = true.
Proof.
  induction s as [|c s IH]; simpl; [reflexivity|].
  destruct (p c) eqn:Hc; simpl; [now rewrite Hc|assumption].
Qed.

End StrFacts.

(** ** Objects built by the code *)

Module Objects.

Section Properties.
Context {A : Type}.
Implicit Types (fields : list (string * A)) (k : string) (v : A).

Lemma has_key_In fields k :
  has_key fields k = true <-> In k (List.map fst fields).
Proof.
  unfold has_key. rewrite existsb_exists. split.
  - intros [[k' v'] [Hin E]]. apply String.eqb_eq in E. cbn in E. subst k'.
    apply in_map_iff. now exists (k, v').
  - intros Hin. apply in_map_iff in Hin as [[k' v'] [E Hin]]. cbn in E.
    subst k'. exists (k, v'). split; [exact Hin | apply String.eqb_refl].
Qed.

Lemma has_key_lookup fields k :
  has_key fields k = false -> lookup k fields = None.
Proof.
  induction fields as [|[k' v'] fields IH]; cbn; [reflexivity|].
  destruct (String.eqb k k'); cbn; [discriminate | exact IH].
Qed.

Lemma lookup_update_same fields k v :
  has_key fields k = true -> lookup k (update fields k v) = Some v.
Proof.
  induction fields as [|[k' v'] fields IH]; cbn; [discriminate|].
  destruct (String.eqb k k') eqn:E; cbn.
  - now rewrite String.eqb_refl.
  - now rewrite E.
Qed.

Lemma lookup_update_other fields k k' v :
  k <> k' -> lookup k (update fields k' v) = lookup k fields.
Proof.
  intros Hne. induction fields as [|[k0 v0] fields IH]; cbn; [reflexivity|].
  destruct (String.eqb_spec k' k0) as [-> | _]; cbn.
  - destruct (String.eqb_spec k k0); [contradiction | reflexivity].
  - destruct (String.eqb k k0); [reflexivity | exact IH].
Qed.

Lemma lookup_insert_same fields k v :
  has_key fields k = false -> lookup k (insert fields k v) = Some v.
Proof.
  induction fields as [|[k' v'] fields IH]; cbn.
  - now rewrite String.eqb_refl.
  - destruct (String.eqb k k') eqn:E; cbn; [discriminate|].
    intros Hk. destruct (before k k'); cbn.
    + now rewrite String.eqb_refl.
    + rewrite E. now apply IH.
Qed.

Lemma lookup_insert_other fields k k' v :
  k <> k' -> lookup k (insert fields k' v) = lookup k fields.
Proof.
  intros Hne. induction fields as [|[k0 v0] fields IH]; cbn.
  - destruct (String.eqb_spec k k'); [contradiction | reflexivity].
  - destruct (before k' k0); cbn.
    + destruct (String.eqb_spec k k'); [contradiction | reflexivity].
    + destruct (String.eqb k k0); [reflexivity | exact IH].
Qed.

(** A property that is defined is read back. *)
Lemma lookup_define_same fields k v :
  lookup k (define fields k v) = Some v.
Proof.
  unfold define. destruct (has_key fields k) eqn:E.
  - now apply lookup_update_same.
  - now apply lookup_insert_same.
Qed.

(** Every other property is as it was. *)
Lemma lookup_define_other fields k k' v :
  k <> k' -> lookup k (define fields k' v) = lookup k fields.
Proof.
  intros Hne. unfold define. destruct (has_key fields k').
  - now apply lookup_update_other.
  - now apply lookup_insert_other.
Qed.

Lemma keys_update fields k v :
  List.map fst (update fields k v) = List.map fst fields.
Proof.
  induction fields as [|[k' v'] fields IH]; cbn; [reflexivity|].
  destruct (String.eqb_spec k k') as [-> | _]; cbn; [reflexivity|].
  now rewrite IH.
Qed.

Lemma keys_insert fields k v :
  exists pre post,
    List.map fst fields = (pre ++ post)%list
    /\ List.map fst (insert fields k v) = (pre ++ k :: post)%list.
Proof.
  induction fields as [|[k' v'] fields IH]; cbn.
  - now exists [], [].
  - destruct (before k k'); cbn.
    + now exists [], (k' :: List.map fst fields).
    + destruct IH as [pre [post [E1 E2]]].
      exists (k' :: pre), post. cbn. now rewrite E1, E2.
Qed.

Lemma In_keys_define fields k v x :
  In x (List.map fst (define fields k v)) <-> x = k \/ In x (List.map fst fields).
Proof.
  unfold define. destruct (has_key fields k) eqn:E.
  - rewrite keys_update. apply has_key_In in E. split; [now right|].
    intros [-> | Hin]; assumption.
  - destruct (keys_insert fields k v) as [pre [post [E1 E2]]].
    rewrite E1, E2, !in_app_iff. cbn. intuition congruence.
Qed.

Lemma NoDup_define fields k v :
  NoDup (List.map fst fields) -> NoDup (List.map fst (define fields k v)).
Proof.
  intros Hnd. unfold define. destruct (has_key fields k) eqn:E.
  - now rewrite keys_update.
  - destruct (keys_insert fields k v) as [pre [post [E1 E2]]].
    rewrite E2. apply (NoDup_Add (Add_app k pre post)). rewrite <- E1.
    split; [exact Hnd|].
    intros Hin. apply has_key_In in Hin. congruence.
Qed.

(** An assignment to a name other than [__proto__] is read back; an
    assignment to [__proto__] leaves the properties as they are. *)
Lemma lookup_set_same fields k v :
  k <> "__proto__" -> lookup k (Js.set fields k v) = Some v.
Proof.
  intros Hk. unfold Js.set.
  destruct (String.eqb_spec k "__proto__"); [contradiction|].
  apply lookup_define_same.
Qed.

Lemma lookup_set_other fields k k' v :
  k <> k' -> lookup k (Js.set fields k' v) = lookup k fields.
Proof.
  intros Hne. unfold Js.set.
  destruct (String.eqb k' "__proto__"); [reflexivity|].
  now apply lookup_define_other.
Qed.

Lemma set_proto fields v : Js.set fields "__proto__" v = fields.
Proof. reflexivity. Qed.

Lemma In_keys_set fields k v x :
  In x (List.map fst (Js.set fields k v))
  <-> (x = k /\ k <> "__proto__") \/ In x (List.map fst fields).
Proof.
  unfold Js.set. destruct (String.eqb_spec k "__proto__") as [-> | Hne].
  - split; [now right|]. intros [[_ H] | H]; [contradiction | exact H].
  - rewrite In_keys_define. intuition.
Qed.

Lemma NoDup_set fields k v :
  NoDup (List.map fst fields) -> NoDup (List.map fst (Js.set fields k v)).
Proof.
  intros Hnd. unfold Js.set.
  destruct (String.eqb k "__proto__"); [exact Hnd | now apply NoDup_define].
Qed.

Lemma lookup_In fields k v : lookup k fields = Some v -> In (k, v) fields.
Proof.
  induction fields as [|[k' v'] fields IH]; cbn; [discriminate|].
  destruct (String.eqb_spec k k') as [-> | _].
  - intros [= ->]. now left.
  - intros E. right. now apply IH.
Qed.

Lemma In_lookup fields k v :
  NoDup (List.map fst fields) -> In (k, v) fields -> lookup k fields = Some v.
Proof.
  induction fields as [|[k' v'] fields IH]; cbn; [contradiction|].
  intros Hnd [E | Hin].
  - injection E as -> ->. now rewrite String.eqb_refl.
  - inversion Hnd as [|? ? Hk Hnd']; subst.
    destruct (String.eqb_spec k k') as [-> | _].
    + exfalso. apply Hk. apply in_map_iff. now exists (k', v).
    + now apply IH.
Qed.

Lemma lookup_keys fields k :
  lookup k fields <> None <-> In k (List.map fst fields).
Proof.
  rewrite <- has_key_In. split.
  - intros Hl. destruct (has_key fields k) eqn:E; [reflexivity|].
    now apply has_key_lookup in E.
  - intros Hk Hl. induction fields as [|[k' v'] fields IH]; cbn in *;
      [discriminate|].
    destruct (String.eqb k k'); cbn in *; [discriminate | now apply IH].
Qed.

End Properties.

End Objects.

(** ** Names of tools *)

Module Names.

Import StrFacts.

(** The characters a sanitized name is made of, its length and the fact
    that it is never empty. *)
Lemma sanitizeToolName_shape (name : string) :
  sanitizeToolName name <> EmptyString
  /\ String.length (sanitizeToolName name) <= 64
  /\ Str.forallb is_name_char (sanitizeToolName name) = true.
Proof.
  unfold sanitizeToolName.
  set (s := Str.slice0 64 _).
  destruct (String.eqb s EmptyString) eqn:He.
  - split; [discriminate | split; [simpl; lia | reflexivity]].
  - split; [|split].
    + intros E. rewrite E in He. discriminate.
    + apply slice0_length.
    + apply forallb_slice0, forallb_filter.
Qed.

(** A run of white space becomes one underscore. *)
Lemma collapse_spaces_in_run (ws rest : string) :
  Str.forallb Str.is_space ws = true ->
  Str.forallb Str.is_space (Str.slice0 1 rest) = false
  \/ rest = EmptyString ->
  collapse_spaces (ws ++ rest) true = collapse_spaces rest false.
Proof.
  induction ws as [|c ws IH]; simpl; intros Hws Hrest.
  - destruct rest as [|r rest]; [reflexivity|].
    destruct Hrest as [Hr|Hr]; [|discriminate].
    assert (Hs : Str.is_space r = false).
    { unfold Str.slice0 in Hr. destruct rest; simpl in Hr;
        now rewrite andb_true_r in Hr. }
    simpl. now rewrite Hs.
  - apply andb_true_iff in Hws as [Hc Hws]. rewrite Hc. now apply IH.
Qed.

Lemma collapse_spaces_run (c : ascii) (ws rest : string) :
  Str.forallb Str.is_space (String c ws) = true ->
  Str.forallb Str.is_space (Str.slice0 1 rest) = false
  \/ rest = EmptyString ->
  collapse_spaces (String c ws ++ rest) false
  = String "_" (collapse_spaces rest false).
Proof.
  simpl. intros Hws Hrest.
  apply andb_true_iff in Hws as [Hc Hws]. rewrite Hc.
  now rewrite collapse_spaces_in_run.
Qed.

(** What is not white space is kept. *)
Lemma collapse_spaces_other (c : ascii) (s : string) (in_run : bool) :
  Str.is_space c = false ->
  collapse_spaces (String c s) in_run = String c (collapse_spaces s false).
Proof. simpl. now intros ->. Qed.

(** The name given to an occurrence that [count] equal names precede. *)
Definition occurrence_name (name : string) (count : nat) : string :=
  if count =? 0 then name
  else Str.slice0 64 (name ++ "_" ++ Str.of_nat count).

Definition occurrences (name : string) (l : list string) : nat :=
  count_occ string_dec l name.

Fixpoint renamed (seen names : list string) : list string :=
  match names with
  | [] => []
  | name :: rest =>
      occurrence_name name (occurrences name seen) :: renamed (seen ++ [name]) rest
  end.

Lemma counts_get_set (counts : list (string * nat)) (name x : string) (n : nat) :
  counts_get (counts_set counts name n) x
  = if String.eqb x name then n else counts_get counts x.
Proof. unfold counts_get, counts_set. simpl. now destruct (String.eqb x name). Qed.

Lemma occurrences_snoc (x name : string) (seen : list string) :
  occurrences x (seen ++ [name])
  = if String.eqb x name then occurrences x seen + 1 else occurrences x seen.
Proof.
  unfold occurrences. rewrite count_occ_app. simpl.
  destruct (string_dec name x) as [->|Hne].
  - now rewrite String.eqb_refl.
  - destruct (String.eqb x name) eqn:He; [|lia].
    apply String.eqb_eq in He. congruence.
Qed.

Lemma fold_dedup_step (names seen : list string)
  (counts : list (string * nat)) (result : list string) :
  (forall x, counts_get counts x = occurrences x seen) ->
  snd (fold_left dedup_step names (counts, result))
  = result ++ renamed seen names.
Proof.
  revert seen counts result.
  induction names as [|name names IH]; intros seen counts result Hc; simpl.
  - now rewrite app_nil_r.
  - rewrite (IH (seen ++ [name])).
    + rewrite Hc. unfold occurrence_name.
      destruct (occurrences name seen =? 0); now rewrite <- app_assoc.
    + intros x. rewrite counts_get_set, occurrences_snoc, !Hc.
      destruct (String.eqb x name) eqn:He; [|reflexivity].
      apply String.eqb_eq in He. now subst.
Qed.

Lemma renamed_nth (names seen : list string) :
  renamed seen names
  = List.map (fun i => occurrence_name (nth i names EmptyString)
                         (occurrences (nth i names EmptyString)
                            (seen ++ firstn i names)))
             (seq 0 (List.length names)).
Proof.
  revert seen. induction names as [|name names IH]; intros seen; simpl.
  - reflexivity.
  - rewrite app_nil_r. f_equal.
    rewrite IH, <- seq_shift, map_map.
    apply map_ext. intros i. simpl. now rewrite <- app_assoc.
Qed.

(** C7. [sanitizeToolName] lowercases the name, turns each run of white
    space into one underscore, drops every character outside [a-z0-9_-],
    keeps the first 64 characters and answers the default identifier when
    nothing is left: the result is never empty, has at most 64 characters,
    all of them in [a-z0-9_-], and "My Blueprint!" gives "my_blueprint".
    [deduplicateToolNames] keeps the length of the list, leaves the first
    occurrence of a name as it is and gives the occurrence that [c] >= 1
    equal names precede the name followed by [_c], cut to 64 characters;
    two names "run" become "run" and "run_1". *)
Theorem tool_names_sanitized_and_deduplicated :
  (forall name,
      sanitizeToolName name
      = (let s := Str.slice0 64
                    (Str.filter is_name_char
                       (collapse_spaces (Str.toLowerCase name) false)) in
         if String.eqb s EmptyString then "leapter_tool" else s)
      /\ sanitizeToolName name <> EmptyString
      /\ String.length (sanitizeToolName name) <= 64
      /\ Str.forallb is_name_char (sanitizeToolName name) = true)
  /\ sanitizeToolName "My Blueprint!" = "my_blueprint"
  /\ (forall names,
         List.length (deduplicateToolNames names) = List.length names
         /\ deduplicateToolNames names
            = List.map (fun i =>
                          let name := nth i names EmptyString in
                          let c := occurrences name (firstn i names) in
                          if c =? 0 then name
                          else Str.slice0 64 (name ++ "_" ++ Str.of_nat c))
                       (seq 0 (List.length names)))
  /\ deduplicateToolNames ["run"; "run"] = ["run"; "run_1"].
Proof.
  split; [|split; [|split]].
  - intros name. split; [reflexivity|]. apply sanitizeToolName_shape.
  - reflexivity.
  - intros names.
    assert (E : deduplicateToolNames names
                = List.map (fun i => occurrence_name (nth i names EmptyString)
                                       (occurrences (nth i names EmptyString)
                                          (firstn i names)))
                           (seq 0 (List.length names))).
    { unfold deduplicateToolNames.
      rewrite (fold_dedup_step names [] [] []) by reflexivity.
      simpl. now rewrite renamed_nth. }
    split.
    + now rewrite E, length_map, length_seq.
    + exact E.
  - reflexivity.
Qed.

End Names.

(** ** Parameters that look like JSON *)

Module Parameters.

Import StrFacts.

Lemma substring_split (n : nat) (s : string) :
  n <= String.length s ->
  s = (substring 0 n s ++ substring n (String.length s - n) s)%string.
Proof.
  revert s. induction n as [|n IH]; intros s Hn.
  - rewrite Nat.sub_0_r. destruct s as [|c s]; simpl; [reflexivity|].
    f_equal. clear. induction s as [|d s IH]; simpl; [reflexivity|].
    now f_equal.
  - destruct s as [|c s]; simpl in *; [lia|].
    f_equal. apply IH. lia.
Qed.

Lemma substring_suffix (m p : string) :
  substring (String.length m) (String.length p) (m ++ p) = p.
Proof.
  induction m as [|c m IH]; simpl.
  - induction p as [|d p IH]; simpl; [reflexivity|]. now f_equal.
  - exact IH.
Qed.

Lemma length_append (a b : string) :
  String.length (a ++ b) = String.length a + String.length b.
Proof. induction a; simpl; congruence. Qed.

(** [s.endsWith(p)] holds exactly when [s] is some text followed by [p]. *)
Lemma endsWith_iff (s p : string) :
  Str.endsWith s p = true <-> exists m, s = (m ++ p)%string.
Proof.
  unfold Str.endsWith. split.
  - intros E. apply andb_true_iff in E as [Hl E].
    apply Nat.leb_le in Hl. apply String.eqb_eq in E.
    exists (substring 0 (String.length s - String.length p) s).
    assert (Hs := substring_split (String.length s - String.length p) s).
    replace (String.length s - (String.length s - String.length p))
      with (String.length p) in Hs by lia.
    rewrite E in Hs. apply Hs. lia.
  - intros [m ->]. rewrite length_append.
    apply andb_true_iff. split; [apply Nat.leb_le; lia|].
    replace (String.length m + String.length p - String.length p)
      with (String.length m) by lia.
    rewrite substring_suffix. apply String.eqb_refl.
Qed.

(** [s.startsWith(c)] for a one-character [c]. *)
Lemma startsWith_char_iff (s : string) (c : ascii) :
  Str.startsWith s (String c EmptyString) = true
  <-> exists m, s = String c m.
Proof.
  unfold Str.startsWith. destruct s as [|d s]; simpl.
  - split; [discriminate | intros [m E]; discriminate].
  - destruct (ascii_dec c d) as [->|Hne].
    + split; [now exists s | now destruct s].
    + split; [discriminate | intros [m E]; congruence].
Qed.

Lemma bracketed_iff (s : string) (o c : ascii) :
  o <> c ->
  Str.startsWith s (String o EmptyString)
  && Str.endsWith s (String c EmptyString) = true
  <-> exists m, s = (String o m ++ String c EmptyString)%string.
Proof.
  intros Hoc. rewrite andb_true_iff, startsWith_char_iff, endsWith_iff. split.
  - intros [[m E] [m' E']]. subst s.
    destruct m' as [|d m']; simpl in E'.
    + congruence.
    + injection E' as <- ->. now exists m'.
  - intros [m ->]. split; [now exists (m ++ String c EmptyString)%string|].
    now exists (String o m).
Qed.

(** The value [tryParseJson] returns. *)
Definition parsed_or_kept `{Host} (v : value) : value :=
  match v with
  | Str s =>
      if looks_like_json (Str.trim s)
      then match JSON_parse (Str.trim s) with
           | Ok parsed => parsed
           | Throw _ => v
           end
      else v
  | _ => v
  end.

Lemma tryParseJson_returns `{Host} (v : value) :
  tryParseJson v = Ok (parsed_or_kept v).
Proof.
  destruct v; try reflexivity. simpl.
  destruct (looks_like_json (Str.trim s)); [|reflexivity].
  now destruct (JSON_parse (Str.trim s)).
Qed.

Lemma gather_steps_return `{Host} (es acc : list (string * value)) :
  exists bodyParams, foldM Leapter.gather_step es acc = Ok bodyParams.
Proof.
  revert acc. induction es as [|[k v] es IH]; intros acc; simpl.
  - now exists acc.
  - destruct (Str.startsWith k "body."); simpl.
    + rewrite tryParseJson_returns. simpl. apply IH.
    + apply IH.
Qed.

(** C8. [tryParseJson] never raises. A value that is not a string is
    returned unchanged; a string whose trimmed form starts with [[] and
    ends with []], or starts with [{] and ends with [}], is parsed, and
    the original string is returned when the parser raises; every other
    string is returned unchanged. The visual-mode gathering that calls
    it on each [body.] parameter returns a parameter object whatever the
    values are. *)
Theorem tryParseJson_never_raises `{Host} :
  (forall v,
      tryParseJson v
      = Ok (match v with
            | Str s =>
                if looks_like_json (Str.trim s)
                then match JSON_parse (Str.trim s) with
                     | Ok parsed => parsed
                     | Throw _ => v
                     end
                else v
            | _ => v
            end))
  /\ (forall t,
         looks_like_json t = true
         <-> (exists m, t = ("[" ++ m ++ "]")%string)
             \/ (exists m, t = ("{" ++ m ++ "}")%string))
  /\ (forall fields parametersJson,
         exists bodyParams,
           Leapter.gather "visual" (Obj fields) parametersJson
           = Ok (Obj bodyParams)).
Proof.
  split; [exact tryParseJson_returns | split].
  - intros t. unfold looks_like_json. rewrite orb_true_iff.
    rewrite !bracketed_iff by discriminate. reflexivity.
  - intros fields parametersJson. unfold Leapter.gather. simpl.
    destruct (entries (or (Js.opt (lookup "value" fields)) (Obj [])))
      as [es|e] eqn:Ees.
    + simpl. destruct (gather_steps_return es []) as [bodyParams ->].
      now exists bodyParams.
    + exfalso. unfold or in Ees.
      destruct (Js.opt (lookup "value" fields)) as [| |[]|n|s|l|fs];
        simpl in Ees; try discriminate.
      * destruct (n =? 0)%Z; discriminate.
      * destruct (String.eqb s EmptyString); discriminate.
Qed.

End Parameters.

(** ** What the tool node forwards *)

Module Forwarding.

Import LeapterTool.

(** The keys the loop copies: no system field, and not [__proto__],
    whose assignment makes no property. *)
Definition forwarded (k : string) : bool :=
  negb (set_has SYSTEM_FIELDS k) && negb (String.eqb k "__proto__").

Lemma set_has_In (s : list string) (k : string) :
  set_has s k = true <-> In k s.
Proof.
  unfold set_has. rewrite existsb_exists. split.
  - intros [x [Hin E]]. apply String.eqb_eq in E. now subst.
  - intros Hin. exists k. split; [exact Hin | apply String.eqb_refl].
Qed.

Lemma lookup_None (A : Type) (k : string) (l : list (string * A)) :
  ~ In k (List.map fst l) -> lookup k l = None.
Proof.
  induction l as [|[k' v] l IH]; simpl; intros Hk; [reflexivity|].
  destruct (String.eqb k k') eqn:E.
  - apply String.eqb_eq in E. subst. tauto.
  - apply IH. tauto.
Qed.

(** The loop that fills [toolArgs], read key by key. *)
Lemma fill_toolArgs (es acc : list (string * value)) :
  NoDup (List.map fst es) ->
  NoDup (List.map fst acc) ->
  let toolArgs :=
    fold_left (fun toolArgs kv =>
                 if negb (set_has SYSTEM_FIELDS (fst kv))
                 then Js.set toolArgs (fst kv) (snd kv)
                 else toolArgs) es acc in
  NoDup (List.map fst toolArgs)
  /\ forall k,
       lookup k toolArgs
       = match (if forwarded k then lookup k es else None) with
         | Some v => Some v
         | None => lookup k acc
         end.
Proof.
  revert acc. induction es as [|[k0 v0] es IH]; intros acc Hes Hacc; cbn zeta.
  - split; [exact Hacc|]. intros k. cbn. now destruct (forwarded k).
  - cbn [fold_left fst snd]. inversion Hes as [|? ? Hk0 Hes']; subst.
    set (acc' := if negb (set_has SYSTEM_FIELDS k0)
                 then Js.set acc k0 v0 else acc).
    assert (Hacc' : NoDup (List.map fst acc')).
    { unfold acc'. destruct (negb (set_has SYSTEM_FIELDS k0));
        [now apply Objects.NoDup_set | exact Hacc]. }
    destruct (IH acc' Hes' Hacc') as [Hnd Hl].
    split; [exact Hnd|]. intros k. rewrite Hl. cbn [lookup].
    destruct (String.eqb_spec k k0) as [-> | Hne].
    + rewrite (lookup_None _ _ _ Hk0).
      assert (E : (if forwarded k0 then @None value else None) = None)
        by now destruct (forwarded k0).
      rewrite E. unfold acc', forwarded.
      destruct (set_has SYSTEM_FIELDS k0); cbn [negb andb]; [reflexivity|].
      destruct (String.eqb_spec k0 "__proto__") as [-> | Hp]; cbn [negb].
      * reflexivity.
      * now rewrite Objects.lookup_set_same.
    + assert (E : lookup k acc' = lookup k acc).
      { unfold acc'. destruct (negb (set_has SYSTEM_FIELDS k0));
          [now apply Objects.lookup_set_other | reflexivity]. }
      now rewrite E.
Qed.

Lemma forwarded_iff (k : string) :
  forwarded k = true
  <-> k <> "sessionId" /\ k <> "action" /\ k <> "chatInput"
      /\ k <> "toolCallId" /\ k <> "__proto__".
Proof.
  unfold forwarded. rewrite andb_true_iff, !negb_true_iff.
  rewrite <- !not_true_iff_false, set_has_In. cbn.
  destruct (String.eqb_spec k "__proto__"); intuition congruence.
Qed.

(** The blueprint call of an item that returns a record. *)
Lemma item_body_request `{Host} (executionId projectValue : string)
  (input r : value) (itemIndex : nat) :
  item_body executionId projectValue input itemIndex = Ok r ->
  exists toolArgs matched response,
    toolArgs_of input = Ok toolArgs
    /\ httpRequestWithAuthentication
         (blueprint_request executionId matched toolArgs) = Ok response.
Proof.
  unfold item_body. intros E.
  destruct (action_of input) as [action|]; simpl in E; [|discriminate].
  destruct (toolArgs_of input) as [toolArgs|]; simpl in E; [|discriminate].
  destruct (bad_specUrl _); [discriminate|].
  destruct (httpRequestWithAuthentication (spec_request _)) as [spec|];
    simpl in E; [|discriminate].
  destruct (serverUrl_of spec) as [serverUrl|]; simpl in E; [|discriminate].
  destruct (negb (Str.startsWith serverUrl "http")).
  { destruct (server0_url spec); discriminate. }
  destruct (collectBlueprints serverUrl spec) as [blueprints|]; simpl in E;
    [|discriminate].
  destruct (route action blueprints toolArgs) as [matched|]; [|discriminate].
  destruct (httpRequestWithAuthentication
              (blueprint_request executionId matched toolArgs))
    as [response|] eqn:Er; simpl in E; [|discriminate].
  now exists toolArgs, matched, response.
Qed.

(** C10, as the code has it. The tool arguments are the own properties
    of the item other than [sessionId], [action], [chatInput],
    [toolCallId] and [__proto__], each once, with the value the item
    gives it, and they are the body of the blueprint call: no system
    field, [action] included, is in the body, every other property but
    [__proto__] is, and an item that returns a record has made its call
    with exactly this body. *)
Theorem system_fields_are_not_forwarded `{Host}
  (fields : list (string * value)) :
  NoDup (List.map fst fields) ->
  exists toolArgs,
    toolArgs_of (Obj fields) = Ok toolArgs
    /\ NoDup (List.map fst toolArgs)
    /\ (forall k v,
           In (k, v) toolArgs
           <-> In (k, v) fields
               /\ k <> "sessionId" /\ k <> "action"
               /\ k <> "chatInput" /\ k <> "toolCallId"
               /\ k <> "__proto__")
    /\ lookup "action" toolArgs = None
    /\ (forall executionId matched,
           get (blueprint_request executionId matched toolArgs) "body"
           = Ok (Obj toolArgs))
    /\ (forall executionId projectValue itemIndex r,
           item_body executionId projectValue (Obj fields) itemIndex = Ok r ->
           exists matched response,
             httpRequestWithAuthentication
               (blueprint_request executionId matched toolArgs) = Ok response).
Proof.
  intros Hnd.
  destruct (fill_toolArgs fields [] Hnd (NoDup_nil _)) as [Hta Hl].
  cbn zeta in Hta, Hl.
  eexists. split; [reflexivity|]. split; [exact Hta|].
  split; [|split; [|split]].
  - intros k v. rewrite <- forwarded_iff. split.
    + intros Hin. apply (Objects.In_lookup _ _ _ Hta) in Hin.
      rewrite Hl in Hin. destruct (forwarded k); cbn in Hin;
        [|discriminate].
      destruct (lookup k fields) as [v'|] eqn:Ek; [|discriminate].
      injection Hin as ->. split; [now apply Objects.lookup_In | reflexivity].
    + intros [Hin Hf]. apply Objects.lookup_In. rewrite Hl, Hf.
      now rewrite (Objects.In_lookup _ _ _ Hnd Hin).
  - rewrite Hl. reflexivity.
  - reflexivity.
  - intros executionId projectValue itemIndex r E.
    apply item_body_request in E as [ta [matched [response [Eta Er]]]].
    cbn [toolArgs_of entries bind] in Eta. injection Eta as <-.
    now exists matched, response.
Qed.

Lemma system_fields_are_not_forwarded_witness :
  exists toolArgs,
    toolArgs_of Sample.input = Ok toolArgs
    /\ (In ("city", Str "Paris") toolArgs
        <-> In ("city", Str "Paris")
              [("sessionId", Str "s-1"); ("action", Str "Weather");
               ("city", Str "Paris"); ("toolCallId", Str "call-7")]
            /\ "city" <> "sessionId" /\ "city" <> "action"
            /\ "city" <> "chatInput" /\ "city" <> "toolCallId"
            /\ "city" <> "__proto__")
    /\ lookup "action" toolArgs = None.
Proof.
  destruct (@system_fields_are_not_forwarded Sample.host
              [("sessionId", Str "s-1"); ("action", Str "Weather");
               ("city", Str "Paris"); ("toolCallId", Str "call-7")]
              ltac:(repeat constructor; simpl; intuition discriminate))
    as [toolArgs [Ht [_ [Hin [Ha _]]]]].
  exists toolArgs. split; [exact Ht | split; [apply Hin | exact Ha]].
Defined.

(** C10, as the claim has it, fails: an item that has a property of its
    own named [__proto__], as a parsed JSON text can have, does not get
    it forwarded: the assignment [toolArgs[key] = value] makes no
    property under that name. *)
Lemma own_proto_property_is_not_forwarded :
  toolArgs_of (Obj [("__proto__", Obj [("admin", Bool true)]);
                    ("city", Str "Paris")])
  = Ok [("city", Str "Paris")]
  /\ ~ (forall fields toolArgs k v,
           NoDup (List.map fst fields) ->
           toolArgs_of (Obj fields) = Ok toolArgs ->
           In (k, v) fields ->
           k <> "sessionId" -> k <> "action" ->
           k <> "chatInput" -> k <> "toolCallId" ->
           In (k, v) toolArgs).
Proof.
  split; [reflexivity|]. intros Hall.
  specialize (Hall [("__proto__", Obj [("admin", Bool true)]);
                    ("city", Str "Paris")]
                   [("city", Str "Paris")]
                   "__proto__" (Obj [("admin", Bool true)])
                   ltac:(repeat constructor; simpl; intuition discriminate)
                   eq_refl (or_introl eq_refl)
                   ltac:(discriminate) ltac:(discriminate)
                   ltac:(discriminate) ltac:(discriminate)).
  destruct Hall as [E | []]. discriminate E.
Qed.

End Forwarding.

(** ** Compound selectors *)

Module Selector.

Import StrFacts.

Lemma prefix_cons (a c : ascii) (p s : string) :
  String.prefix (String a p) (String c s)
  = if ascii_dec a c then String.prefix p s else false.
Proof. reflexivity. Qed.

Lemma prefix_nil (s : string) : String.prefix EmptyString s = true.
Proof. now destruct s. Qed.

Lemma includes_cons (c : ascii) (s p : string) :
  Str.includes (String c s) p = false ->
  String.prefix p (String c s) = false /\ Str.includes s p = false.
Proof. simpl Str.includes. intros E. now apply orb_false_iff in E. Qed.

Lemma endsWith_cons (c : ascii) (s p : string) :
  Str.endsWith (String c s) p = false -> Str.endsWith s p = false.
Proof.
  intros E. destruct (Str.endsWith s p) eqn:Es; [|reflexivity].
  apply Parameters.endsWith_iff in Es as [m ->].
  assert (Et : Str.endsWith (String c (m ++ p)) p = true).
  { apply Parameters.endsWith_iff. now exists (String c m). }
  congruence.
Qed.

Lemma prefix_append (p s : string) : String.prefix p (p ++ s) = true.
Proof.
  induction p as [|c p IH]; simpl; [apply prefix_nil|].
  destruct (ascii_dec c c); [exact IH | congruence].
Qed.

Lemma drop_append (p s : string) : Str.drop (String.length p) (p ++ s) = s.
Proof. induction p as [|c p IH]; simpl; [reflexivity | exact IH]. Qed.

(** [(p + s).replace(p, r)] *)
Lemma replaceFirst_prefix (p r s : string) :
  Str.replaceFirst p r (p ++ s) = (r ++ s)%string.
Proof.
  assert (E : forall t, Str.replaceFirst p r t
                        = if String.prefix p t
                          then (r ++ Str.drop (String.length p) t)%string
                          else match t with
                               | EmptyString => EmptyString
                               | String c t' => String c (Str.replaceFirst p r t')
                               end) by (intros [|c t]; reflexivity).
  now rewrite E, prefix_append, drop_append.
Qed.

(** The last piece: no separator is left. *)
Lemma split_go_last (x cur : string) :
  Str.includes x "::" = false ->
  Str.split_go "::" x 0 cur = [(cur ++ x)%string].
Proof.
  revert cur. induction x as [|c x IH]; intros cur Hx.
  - simpl. now rewrite append_nil_r.
  - apply includes_cons in Hx as [Hp Hx].
    cbn [Str.split_go]. rewrite Hp, (IH _ Hx), append_assoc. reflexivity.
Qed.

(** A piece before a separator: the piece holds no separator and its
    last character does not start one. *)
Lemma split_go_piece (x rest cur : string) :
  Str.includes x "::" = false ->
  Str.endsWith x ":" = false ->
  Str.split_go "::" (x ++ "::" ++ rest) 0 cur
  = (cur ++ x)%string :: Str.split_go "::" rest 0 EmptyString.
Proof.
  revert cur. induction x as [|c x IH]; intros cur Hx He.
  - simpl. rewrite append_nil_r. destruct rest; reflexivity.
  - apply includes_cons in Hx as [Hp Hx].
    assert (Hq : String.prefix "::" (String c (x ++ "::" ++ rest)) = false).
    { rewrite prefix_cons in *.
      destruct (ascii_dec ":" c) as [<-|Hc]; [|reflexivity].
      destruct x as [|d x].
      - discriminate.
      - change (String d x ++ "::" ++ rest)%string
          with (String d (x ++ "::" ++ rest)).
        rewrite prefix_cons in *.
        destruct (ascii_dec ":" d); [|reflexivity].
        now rewrite prefix_nil in Hp. }
    change (String c x ++ "::" ++ rest)%string
      with (String c (x ++ "::" ++ rest)).
    cbn [Str.split_go]. rewrite Hq.
    rewrite (IH _ Hx (endsWith_cons _ _ _ He)), append_assoc. reflexivity.
Qed.

(** The keys of a [$ref] are separated by one character. *)
Lemma split_go_slash_last (x cur : string) :
  Str.includes x "/" = false ->
  Str.split_go "/" x 0 cur = [(cur ++ x)%string].
Proof.
  revert cur. induction x as [|c x IH]; intros cur Hx.
  - simpl. now rewrite append_nil_r.
  - apply includes_cons in Hx as [Hp Hx].
    cbn [Str.split_go]. rewrite Hp, (IH _ Hx), append_assoc. reflexivity.
Qed.

Lemma split_go_slash_piece (x rest cur : string) :
  Str.includes x "/" = false ->
  Str.split_go "/" (x ++ "/" ++ rest) 0 cur
  = (cur ++ x)%string :: Str.split_go "/" rest 0 EmptyString.
Proof.
  revert cur. induction x as [|c x IH]; intros cur Hx.
  - simpl. rewrite append_nil_r. destruct rest; reflexivity.
  - apply includes_cons in Hx as [Hp Hx].
    assert (Hq : String.prefix "/" (String c (x ++ "/" ++ rest)) = false).
    { rewrite prefix_cons in *.
      destruct (ascii_dec "/" c); [|reflexivity].
      now rewrite prefix_nil in Hp. }
    change (String c x ++ "/" ++ rest)%string
      with (String c (x ++ "/" ++ rest)).
    cbn [Str.split_go]. rewrite Hq.
    rewrite (IH _ Hx), append_assoc. reflexivity.
Qed.

Lemma split_join_slash (k : string) (keys : list string) :
  Forall (fun x => Str.includes x "/" = false) (k :: keys) ->
  Str.split (Str.join (k :: keys) "/") "/" = k :: keys.
Proof.
  unfold Str.split, Str.join.
  change (forall (P := fun x => Str.includes x "/" = false),
             Forall P (k :: keys) ->
             Str.split_go "/" (String.concat "/" (k :: keys)) 0 EmptyString
             = k :: keys).
  intros P. revert k. induction keys as [|k' keys IH]; intros k Hk.
  - inversion Hk; subst. simpl. now rewrite split_go_slash_last.
  - inversion Hk; subst.
    change (String.concat "/" (k :: k' :: keys))
      with (k ++ "/" ++ String.concat "/" (k' :: keys))%string.
    rewrite split_go_slash_piece by assumption.
    now rewrite IH.
Qed.

(** C9, as the code has it. When no component of a project holds [::] and
    none of the first three (identifier, spec URL, editor base URL) ends
    with a colon, splitting the compound value on [::] gives the four
    components in their order, and [execute] reads back the spec URL and
    the editor base URL. *)
Theorem project_value_round_trip (p : ProjectInfo) :
  Str.includes (projectId p) "::" = false ->
  Str.includes (specUrl p) "::" = false ->
  Str.includes (editorBaseUrl p) "::" = false ->
  Str.includes (projectName p) "::" = false ->
  Str.endsWith (projectId p) ":" = false ->
  Str.endsWith (specUrl p) ":" = false ->
  Str.endsWith (editorBaseUrl p) ":" = false ->
  Str.split (project_value p) "::"
  = [projectId p; specUrl p; editorBaseUrl p; projectName p]
  /\ LeapterTool.nth_part (Str.split (project_value p) "::") 1
     = Str (specUrl p)
  /\ LeapterTool.nth_part (Str.split (project_value p) "::") 2
     = Str (editorBaseUrl p).
Proof.
  intros Hi Hs He Hn Ei Es Ee.
  assert (E : Str.split (project_value p) "::"
              = [projectId p; specUrl p; editorBaseUrl p; projectName p]).
  { unfold Str.split, project_value.
    rewrite !split_go_piece by assumption.
    now rewrite split_go_last by assumption. }
  rewrite E. repeat split.
Qed.

Lemma project_value_round_trip_witness :
  Str.split Sample.projectValue "::"
  = ["p1"; "https://lab.example.com/spec.json";
     "https://lab.example.com/editor"; "Demo"].
Proof.
  apply (project_value_round_trip
           {| projectId := "p1";
              projectName := "Demo";
              specUrl := "https://lab.example.com/spec.json";
              editorBaseUrl := "https://lab.example.com/editor" |});
    reflexivity.
Defined.

(** C9, as the specification has it, fails: no component of this project
    holds [::], yet the identifier that ends with a colon is not read
    back, and the spec URL comes back with a colon in front. *)
Lemma colon_before_separator_is_not_read_back :
  let p := {| projectId := "acme:";
              projectName := "Demo";
              specUrl := "https://lab.example.com/spec.json";
              editorBaseUrl := "https://lab.example.com/editor" |} in
  Str.includes (projectId p) "::" = false
  /\ Str.includes (specUrl p) "::" = false
  /\ Str.includes (editorBaseUrl p) "::" = false
  /\ Str.includes (projectName p) "::" = false
  /\ Str.split (project_value p) "::"
     = ["acme"; ":https://lab.example.com/spec.json";
        "https://lab.example.com/editor"; "Demo"]
  /\ ~ (forall q : ProjectInfo,
           Str.includes (projectId q) "::" = false ->
           Str.includes (specUrl q) "::" = false ->
           Str.includes (editorBaseUrl q) "::" = false ->
           Str.includes (projectName q) "::" = false ->
           Str.split (project_value q) "::"
           = [projectId q; specUrl q; editorBaseUrl q; projectName q]).
Proof.
  repeat split. intros Hall.
  specialize (Hall {| projectId := "acme:";
                      projectName := "Demo";
                      specUrl := "https://lab.example.com/spec.json";
                      editorBaseUrl := "https://lab.example.com/editor" |}
                   eq_refl eq_refl eq_refl eq_refl).
  discriminate.
Qed.

End Selector.

(** ** The resolver *)

Module Resolver.

Lemma walk_app (v : value) (ks ks' : list string) :
  walk v (ks ++ ks') = (v' <- walk v ks ;; walk v' ks').
Proof.
  revert v. induction ks as [|k ks IH]; intros v; simpl; [reflexivity|].
  destruct (get v k) as [next|e]; simpl; [apply IH | reflexivity].
Qed.

(** A reference [#/k1/.../kn] is followed key by key from the root. *)
Lemma resolveSchema_ref (schema spec : value) (keys : list string) :
  keys <> [] ->
  Forall (fun k => Str.includes k "/" = false) keys ->
  get schema "$ref" = Ok (Str ("#/" ++ Str.join keys "/")) ->
  resolveSchema schema spec = walk spec keys.
Proof.
  intros Hne Hk Href. unfold resolveSchema. rewrite Href.
  destruct keys as [|k keys]; [congruence|].
  cbn [bind truthy String.eqb negb refPath_of].
  rewrite Selector.replaceFirst_prefix.
  change (EmptyString ++ Str.join (k :: keys) "/")%string
    with (Str.join (k :: keys) "/").
  now rewrite Selector.split_join_slash.
Qed.

(** A schema without [$ref] is returned as it is. *)
Lemma resolveSchema_plain (fields : list (string * value)) (spec : value) :
  lookup "$ref" fields = None ->
  resolveSchema (Obj fields) spec = Ok (Obj fields).
Proof. unfold resolveSchema. simpl. now intros ->. Qed.

(** C2, as the code has it. Let the keys of a reference be followed from
    the root down to an object that lacks the next key, this key being
    none of the names every object inherits ([constructor], [toString],
    [__proto__], ...). When the missing key is the last key of the
    reference, [resolveSchema] returns [undefined] and raises nothing;
    when further keys follow, the next property access raises the
    engine's [TypeError]. *)
Theorem dangling_reference (schema spec : value)
  (found : list string) (missing : string) (rest : list string)
  (fields : list (string * value)) :
  Forall (fun k => Str.includes k "/" = false) (found ++ missing :: rest) ->
  get schema "$ref"
  = Ok (Str ("#/" ++ Str.join (found ++ missing :: rest) "/")) ->
  walk spec found = Ok (Obj fields) ->
  lookup missing fields = None ->
  Js.inherited missing = false ->
  resolveSchema schema spec
  = match rest with
    | [] => Ok Undefined
    | next :: _ =>
        Throw (TypeError ("Cannot read properties of undefined (reading '"
                          ++ next ++ "')"))
    end.
Proof.
  intros Hk Href Hw Hm _.
  rewrite (resolveSchema_ref schema spec (found ++ missing :: rest));
    [| now destruct found | assumption | assumption].
  rewrite walk_app, Hw. cbn [bind walk get]. rewrite Hm.
  destruct rest as [|next rest]; reflexivity.
Qed.

Lemma dangling_reference_witness :
  resolveSchema (Obj [("$ref", Str "#/components/schemas/Missing")]) Sample.spec
  = Ok Undefined
  /\ resolveSchema (Obj [("$ref", Str "#/definitions/Missing")]) Sample.spec
     = Throw (TypeError "Cannot read properties of undefined (reading 'Missing')").
Proof.
  split.
  - apply (dangling_reference _ Sample.spec ["components"; "schemas"]
             "Missing" [] [("WeatherInput", Sample.weather_schema)]);
      [repeat constructor | reflexivity | reflexivity | reflexivity
      | reflexivity].
  - apply (dangling_reference _ Sample.spec [] "definitions" ["Missing"]
             ltac:(match eval cbv in Sample.spec with Obj ?f => exact f end));
      [repeat constructor | reflexivity | reflexivity | reflexivity
      | reflexivity].
Defined.

(** C2, as the specification has it, fails: the schema map of this
    document has no entry [Missing], a name no object inherits, and the
    reference to it resolves to [undefined] without any error; the tool
    node then goes on with an empty set of schema keys. *)
Lemma missing_schema_resolves_to_undefined :
  let schema := Obj [("$ref", Str "#/components/schemas/Missing")] in
  walk Sample.spec ["components"; "schemas"]
  = Ok (Obj [("WeatherInput", Sample.weather_schema)])
  /\ lookup "Missing" [("WeatherInput", Sample.weather_schema)] = None
  /\ resolveSchema schema Sample.spec = Ok Undefined
  /\ LeapterTool.schemaKeys_of (Sample.operation "Broken" schema) Sample.spec
     = Ok []
  /\ ~ (forall node spec found missing fields,
           get node "$ref"
           = Ok (Str ("#/" ++ Str.join (found ++ [missing]) "/")) ->
           walk spec found = Ok (Obj fields) ->
           lookup missing fields = None ->
           Js.inherited missing = false ->
           exists e, resolveSchema node spec = Throw e).
Proof.
  repeat split. intros Hall.
  destruct (Hall (Obj [("$ref", Str "#/components/schemas/Missing")])
                 Sample.spec ["components"; "schemas"] "Missing"
                 [("WeatherInput", Sample.weather_schema)]
                 eq_refl eq_refl eq_refl eq_refl) as [e He].
  discriminate.
Qed.

End Resolver.

(** ** Classified responses *)

Module Responses.

Lemma resultObj_returns (responseBody : value) :
  exists resultObj, LeapterTool.resultObj_of responseBody = Ok resultObj.
Proof.
  unfold LeapterTool.resultObj_of.
  destruct responseBody; simpl; eexists; reflexivity.
Qed.

Lemma spread_entries_returns (responseBody : value) :
  exists rest, Leapter.spread_entries responseBody = Ok rest.
Proof. destruct responseBody; simpl; eexists; reflexivity. Qed.

(** The two header names the code reads. *)
Definition runId_read (hs : list (string * value)) : value :=
  or (Js.opt (lookup "x-run-id" hs)) (Js.opt (lookup "X-Run-Id" hs)).

(** The metadata the tool node attaches to a response below 400. *)
Lemma tool_metadata (matched : LeapterTool.Blueprint)
  (editorBaseUrl response sc body : value) (hs : list (string * value))
  (itemIndex : nat) :
  get response "statusCode" = Ok sc ->
  LeapterTool.ge400 (or sc (Num 200)) = false ->
  get response "body" = Ok body ->
  get response "headers" = Ok (Obj hs) ->
  exists json,
    LeapterTool.classify matched editorBaseUrl response itemIndex
    = Ok (LeapterTool.record json itemIndex)
    /\ lookup "_metadata" json
       = Some (Obj [("runId", runId_read hs);
                    ("editorLink",
                     LeapterTool.editorLink_of (LeapterTool.path matched)
                                               editorBaseUrl)]).
Proof.
  intros Hsc Hge Hb Hh. unfold LeapterTool.classify.
  rewrite Hsc. cbn [bind]. rewrite Hb. cbn [bind]. rewrite Hge, Hh.
  cbn [bind LeapterTool.runId_of get].
  destruct (resultObj_returns body) as [resultObj ->]. cbn [bind].
  eexists. split; [reflexivity | apply Objects.lookup_define_same].
Qed.

(** The metadata the node attaches to a response below 400. *)
Lemma node_metadata (continueOnFail : bool) (u : Leapter.Unpacked)
  (modelId editorBaseUrl : value) (hs : list (string * value))
  (itemIndex : nat) :
  LeapterTool.ge400 (Leapter.statusCode u) = false ->
  Leapter.responseHeaders u = Obj hs ->
  exists json,
    Leapter.classify continueOnFail u modelId editorBaseUrl itemIndex
    = Ok (Leapter.record json itemIndex)
    /\ lookup "_metadata" json
       = Some (Obj [("runId", runId_read hs);
                    ("editorLink",
                     Leapter.editorLink_of modelId editorBaseUrl)]).
Proof.
  intros Hge Hh. unfold Leapter.classify, Leapter.success.
  rewrite Hge, Hh. cbn [bind LeapterTool.runId_of get].
  destruct (spread_entries_returns (Leapter.responseBody u)) as [rest ->].
  cbn [bind]. eexists. split; [reflexivity | apply Objects.lookup_define_same].
Qed.

(** C3, as the code has it. For a response below 400, in both nodes, the
    [runId] of [_metadata] is the value of the header [x-run-id] when
    that value is not empty, and the value of the header [X-Run-Id]
    otherwise; no other spelling of the name is read, so without these
    two the [runId] is [undefined]. *)
Theorem run_id_read_under_two_spellings (hs : list (string * value)) :
  (forall matched editorBaseUrl response sc body itemIndex,
      get response "statusCode" = Ok sc ->
      LeapterTool.ge400 (or sc (Num 200)) = false ->
      get response "body" = Ok body ->
      get response "headers" = Ok (Obj hs) ->
      exists json link,
        LeapterTool.classify matched editorBaseUrl response itemIndex
        = Ok (LeapterTool.record json itemIndex)
        /\ lookup "_metadata" json
           = Some (Obj [("runId",
                         if truthy (Js.opt (lookup "x-run-id" hs))
                         then Js.opt (lookup "x-run-id" hs)
                         else Js.opt (lookup "X-Run-Id" hs));
                        ("editorLink", link)]))
  /\ (forall continueOnFail u modelId editorBaseUrl itemIndex,
         LeapterTool.ge400 (Leapter.statusCode u) = false ->
         Leapter.responseHeaders u = Obj hs ->
         exists json link,
           Leapter.classify continueOnFail u modelId editorBaseUrl itemIndex
           = Ok (Leapter.record json itemIndex)
           /\ lookup "_metadata" json
              = Some (Obj [("runId",
                            if truthy (Js.opt (lookup "x-run-id" hs))
                            then Js.opt (lookup "x-run-id" hs)
                            else Js.opt (lookup "X-Run-Id" hs));
                           ("editorLink", link)]))
  /\ (lookup "x-run-id" hs = None ->
      lookup "X-Run-Id" hs = None ->
      runId_read hs = Undefined).
Proof.
  split; [|split].
  - intros matched editorBaseUrl response sc body itemIndex Hsc Hge Hb Hh.
    destruct (tool_metadata matched editorBaseUrl response sc body hs
                itemIndex Hsc Hge Hb Hh) as [json [E M]].
    now exists json, (LeapterTool.editorLink_of (LeapterTool.path matched)
                                                editorBaseUrl).
  - intros continueOnFail u modelId editorBaseUrl itemIndex Hge Hh.
    destruct (node_metadata continueOnFail u modelId editorBaseUrl hs
                itemIndex Hge Hh) as [json [E M]].
    now exists json, (Leapter.editorLink_of modelId editorBaseUrl).
  - unfold runId_read. now intros -> ->.
Qed.

Definition weather : LeapterTool.Blueprint :=
  {| LeapterTool.name := "weather";
     LeapterTool.path := "/models/weather/runs";
     LeapterTool.operationUrl := "https://api.example.com/models/weather/runs";
     LeapterTool.schemaKeys := ["city"; "details"] |}.

Lemma run_id_read_under_two_spellings_witness :
  exists json link,
    LeapterTool.classify weather (Str "https://lab.example.com/editor")
                         Sample.response 0
    = Ok (LeapterTool.record json 0)
    /\ lookup "_metadata" json
       = Some (Obj [("runId", Str "abc123"); ("editorLink", link)]).
Proof.
  apply (proj1 (run_id_read_under_two_spellings [("x-run-id", Str "abc123")])
           weather (Str "https://lab.example.com/editor") Sample.response
           (Num 200) (Obj [("answer", Str "sunny")]) 0);
    reflexivity.
Defined.

(** C3, as the specification has it, fails: the same response with its
    header spelled [X-RUN-ID] gives no [runId]. *)
Lemma run_id_lookup_is_case_sensitive :
  let response (header : string) :=
    Obj [("body", Obj [("answer", Str "sunny")]);
         ("headers", Obj [(header, Str "abc123")]);
         ("statusCode", Num 200)] in
  let metadata (runId : value) :=
    Obj [("runId", runId);
         ("editorLink", Str "https://lab.example.com/editor/weather")] in
  let editor := Str "https://lab.example.com/editor" in
  LeapterTool.classify weather editor (response "x-run-id") 0
  = Ok (LeapterTool.record [("answer", Str "sunny");
                            ("_metadata", metadata (Str "abc123"))] 0)
  /\ LeapterTool.classify weather editor (response "X-Run-Id") 0
     = Ok (LeapterTool.record [("answer", Str "sunny");
                               ("_metadata", metadata (Str "abc123"))] 0)
  /\ LeapterTool.classify weather editor (response "X-RUN-ID") 0
     = Ok (LeapterTool.record [("answer", Str "sunny");
                               ("_metadata", metadata Undefined)] 0)
  /\ Leapter.classify false
       {| Leapter.responseBody := Obj [("answer", Str "sunny")];
          Leapter.responseHeaders := Obj [("X-RUN-ID", Str "abc123")];
          Leapter.statusCode := Num 200 |}
       (Str "weather") editor 0
     = Ok (Leapter.record [("answer", Str "sunny");
                           ("_metadata", metadata Undefined)] 0)
  /\ ~ (forall header v,
           Str.toLowerCase header = "x-run-id" ->
           LeapterTool.runId_of (Obj [(header, v)]) = Ok v).
Proof.
  repeat split. intros Hall.
  specialize (Hall "X-RUN-ID" (Str "abc123") eq_refl). discriminate.
Qed.

(** *** The editor link *)

Lemma segment_id (id rest : string) :
  Str.includes id "/" = false ->
  segment (id ++ String "/" rest) = (id, String "/" rest).
Proof.
  induction id as [|c id IH]; intros Hid.
  - reflexivity.
  - apply Selector.includes_cons in Hid as [Hp Hid].
    rewrite Selector.prefix_cons in Hp.
    change (String c id ++ String "/" rest)%string
      with (String c (id ++ String "/" rest)).
    cbn [segment]. rewrite (IH Hid).
    destruct (Ascii.eqb_spec c "/") as [->|Hc]; [|reflexivity].
    destruct (ascii_dec "/" "/"); [|congruence].
    now rewrite Selector.prefix_nil in Hp.
Qed.

Lemma match_models_unfold (path : string) :
  match_models path
  = match match_models_here path with
    | Some id => Some id
    | None =>
        match path with
        | EmptyString => None
        | String _ path' => match_models path'
        end
    end.
Proof. destruct path; reflexivity. Qed.

(** A path that begins with [/models/<id>/runs] gives [<id>]. *)
Lemma match_models_id (id tail : string) :
  id <> EmptyString ->
  Str.includes id "/" = false ->
  match_models ("/models/" ++ id ++ "/runs" ++ tail) = Some id.
Proof.
  intros Hne Hid. rewrite match_models_unfold. unfold match_models_here.
  rewrite Selector.prefix_append.
  change 8 with (String.length "/models/"). rewrite Selector.drop_append.
  change (id ++ "/runs" ++ tail)%string
    with (id ++ String "/" ("runs" ++ tail))%string.
  rewrite (segment_id _ _ Hid).
  destruct (String.eqb_spec id EmptyString) as [E|_]; [congruence|].
  change (String "/" ("runs" ++ tail)) with ("/runs" ++ tail)%string.
  now rewrite Selector.prefix_append.
Qed.

(** The identifier the pattern captures is never empty. *)
Lemma match_models_truthy (path id : string) :
  match_models path = Some id -> truthy (Str id) = true.
Proof.
  induction path as [|c path IH]; rewrite match_models_unfold;
    unfold match_models_here.
  - simpl. discriminate.
  - destruct (String.prefix "/models/" (String c path)).
    + destruct (segment (Str.drop 8 (String c path))) as [seg rest].
      destruct (String.eqb seg EmptyString) eqn:E.
      * exact IH.
      * destruct (String.prefix "/runs" rest).
        -- intros [= <-]. simpl. now rewrite E.
        -- exact IH.
    + exact IH.
Qed.

(** The link of the node and the link of the tool node. *)
Definition node_link (path base : string) : value :=
  match match_models path with
  | Some id => Str (base ++ "/" ++ id)
  | None => Str base
  end.

Definition tool_link (path base : string) : value :=
  match match_models path with
  | Some id =>
      if String.eqb base EmptyString || String.eqb base "undefined"
      then Str EmptyString
      else Str (base ++ "/" ++ id)
  | None => Str EmptyString
  end.

Lemma node_editorLink (path base : string) :
  Leapter.editorLink_of (modelId_of path) (Str base) = node_link path base.
Proof.
  unfold Leapter.editorLink_of, modelId_of, node_link.
  destruct (match_models path) as [id|] eqn:E; [|reflexivity].
  now rewrite (match_models_truthy _ _ E).
Qed.

Lemma tool_editorLink (path base : string) :
  LeapterTool.editorLink_of path (Str base) = tool_link path base.
Proof.
  unfold LeapterTool.editorLink_of, modelId_of, tool_link.
  destruct (match_models path) as [id|] eqn:E; [|reflexivity].
  rewrite (match_models_truthy _ _ E). cbn [truthy strict_eq andb to_text].
  destruct (String.eqb base EmptyString); [reflexivity|].
  now destruct (String.eqb base "undefined").
Qed.

(** C4, as the code has it. For a response below 400 the node links to
    the editor base URL followed by [/] and the model identifier when the
    path of the operation matches [/models/<id>/runs], and to the bare
    editor base URL otherwise. The tool node gives the same link when the
    path matches and the editor base URL is neither empty nor the text
    [undefined], and the empty string in every other case. *)
Theorem editor_link_of_each_node (path base : string) :
  (forall continueOnFail u hs itemIndex,
      LeapterTool.ge400 (Leapter.statusCode u) = false ->
      Leapter.responseHeaders u = Obj hs ->
      exists json runId,
        Leapter.classify continueOnFail u (modelId_of path) (Str base) itemIndex
        = Ok (Leapter.record json itemIndex)
        /\ lookup "_metadata" json
           = Some (Obj [("runId", runId);
                        ("editorLink",
                         match match_models path with
                         | Some id => Str (base ++ "/" ++ id)
                         | None => Str base
                         end)]))
  /\ (forall matched response sc body hs itemIndex,
         LeapterTool.path matched = path ->
         get response "statusCode" = Ok sc ->
         LeapterTool.ge400 (or sc (Num 200)) = false ->
         get response "body" = Ok body ->
         get response "headers" = Ok (Obj hs) ->
         exists json runId,
           LeapterTool.classify matched (Str base) response itemIndex
           = Ok (LeapterTool.record json itemIndex)
           /\ lookup "_metadata" json
              = Some (Obj [("runId", runId);
                           ("editorLink",
                            match match_models path with
                            | Some id =>
                                if String.eqb base EmptyString
                                   || String.eqb base "undefined"
                                then Str EmptyString
                                else Str (base ++ "/" ++ id)
                            | None => Str EmptyString
                            end)]))
  /\ (forall id tail,
         id <> EmptyString ->
         Str.includes id "/" = false ->
         match_models ("/models/" ++ id ++ "/runs" ++ tail) = Some id).
Proof.
  split; [|split].
  - intros continueOnFail u hs itemIndex Hge Hh.
    destruct (node_metadata continueOnFail u (modelId_of path) (Str base) hs
                itemIndex Hge Hh) as [json [E M]].
    exists json, (runId_read hs).
    rewrite node_editorLink in M. split; [exact E | exact M].
  - intros matched response sc body hs itemIndex Hp Hsc Hge Hb Hh.
    destruct (tool_metadata matched (Str base) response sc body hs
                itemIndex Hsc Hge Hb Hh) as [json [E M]].
    exists json, (runId_read hs).
    rewrite Hp, tool_editorLink in M. split; [exact E | exact M].
  - exact match_models_id.
Qed.

Lemma editor_link_of_each_node_witness :
  exists json runId,
    LeapterTool.classify weather (Str "https://lab.example.com/editor")
                         Sample.response 0
    = Ok (LeapterTool.record json 0)
    /\ lookup "_metadata" json
       = Some (Obj [("runId", runId);
                    ("editorLink",
                     Str "https://lab.example.com/editor/weather")]).
Proof.
  apply (proj1 (proj2 (editor_link_of_each_node
                         "/models/weather/runs"
                         "https://lab.example.com/editor"))
           weather Sample.response (Num 200) (Obj [("answer", Str "sunny")])
           [("x-run-id", Str "abc123")] 0);
    reflexivity.
Defined.

(** C4, as the specification has it, fails in the tool node: for a path
    that does not match, the node falls back to the editor base URL and
    the tool node to the empty string. *)
Lemma tool_editor_link_does_not_fall_back :
  let health :=
    {| LeapterTool.name := "health";
       LeapterTool.path := "/health";
       LeapterTool.operationUrl := "https://api.example.com/health";
       LeapterTool.schemaKeys := [] |} in
  let editor := Str "https://lab.example.com/editor" in
  match_models "/health" = None
  /\ LeapterTool.classify health editor Sample.response 0
     = Ok (LeapterTool.record
             [("answer", Str "sunny");
              ("_metadata", Obj [("runId", Str "abc123");
                                 ("editorLink", Str EmptyString)])] 0)
  /\ Leapter.classify false
       {| Leapter.responseBody := Obj [("answer", Str "sunny")];
          Leapter.responseHeaders := Obj [("x-run-id", Str "abc123")];
          Leapter.statusCode := Num 200 |}
       (modelId_of "/health") editor 0
     = Ok (Leapter.record
             [("answer", Str "sunny");
              ("_metadata", Obj [("runId", Str "abc123");
                                 ("editorLink", editor)])] 0)
  /\ ~ (forall path base,
           match_models path = None ->
           LeapterTool.editorLink_of path (Str base) = Str base).
Proof.
  repeat split. intros Hall.
  specialize (Hall "/health" "https://lab.example.com/editor" eq_refl).
  discriminate.
Qed.

(** *** The message of a failed call *)

(** The first of [detail], [error] and [message] that is truthy, or the
    generic text. *)
Definition preferred (fields : list (string * value)) (statusCode : value)
  : value :=
  let detail := Js.opt (lookup "detail" fields) in
  let error := Js.opt (lookup "error" fields) in
  let message := Js.opt (lookup "message" fields) in
  if truthy detail then detail
  else if truthy error then error
  else if truthy message then message
  else Str ("Request failed with status " ++ to_text statusCode).

Lemma errorMessage_of_object (fields : list (string * value)) (sc : value) :
  LeapterTool.errorMessage_of (Obj fields) sc = Ok (preferred fields sc).
Proof.
  unfold LeapterTool.errorMessage_of, preferred, or. cbn [get bind].
  destruct (truthy (Js.opt (lookup "detail" fields))) eqn:Ed.
  - now rewrite !Ed.
  - destruct (truthy (Js.opt (lookup "error" fields))) eqn:Ee.
    + now rewrite !Ee.
    + reflexivity.
Qed.

Lemma errorMessage_of_other (body : value) (sc : value) :
  match body with Obj _ => False | _ => True end ->
  LeapterTool.errorMessage_of (LeapterTool.errorBody_of body) sc
  = Ok (Str ("Request failed with status " ++ to_text sc)).
Proof. destruct body; intros Hb; (reflexivity || contradiction). Qed.

Lemma status_is_kept (n : Z) :
  (400 <= n)%Z ->
  or (Num n) (Num 200) = Num n /\ LeapterTool.ge400 (Num n) = true.
Proof.
  intros Hn. unfold or. simpl.
  destruct (Z.eqb_spec n 0); [lia|].
  split; [reflexivity | now apply Z.leb_le].
Qed.

(** What the node makes of a response of status [n >= 400] with an
    object body: without continue-on-fail the error of the status check
    is caught by the handler of the item, which raises an error made
    from its message; with continue-on-fail the record. *)
Lemma item_of_error_status `{Host} (executionId : value)
  (operation inputMode : string) (options parameters : value)
  (parametersJson : string) (itemIndex : nat)
  (modelId bodyParams request response : value) (u : Leapter.Unpacked)
  (fields : list (string * value)) (n : Z) :
  Leapter.modelId_of_value (Leapter.part (Str.split operation "::") 1)
  = Ok modelId ->
  Leapter.gather inputMode parameters parametersJson = Ok bodyParams ->
  Leapter.request_of (to_text (Leapter.part (Str.split operation "::") 0))
                     (Leapter.part (Str.split operation "::") 2) executionId
                     options bodyParams = Ok request ->
  httpRequestWithAuthentication request = Ok response ->
  Leapter.unpack response = Ok u ->
  Leapter.responseBody u = Obj fields ->
  Leapter.statusCode u = Num n ->
  (400 <= n)%Z ->
  Leapter.item false executionId operation inputMode options parameters
               parametersJson itemIndex
  = Throw (NodeOperationError
             ("Blueprint execution failed: "
              ++ NodeOperationError_message (preferred fields (Num n))))
  /\ Leapter.item true executionId operation inputMode options parameters
                  parametersJson itemIndex
     = Ok (Leapter.record
             (spread [("error", preferred fields (Num n));
                      ("statusCode", Num n)] fields) itemIndex).
Proof.
  intros Hm Hg Hr Hh Hu Hb Hsc Hn.
  destruct (status_is_kept n Hn) as [_ Hge].
  unfold Leapter.item, Leapter.item_body.
  rewrite Hm. cbn [bind]. rewrite Hg. cbn [bind].
  rewrite Hr. cbn [bind]. rewrite Hh. cbn [bind]. rewrite Hu. cbn [bind].
  unfold Leapter.classify, Leapter.error_status.
  rewrite Hsc, Hge, Hb, errorMessage_of_object.
  split; reflexivity.
Qed.

(** C5, as the code has it. For a response of status [n >= 400] whose
    body is an object, both nodes take as the message the [detail] field
    of the body when it is truthy, else the [error] field when it is
    truthy, else the [message] field when it is truthy, else the text
    [Request failed with status n]; a field that is absent, empty, null,
    zero or false is passed over. The tool node, which takes a body that
    is not an object for an empty one, returns the message as the
    [error] of its record. The node with continue-on-fail returns it in
    a record over which the fields of the body are spread; without, its
    item fails with the error n8n makes from
    [Blueprint execution failed: ] followed by the message of the error
    n8n makes from that value. For the body [{"detail": "not found"}]
    of a 404 the value is exactly [not found]. *)
Theorem error_message_preference :
  (forall fields sc,
      LeapterTool.errorMessage_of (Obj fields) sc
      = Ok (let detail := Js.opt (lookup "detail" fields) in
            let error := Js.opt (lookup "error" fields) in
            let message := Js.opt (lookup "message" fields) in
            if truthy detail then detail
            else if truthy error then error
            else if truthy message then message
            else Str ("Request failed with status " ++ to_text sc)))
  /\ (forall matched editorBaseUrl response n body itemIndex,
         get response "statusCode" = Ok (Num n) ->
         (400 <= n)%Z ->
         get response "body" = Ok body ->
         LeapterTool.classify matched editorBaseUrl response itemIndex
         = Ok (LeapterTool.record
                 [("error",
                   match body with
                   | Obj fields => preferred fields (Num n)
                   | _ => Str ("Request failed with status " ++ Str.of_Z n)
                   end);
                  ("statusCode", Num n)] itemIndex))
  /\ (forall (H : Host) executionId operation inputMode options parameters
             parametersJson itemIndex modelId bodyParams request response
             u fields n,
         Leapter.modelId_of_value (Leapter.part (Str.split operation "::") 1)
         = Ok modelId ->
         Leapter.gather inputMode parameters parametersJson = Ok bodyParams ->
         Leapter.request_of
           (to_text (Leapter.part (Str.split operation "::") 0))
           (Leapter.part (Str.split operation "::") 2) executionId
           options bodyParams = Ok request ->
         httpRequestWithAuthentication request = Ok response ->
         Leapter.unpack response = Ok u ->
         Leapter.responseBody u = Obj fields ->
         Leapter.statusCode u = Num n ->
         (400 <= n)%Z ->
         Leapter.item false executionId operation inputMode options
                      parameters parametersJson itemIndex
         = Throw (NodeOperationError
                    ("Blueprint execution failed: "
                     ++ NodeOperationError_message
                          (preferred fields (Num n))))
         /\ Leapter.item true executionId operation inputMode options
                         parameters parametersJson itemIndex
            = Ok (Leapter.record
                    (spread [("error", preferred fields (Num n));
                             ("statusCode", Num n)] fields) itemIndex))
  /\ preferred [("detail", Str "not found")] (Num 404) = Str "not found".
Proof.
  split; [exact errorMessage_of_object | split; [|split]].
  - intros matched editorBaseUrl response n body itemIndex Hsc Hn Hb.
    destruct (status_is_kept n Hn) as [Hor Hge].
    unfold LeapterTool.classify.
    rewrite Hsc. cbn [bind]. rewrite Hb. cbn [bind]. rewrite Hor, Hge.
    destruct body as [| |b|m|s|l|fields];
      try (rewrite errorMessage_of_other by exact I; reflexivity).
    unfold LeapterTool.errorBody_of. cbn [is_object].
    now rewrite errorMessage_of_object.
  - intros H. apply item_of_error_status.
  - reflexivity.
Qed.

Lemma error_message_preference_witness :
  LeapterTool.classify weather (Str "https://lab.example.com/editor")
    (Obj [("body", Obj [("detail", Str "not found")]);
          ("headers", Obj []);
          ("statusCode", Num 404)]) 0
  = Ok (LeapterTool.record [("error", Str "not found");
                            ("statusCode", Num 404)] 0).
Proof.
  apply (proj1 (proj2 error_message_preference)
           weather (Str "https://lab.example.com/editor") _ 404%Z
           (Obj [("detail", Str "not found")]) 0);
    [reflexivity | lia | reflexivity].
Defined.

(** C5, as the specification has it, fails: this body has a [detail]
    field, and the message is the [error] field. *)
Lemma present_but_empty_detail_is_passed_over :
  let body := [("detail", Str EmptyString); ("error", Str "boom")] in
  lookup "detail" body = Some (Str EmptyString)
  /\ LeapterTool.classify weather (Str "https://lab.example.com/editor")
       (Obj [("body", Obj body); ("headers", Obj []);
             ("statusCode", Num 500)]) 0
     = Ok (LeapterTool.record [("error", Str "boom");
                               ("statusCode", Num 500)] 0)
  /\ ~ (forall fields sc detail,
           lookup "detail" fields = Some detail ->
           LeapterTool.errorMessage_of (Obj fields) sc = Ok detail).
Proof.
  repeat split. intros Hall.
  specialize (Hall [("detail", Str EmptyString); ("error", Str "boom")]
                   (Num 500) (Str EmptyString) eq_refl).
  discriminate.
Qed.

End Responses.

(** ** The typed parameter projection *)

Module Projection.

(** A way down a schema: into a property of an object or into the items
    of an array. *)
Inductive step : Type :=
| Field (k : string)
| Items.

(** Keys that are pairwise distinct, as the keys of an object are. *)
Fixpoint distinct (keys : list string) : bool :=
  match keys with
  | [] => true
  | k :: rest => negb (existsb (String.eqb k) rest) && distinct rest
  end.

(** The properties [openApiToZod] walks for an object, their names
    pairwise distinct as the keys of an object are. *)
Definition object_properties (resolved : value)
  : option (list (string * value)) :=
  match get resolved "type", get resolved "properties" with
  | Ok ty, Ok properties =>
      if strict_eq ty (Str "object") && truthy properties
      then match entries properties with
           | Ok es => if distinct (List.map fst es) then Some es else None
           | Throw _ => None
           end
      else None
  | _, _ => None
  end.

(** The item schema [openApiToZod] walks for an array. *)
Definition array_items (resolved : value) : option value :=
  match get resolved "type", get resolved "items" with
  | Ok ty, Ok items =>
      if strict_eq ty (Str "array") && truthy items then Some items else None
  | _, _ => None
  end.

(** The schema node at the end of a path, each node resolved before it is
    entered, as the projection does. No path goes through a property
    named [__proto__]: the shape gets no field of that name. *)
Fixpoint schema_at (spec : value) (path : list step) (schema : value)
  : option value :=
  match path with
  | [] => Some schema
  | st :: rest =>
      match resolveSchema schema spec with
      | Ok resolved =>
          match st with
          | Field k =>
              match object_properties resolved with
              | Some props =>
                  if String.eqb k "__proto__" then None
                  else match lookup k props with
                       | Some child => schema_at spec rest child
                       | None => None
                       end
              | None => None
              end
          | Items =>
              match array_items resolved with
              | Some items => schema_at spec rest items
              | None => None
              end
          end
      | Throw _ => None
      end
  end.

(** The type under [.optional()] and [.describe()]. *)
Fixpoint strip (z : zod) : zod :=
  match z with
  | ZOptional z' | ZDescribed z' _ => strip z'
  | _ => z
  end.

Fixpoint zod_at (path : list step) (z : zod) : option zod :=
  match path with
  | [] => Some z
  | Field k :: rest =>
      match strip z with
      | ZObject shape =>
          match lookup k shape with
          | Some c => zod_at rest c
          | None => None
          end
      | _ => None
      end
  | Items :: rest =>
      match strip z with
      | ZArray item => zod_at rest item
      | _ => None
      end
  end.

Definition is_optional (z : zod) : bool :=
  match z with ZOptional _ => true | _ => false end.

(** The [required] list of a schema node; an absent list is empty. *)
Definition required_names (resolved : value) : option (list value) :=
  match get resolved "required" with
  | Ok (Arr l) => Some l
  | Ok Undefined | Ok Null => Some []
  | _ => None
  end.

(** The properties [buildZodSchemaFromOperation] walks. *)
Definition top_properties (resolved : value) : option (list (string * value)) :=
  match get resolved "properties" with
  | Ok p => match entries (or p (Obj [])) with
            | Ok es => Some es
            | Throw _ => None
            end
  | Throw _ => None
  end.

(** [operation.requestBody?.content?.['application/json']?.schema] *)
Definition body_schema (operation : value) : res value :=
  jsonContent <- jsonContent_of operation ;;
  get_opt jsonContent "schema".

(** A [required] that [includes] can be called on, or none. *)
Definition required_ok (required : value) : bool :=
  match required with
  | Undefined | Null | Arr _ | Str _ => true
  | _ => false
  end.

(** A schema written out in full down to [depth] levels: every node is
    an object without [$ref]; an array has no items or items written
    out; the properties of an object are written out and its [required]
    is a list, a string or absent. *)
Fixpoint plain (depth : nat) (schema : value) : bool :=
  match depth with
  | O => false
  | S d =>
      match schema with
      | Obj fields =>
          let field k := Js.opt (lookup k fields) in
          negb (truthy (field "$ref"))
          && (if strict_eq (field "type") (Str "array") then
                if truthy (field "items") then plain d (field "items")
                else true
              else if strict_eq (field "type") (Str "object")
                      && truthy (field "properties") then
                required_ok (field "required")
                && match entries (field "properties") with
                   | Ok es => List.forallb (fun kp => plain d (snd kp)) es
                   | Throw _ => false
                   end
              else true)
      | _ => false
      end
  end.

Lemma bind_Ok {A B : Type} (m : res A) (k : A -> res B) (b : B) :
  bind m k = Ok b -> exists a, m = Ok a /\ k a = Ok b.
Proof. destruct m as [a|e]; simpl; [now exists a | discriminate]. Qed.

Ltac bind_inv H :=
  let a := fresh "a" in
  let E := fresh "E" in
  apply bind_Ok in H as [a [E H]].

Lemma distinct_NoDup (keys : list string) :
  distinct keys = true -> NoDup keys.
Proof.
  induction keys as [|k keys IH]; cbn; intros E; constructor.
  - apply andb_true_iff in E as [E _]. apply negb_true_iff in E.
    intros Hin. rewrite <- not_true_iff_false in E. apply E.
    apply existsb_exists. exists k. split; [exact Hin | apply String.eqb_refl].
  - apply andb_true_iff in E as [_ E]. now apply IH.
Qed.

(** *** The loop that fills a shape *)

Section Shape.
Context {A B : Type}.
Variable g : string -> A -> res B.
Variable f : list (string * B) -> string * A -> res (list (string * B)).
Hypothesis f_step :
  forall shape kp,
    f shape kp = (b <- g (fst kp) (snd kp) ;; Ok (Js.set shape (fst kp) b)).

Lemma foldM_shape_other (es : list (string * A))
  (shape0 shape : list (string * B)) (k : string) :
  ~ In k (List.map fst es) \/ k = "__proto__" ->
  foldM f es shape0 = Ok shape ->
  lookup k shape = lookup k shape0.
Proof.
  revert shape0. induction es as [|[k' a] es IH]; intros shape0 Hk E;
    cbn [foldM] in E.
  - now injection E as <-.
  - bind_inv E. rewrite f_step in E0. cbn [fst snd] in E0. bind_inv E0.
    injection E0 as <-. rewrite (IH _ ltac:(cbn in Hk; tauto) E).
    destruct Hk as [Hk | ->].
    + apply Objects.lookup_set_other. cbn in Hk. intros ->. tauto.
    + unfold Js.set. destruct (String.eqb_spec k' "__proto__") as [-> | Hne];
        [reflexivity|].
      apply Objects.lookup_define_other. congruence.
Qed.

Lemma foldM_shape (es : list (string * A))
  (shape0 shape : list (string * B)) (k : string) (child : A) :
  NoDup (List.map fst es) ->
  k <> "__proto__" ->
  foldM f es shape0 = Ok shape ->
  lookup k es = Some child ->
  exists b, lookup k shape = Some b /\ g k child = Ok b.
Proof.
  intros Hnd Hk. revert shape0.
  induction es as [|[k' a] es IH]; intros shape0 E Hl; cbn in Hl;
    [discriminate|].
  cbn [foldM] in E. bind_inv E. rewrite f_step in E0. cbn [fst snd] in E0.
  bind_inv E0. injection E0 as <-.
  inversion Hnd as [|? ? Hk' Hnd']; subst.
  destruct (String.eqb_spec k k') as [-> | Hne].
  - injection Hl as <-. exists a1. split; [|exact E1].
    rewrite (foldM_shape_other es _ shape k' (or_introl Hk') E).
    now apply Objects.lookup_set_same.
  - now apply (IH Hnd' _ E).
Qed.

Lemma foldM_shape_returns (es : list (string * A))
  (shape0 : list (string * B)) :
  (forall kp, In kp es -> exists b, g (fst kp) (snd kp) = Ok b) ->
  exists shape, foldM f es shape0 = Ok shape.
Proof.
  revert shape0. induction es as [|kp es IH]; intros shape0 Hg; cbn [foldM].
  - now exists shape0.
  - destruct (Hg kp (or_introl eq_refl)) as [b Hb].
    rewrite f_step, Hb. cbn [bind]. apply IH.
    intros kp' Hin. apply Hg. now right.
Qed.

Lemma foldM_shape_fails (es : list (string * A))
  (shape0 : list (string * B)) (kp : string * A) :
  In kp es -> (exists e, g (fst kp) (snd kp) = Throw e) ->
  exists e, foldM f es shape0 = Throw e.
Proof.
  intros Hin Hkp. revert shape0.
  induction es as [|kp' es IH]; intros shape0; [contradiction|].
  cbn [foldM]. rewrite f_step.
  destruct (g (fst kp') (snd kp')) as [b|e] eqn:Eg; cbn [bind];
    [|now eexists].
  destruct Hin as [-> | Hin].
  - destruct Hkp as [e Hkp]. rewrite Hkp in Eg. discriminate Eg.
  - now apply IH.
Qed.

(** The fields of the shape are the properties of the object other
    than [__proto__], each once. *)
Lemma foldM_shape_keys (es : list (string * A))
  (shape0 shape : list (string * B)) (k : string) :
  foldM f es shape0 = Ok shape ->
  In k (List.map fst shape)
  <-> In k (List.map fst shape0)
      \/ (In k (List.map fst es) /\ k <> "__proto__").
Proof.
  revert shape0. induction es as [|[k' a] es IH]; intros shape0 E;
    cbn [foldM] in E.
  - injection E as <-. cbn. tauto.
  - bind_inv E. rewrite f_step in E0. cbn [fst snd] in E0. bind_inv E0.
    injection E0 as <-.
    rewrite (IH _ E), Objects.In_keys_set. cbn [List.map fst In].
    split.
    + intros [[[-> Hp] | H1] | [H1 H2]]; tauto.
    + intros [H1 | [[<- | H1] H2]]; tauto.
Qed.

Lemma foldM_shape_NoDup (es : list (string * A))
  (shape0 shape : list (string * B)) :
  NoDup (List.map fst shape0) ->
  foldM f es shape0 = Ok shape ->
  NoDup (List.map fst shape).
Proof.
  revert shape0. induction es as [|[k' a] es IH]; intros shape0 Hnd E;
    cbn [foldM] in E.
  - now injection E as <-.
  - bind_inv E. rewrite f_step in E0. cbn [fst snd] in E0. bind_inv E0.
    injection E0 as <-.
    apply (IH _ (Objects.NoDup_set _ _ _ Hnd) E).
Qed.

End Shape.

Lemma foldM_ext_Ok {A B : Type} (f g : B -> A -> res B) (l : list A)
  (b0 b : B) :
  (forall x a y, f x a = Ok y -> g x a = Ok y) ->
  foldM f l b0 = Ok b -> foldM g l b0 = Ok b.
Proof.
  intros Hfg. revert b0. induction l as [|a l IH]; intros b0 E; cbn in *.
  - exact E.
  - bind_inv E. rewrite (Hfg _ _ _ E0). cbn [bind]. now apply IH.
Qed.

Lemma mapM_ext_Ok {A B : Type} (f g : A -> res B) (l : list A) (bs : list B) :
  (forall a b, f a = Ok b -> g a = Ok b) ->
  mapM f l = Ok bs -> mapM g l = Ok bs.
Proof.
  intros Hfg. revert bs. induction l as [|a l IH]; intros bs E; simpl in *.
  - exact E.
  - bind_inv E. bind_inv E. injection E as <-.
    now rewrite (Hfg _ _ E0), (IH _ E1).
Qed.

Lemma strict_eq_Str (k : string) (v : value) :
  strict_eq (Str k) v = true <-> v = Str k.
Proof.
  destruct v; simpl; split; try discriminate; try congruence.
  - intros E. apply String.eqb_eq in E. now subst.
  - intros [= ->]. apply String.eqb_refl.
Qed.

Lemma existsb_names (k : string) (l : list value) :
  existsb (strict_eq (Str k)) l = true <-> In (Str k) l.
Proof.
  rewrite existsb_exists. split.
  - intros [v [Hin E]]. apply strict_eq_Str in E. now subst.
  - intros Hin. exists (Str k). split; [exact Hin | now apply strict_eq_Str].
Qed.

(** [resolved.required?.includes(key) ?? false] on a list of names. *)
Lemma required_includes_names (resolved : value) (k : string) (l : list value)
  (r : bool) :
  required_names resolved = Some l ->
  required_includes resolved k = Ok r ->
  (r = true <-> In (Str k) l).
Proof.
  unfold required_names, required_includes.
  destruct (get resolved "required") as [[| | | | |l'|]|]; try discriminate;
    simpl; intros [= <-] [= <-]; try (split; [discriminate | contradiction]).
  apply existsb_names.
Qed.

(** [(schema.required || []).includes(key)] on a list of names. *)
Lemma includes_key_names (resolved required : value) (k : string)
  (l : list value) (r : bool) :
  required_names resolved = Some l ->
  get resolved "required" = Ok required ->
  includes_key (or required (Arr [])) k = Ok r ->
  (r = true <-> In (Str k) l).
Proof.
  unfold required_names. intros Hn Hg. rewrite Hg in Hn.
  destruct required; try discriminate; injection Hn as <-; simpl;
    intros [= <-]; try (split; [discriminate | contradiction]).
  apply existsb_names.
Qed.

(** What the [switch] builds is never optional by itself. *)
Lemma zodType_of_not_optional (self : value -> bool -> res zod)
  (resolved ty : value) (zodType : zod) :
  zodType_of self resolved ty = Ok zodType -> is_optional zodType = false.
Proof.
  unfold zodType_of. intros E.
  repeat match type of E with
         | (if ?c then _ else _) = _ => destruct c
         | bind _ _ = _ => bind_inv E
         | Ok _ = Ok _ => injection E as <-
         end; try reflexivity.
  now destruct a0.
Qed.

(** The steps of one call that returns. *)
Lemma openApiToZod_Ok (depth : nat) (schema spec : value) (required : bool)
  (z : zod) :
  openApiToZod depth schema spec required = Ok z ->
  exists d resolved ty zodType,
    depth = S d
    /\ resolveSchema schema spec = Ok resolved
    /\ get resolved "type" = Ok ty
    /\ zodType_of (fun s r => openApiToZod d s spec r) resolved ty = Ok zodType
    /\ strip z = strip zodType
    /\ is_optional z = negb required.
Proof.
  destruct depth as [|d]; [discriminate|]. cbn [openApiToZod]. intros E.
  bind_inv E. bind_inv E. bind_inv E. bind_inv E. injection E as <-.
  exists d, a, a0, a1. repeat split; try assumption.
  - unfold describe in E3. bind_inv E3. injection E3 as <-.
    destruct required, (truthy a3); reflexivity.
  - unfold describe in E3. bind_inv E3. injection E3 as <-.
    pose proof (zodType_of_not_optional _ _ _ _ E2) as Hn.
    destruct required, (truthy a3); simpl; try reflexivity; exact Hn.
Qed.

(** The shape built for an object with properties. *)
Lemma zodType_of_object (self : value -> bool -> res zod)
  (resolved : value) (props : list (string * value)) (zodType : zod)
  (ty : value) :
  get resolved "type" = Ok ty ->
  object_properties resolved = Some props ->
  zodType_of self resolved ty = Ok zodType ->
  exists shape,
    zodType = ZObject shape
    /\ forall k child,
         k <> "__proto__" ->
         lookup k props = Some child ->
         exists zk r,
           lookup k shape = Some zk
           /\ required_includes resolved k = Ok r
           /\ self child r = Ok zk.
Proof.
  unfold object_properties. intros Hty Hp E. rewrite Hty in Hp.
  destruct (get resolved "properties") as [properties|] eqn:Hprops;
    [|discriminate].
  destruct (strict_eq ty (Str "object")) eqn:Ho; [|discriminate].
  destruct (truthy properties) eqn:Ht; [|discriminate].
  destruct (entries properties) as [es|] eqn:Hes; [|discriminate].
  destruct (distinct (List.map fst es)) eqn:Hd; [|discriminate].
  injection Hp as <-.
  destruct ty; try discriminate. simpl in Ho.
  apply String.eqb_eq in Ho. subst s.
  unfold zodType_of in E. cbn [strict_eq String.eqb Ascii.eqb Bool.eqb orb] in E.
  rewrite Hprops in E. cbn [bind] in E. rewrite Ht, Hes in E. cbn [bind] in E.
  bind_inv E. injection E as <-.
  exists a. split; [reflexivity|].
  intros k child Hk Hl.
  destruct (foldM_shape
              (fun k c => isRequired <- required_includes resolved k ;;
                          self c isRequired)
              (fun shape kp =>
                 isRequired <- required_includes resolved (fst kp) ;;
                 z <- self (snd kp) isRequired ;;
                 Ok (Js.set shape (fst kp) z))
              ltac:(intros shape kp; cbn beta;
                      destruct (required_includes resolved (fst kp));
                      reflexivity)
              es [] a k child (distinct_NoDup _ Hd) Hk E0 Hl)
    as [zk [Hz Hg]].
  bind_inv Hg. now exists zk, a0.
Qed.

(** The shape built for an array with an item schema. *)
Lemma zodType_of_array (self : value -> bool -> res zod)
  (resolved items ty : value) (zodType : zod) :
  get resolved "type" = Ok ty ->
  array_items resolved = Some items ->
  zodType_of self resolved ty = Ok zodType ->
  exists item, zodType = ZArray item /\ self items true = Ok item.
Proof.
  unfold array_items. intros Hty Hi E. rewrite Hty in Hi.
  destruct (get resolved "items") as [items'|] eqn:Hitems; [|discriminate].
  destruct (strict_eq ty (Str "array")) eqn:Ha; [|discriminate].
  destruct (truthy items') eqn:Ht; [|discriminate].
  injection Hi as ->.
  destruct ty; try discriminate. simpl in Ha.
  apply String.eqb_eq in Ha. subst s.
  unfold zodType_of in E. cbn [strict_eq String.eqb Ascii.eqb Bool.eqb orb] in E.
  rewrite Hitems in E. cbn [bind] in E. rewrite Ht in E.
  bind_inv E. injection E as <-. now exists a.
Qed.

(** At the end of every path, the field of an object is optional exactly
    when the [required] test of that object fails for its name. *)
Lemma field_at_path (spec : value) (path : list step) :
  forall depth schema required z parent resolved props k child,
    openApiToZod depth schema spec required = Ok z ->
    schema_at spec path schema = Some parent ->
    resolveSchema parent spec = Ok resolved ->
    object_properties resolved = Some props ->
    k <> "__proto__" ->
    lookup k props = Some child ->
    exists zk r,
      zod_at (path ++ [Field k]) z = Some zk
      /\ required_includes resolved k = Ok r
      /\ is_optional zk = negb r.
Proof.
  induction path as [|st path IH];
    intros depth schema required z parent resolved props k child
           Hz Hs Hr Hp Hk Hl.
  - injection Hs as <-.
    apply openApiToZod_Ok in Hz
      as [d [resolved' [ty [zodType [-> [Hr' [Hty [Hzt [Hst _]]]]]]]]].
    rewrite Hr in Hr'. injection Hr' as <-.
    destruct (zodType_of_object _ _ _ _ _ Hty Hp Hzt) as [shape [-> Hshape]].
    destruct (Hshape k child Hk Hl) as [zk [r [Hzk [Hreq Hself]]]].
    exists zk, r. cbn [app zod_at]. rewrite Hst. cbn [strip]. rewrite Hzk.
    repeat split; try assumption.
    now apply openApiToZod_Ok in Hself as [_ [_ [_ [_ [_ [_ [_ [_ [_ Ho]]]]]]]]].
  - apply openApiToZod_Ok in Hz
      as [d [resolved' [ty [zodType [-> [Hr' [Hty [Hzt [Hst _]]]]]]]]].
    cbn [schema_at] in Hs. rewrite Hr' in Hs.
    destruct st as [k'|].
    + destruct (object_properties resolved') as [props'|] eqn:Hp';
        [|discriminate].
      destruct (String.eqb_spec k' "__proto__") as [|Hk']; [discriminate|].
      destruct (lookup k' props') as [child'|] eqn:Hl'; [|discriminate].
      destruct (zodType_of_object _ _ _ _ _ Hty Hp' Hzt) as [shape [-> Hshape]].
      destruct (Hshape k' child' Hk' Hl') as [zk' [r' [Hzk' [_ Hself]]]].
      destruct (IH _ _ _ _ _ _ _ _ _ Hself Hs Hr Hp Hk Hl)
        as [zk [r [Hat Hopt]]].
      exists zk, r. cbn [app zod_at]. rewrite Hst. cbn [strip]. rewrite Hzk'.
      now split.
    + destruct (array_items resolved') as [items|] eqn:Hi; [|discriminate].
      destruct (zodType_of_array _ _ _ _ _ Hty Hi Hzt) as [item [-> Hself]].
      destruct (IH _ _ _ _ _ _ _ _ _ Hself Hs Hr Hp Hk Hl)
        as [zk [r [Hat Hopt]]].
      exists zk, r. cbn [app zod_at]. rewrite Hst. cbn [strip].
      now split.
Qed.

Lemma optional_iff (zk : zod) (r : bool) (P : Prop) :
  is_optional zk = negb r -> (r = true <-> P) ->
  (is_optional zk = true <-> ~ P).
Proof.
  intros -> Hr. destruct r; simpl; split; intros H.
  - discriminate.
  - exfalso. apply H. now apply Hr.
  - intros HP. apply Hr in HP. discriminate.
  - reflexivity.
Qed.

(** What [buildZodSchemaFromOperation] has computed when it returns
    the shape of a body schema. *)
Lemma buildZodSchemaFromOperation_Ok (depth : nat) (operation spec : value)
  (shape : list (string * zod)) (rawSchema resolved : value) :
  buildZodSchemaFromOperation depth operation spec = Ok shape ->
  body_schema operation = Ok rawSchema ->
  truthy rawSchema = true ->
  resolveSchema rawSchema spec = Ok resolved ->
  exists p r es,
    get resolved "properties" = Ok p
    /\ get resolved "required" = Ok r
    /\ entries (or p (Obj [])) = Ok es
    /\ foldM (fun zodShape kp =>
                isRequired <- includes_key (or r (Arr [])) (fst kp) ;;
                z <- openApiToZod depth (snd kp) spec isRequired ;;
                Ok (Js.set zodShape (fst kp) z)) es [] = Ok shape.
Proof.
  unfold buildZodSchemaFromOperation, body_schema.
  intros Hb Hs Ht Hr.
  bind_inv Hs. rewrite E in Hb. cbn [bind] in Hb.
  rewrite Hs in Hb. cbn [bind] in Hb. rewrite Ht in Hb. cbn [negb] in Hb.
  rewrite Hr in Hb. cbn [bind] in Hb.
  bind_inv Hb. bind_inv Hb. bind_inv Hb.
  now exists a0, a1, a2.
Qed.

(** The fields [buildZodSchemaFromOperation] returns. *)
Lemma top_level_field (depth : nat) (operation spec : value)
  (shape : list (string * zod)) (rawSchema resolved : value)
  (props : list (string * value)) (k : string) (child : value)
  (l : list value) :
  buildZodSchemaFromOperation depth operation spec = Ok shape ->
  body_schema operation = Ok rawSchema ->
  truthy rawSchema = true ->
  resolveSchema rawSchema spec = Ok resolved ->
  top_properties resolved = Some props ->
  NoDup (List.map fst props) ->
  k <> "__proto__" ->
  lookup k props = Some child ->
  required_names resolved = Some l ->
  exists zk required,
    lookup k shape = Some zk
    /\ openApiToZod depth child spec required = Ok zk
    /\ (required = true <-> In (Str k) l).
Proof.
  intros Hb Hs Ht Hr Hp Hd Hk Hl Hn.
  destruct (buildZodSchemaFromOperation_Ok _ _ _ _ _ _ Hb Hs Ht Hr)
    as [p [r [es [Hgp [Hgr [Hes Hf]]]]]].
  unfold top_properties in Hp. rewrite Hgp, Hes in Hp.
  injection Hp as <-.
  destruct (foldM_shape
              (fun k c => isRequired <- includes_key (or r (Arr [])) k ;;
                          openApiToZod depth c spec isRequired)
              (fun zodShape kp =>
                 isRequired <- includes_key (or r (Arr [])) (fst kp) ;;
                 z <- openApiToZod depth (snd kp) spec isRequired ;;
                 Ok (Js.set zodShape (fst kp) z))
              ltac:(intros zodShape kp; cbn beta;
                      destruct (includes_key (or r (Arr [])) (fst kp));
                      reflexivity)
              es [] shape k child Hd Hk Hf Hl)
    as [zk [Hz Hg]].
  bind_inv Hg. exists zk, a. repeat split; try assumption;
    now apply (includes_key_names resolved r k l a).
Qed.

(** A deeper stack changes no result: the bound only decides whether the
    call returns. *)
Lemma zodType_of_ext_Ok (self self' : value -> bool -> res zod)
  (resolved ty : value) (zodType : zod) :
  (forall s r z, self s r = Ok z -> self' s r = Ok z) ->
  zodType_of self resolved ty = Ok zodType ->
  zodType_of self' resolved ty = Ok zodType.
Proof.
  intros Hs. unfold zodType_of.
  destruct (strict_eq ty (Str "string")); [exact (fun E => E)|].
  destruct (strict_eq ty (Str "integer") || strict_eq ty (Str "number"));
    [exact (fun E => E)|].
  destruct (strict_eq ty (Str "boolean")); [exact (fun E => E)|].
  destruct (strict_eq ty (Str "array")).
  - intros E. bind_inv E. rewrite E0. cbn [bind].
    destruct (truthy a); [|exact E].
    bind_inv E. now rewrite (Hs _ _ _ E1).
  - destruct (strict_eq ty (Str "object")); [|exact (fun E => E)].
    intros E. bind_inv E. rewrite E0. cbn [bind].
    destruct (truthy a); [|exact E].
    bind_inv E. rewrite E1. cbn [bind]. bind_inv E.
    apply (foldM_ext_Ok _
             (fun shape kp =>
                isRequired <- required_includes resolved (fst kp) ;;
                z <- self' (snd kp) isRequired ;;
                Ok (Js.set shape (fst kp) z))) in E2.
    + rewrite E2. exact E.
    + intros x kp y Hb. cbn beta in *. bind_inv Hb.
      rewrite E3. cbn [bind]. bind_inv Hb.
      now rewrite (Hs _ _ _ E4).
Qed.

Lemma openApiToZod_S (d : nat) (schema spec : value) (required : bool) :
  openApiToZod (S d) schema spec required
  = (resolved <- resolveSchema schema spec ;;
     ty <- get resolved "type" ;;
     zodType <- zodType_of (fun s r => openApiToZod d s spec r) resolved ty ;;
     zodType' <- describe resolved zodType ;;
     Ok (finish required zodType')).
Proof. reflexivity. Qed.

Lemma openApiToZod_deeper (depth : nat) (spec : value) :
  forall schema required z,
    openApiToZod depth schema spec required = Ok z ->
    openApiToZod (S depth) schema spec required = Ok z.
Proof.
  induction depth as [|d IH]; intros schema required z E; [discriminate|].
  rewrite openApiToZod_S in E. rewrite openApiToZod_S.
  bind_inv E. rewrite E0. cbn [bind].
  bind_inv E. rewrite E1. cbn [bind].
  bind_inv E.
  rewrite (zodType_of_ext_Ok _ (fun s r => openApiToZod (S d) s spec r)
             _ _ _ IH E2).
  exact E.
Qed.

(** *** Schemas of which the projection returns *)

Lemma get_truthy (v : value) (k : string) :
  truthy v = true -> exists x, get v k = Ok x.
Proof.
  destruct v as [| |b|n|s|l|fields]; cbn; try discriminate; intros _;
    try (now eexists).
  - destruct (String.eqb k "length"); [now eexists|].
    destruct (index_of_key k); now eexists.
  - destruct (String.eqb k "length"); [now eexists|].
    destruct (index_of_key k); now eexists.
Qed.

Lemma required_includes_ok (fields : list (string * value)) (k : string) :
  required_ok (Js.opt (lookup "required" fields)) = true ->
  exists r, required_includes (Obj fields) k = Ok r.
Proof.
  unfold required_includes. cbn [get bind].
  destruct (Js.opt (lookup "required" fields)); cbn; try discriminate;
    intros _; now eexists.
Qed.

(** A schema written out in full down to [depth] levels has a
    projection at the bound [depth] of the call stack. *)
Lemma plain_returns (spec : value) (depth : nat) :
  forall schema required,
    plain depth schema = true ->
    exists z, openApiToZod depth schema spec required = Ok z.
Proof.
  induction depth as [|d IH]; intros schema required Hp; [discriminate|].
  destruct schema as [| | | | | |fields]; try discriminate.
  cbn [plain] in Hp. apply andb_true_iff in Hp as [Href Hp].
  apply negb_true_iff in Href.
  rewrite openApiToZod_S. unfold resolveSchema. cbn [get bind].
  rewrite Href. cbn [bind get].
  assert (Hd : forall zodType,
             exists z,
               (zodType' <- describe (Obj fields) zodType ;;
                Ok (finish required zodType')) = Ok z).
  { intros zodType. unfold describe. cbn [get bind]. now eexists. }
  unfold zodType_of.
  destruct (strict_eq (Js.opt (lookup "type" fields)) (Str "string")) eqn:Es.
  { cbn [get bind]. unfold has_enum.
    destruct (truthy (Js.opt (lookup "enum" fields))) eqn:Et; cbn [bind].
    - destruct (get_truthy _ "length" Et) as [len ->]. cbn [bind]. apply Hd.
    - apply Hd. }
  destruct (strict_eq (Js.opt (lookup "type" fields)) (Str "integer")
            || strict_eq (Js.opt (lookup "type" fields)) (Str "number"));
    [cbn [bind]; apply Hd|].
  destruct (strict_eq (Js.opt (lookup "type" fields)) (Str "boolean"));
    [cbn [bind]; apply Hd|].
  destruct (strict_eq (Js.opt (lookup "type" fields)) (Str "array")).
  { cbn [get bind].
    destruct (truthy (Js.opt (lookup "items" fields))); cbn [bind].
    - destruct (IH _ true Hp) as [item ->]. cbn [bind]. apply Hd.
    - apply Hd. }
  destruct (strict_eq (Js.opt (lookup "type" fields)) (Str "object"));
    [|cbn [bind]; apply Hd].
  cbn [get bind andb] in Hp |- *.
  destruct (truthy (Js.opt (lookup "properties" fields)));
    [|cbn [bind]; apply Hd].
  apply andb_true_iff in Hp as [Hr Hp].
  destruct (entries (Js.opt (lookup "properties" fields))) as [es|];
    [|discriminate]. cbn [bind].
  destruct (foldM_shape_returns
              (fun k c => isRequired <- required_includes (Obj fields) k ;;
                          openApiToZod d c spec isRequired)
              (fun shape kp =>
                 isRequired <- required_includes (Obj fields) (fst kp) ;;
                 z <- openApiToZod d (snd kp) spec isRequired ;;
                 Ok (Js.set shape (fst kp) z))
              ltac:(intros shape kp; cbn beta;
                    destruct (required_includes (Obj fields) (fst kp));
                    reflexivity)
              es []) as [shape ->].
  - intros kp Hin. destruct (required_includes_ok fields (fst kp) Hr) as [r ->].
    cbn [bind]. apply IH. rewrite forallb_forall in Hp. now apply Hp.
  - cbn [bind]. apply Hd.
Qed.

(** C6. In the typed parameter projection a field is optional exactly
    when its name is absent from the [required] list of the object it is
    a property of. This holds for the fields [buildZodSchemaFromOperation]
    returns, against the [required] list of the body schema, and at the
    end of every path of properties and array items below any schema
    node, against the [required] list of the object the path ends in,
    whatever the [required] flag the enclosing call was given. A
    property named [__proto__] gets no field. The projection returns
    for the schemas written out in full down to the bound of the call
    stack, and for the operations whose body schema has such
    properties. *)
Theorem optional_exactly_when_not_required (spec : value) (depth : nat) :
  (forall operation shape rawSchema resolved props k child l,
      buildZodSchemaFromOperation depth operation spec = Ok shape ->
      body_schema operation = Ok rawSchema ->
      truthy rawSchema = true ->
      resolveSchema rawSchema spec = Ok resolved ->
      top_properties resolved = Some props ->
      NoDup (List.map fst props) ->
      k <> "__proto__" ->
      lookup k props = Some child ->
      required_names resolved = Some l ->
      exists zk required,
        lookup k shape = Some zk
        /\ openApiToZod depth child spec required = Ok zk
        /\ (is_optional zk = true <-> ~ In (Str k) l))
  /\ (forall schema required z path parent resolved props k child l,
         openApiToZod depth schema spec required = Ok z ->
         schema_at spec path schema = Some parent ->
         resolveSchema parent spec = Ok resolved ->
         object_properties resolved = Some props ->
         k <> "__proto__" ->
         lookup k props = Some child ->
         required_names resolved = Some l ->
         exists zk,
           zod_at (path ++ [Field k]) z = Some zk
           /\ (is_optional zk = true <-> ~ In (Str k) l))
  /\ (forall operation shape,
         buildZodSchemaFromOperation depth operation spec = Ok shape ->
         lookup "__proto__" shape = None)
  /\ (forall schema required,
         plain depth schema = true ->
         exists z, openApiToZod depth schema spec required = Ok z)
  /\ (forall operation rawSchema fields es,
         body_schema operation = Ok rawSchema ->
         truthy rawSchema = true ->
         resolveSchema rawSchema spec = Ok (Obj fields) ->
         required_ok (or (Js.opt (lookup "required" fields)) (Arr [])) = true ->
         entries (or (Js.opt (lookup "properties" fields)) (Obj [])) = Ok es ->
         List.forallb (fun kp => plain depth (snd kp)) es = true ->
         exists shape,
           buildZodSchemaFromOperation depth operation spec = Ok shape).
Proof.
  split; [|split; [|split; [|split]]].
  - intros operation shape rawSchema resolved props k child l
           Hb Hs Ht Hr Hp Hd Hk Hl Hn.
    destruct (top_level_field depth operation spec shape rawSchema resolved
                props k child l Hb Hs Ht Hr Hp Hd Hk Hl Hn)
      as [zk [required [Hzk [Hz Hreq]]]].
    exists zk, required. repeat split; try assumption;
      apply (optional_iff zk required (In (Str k) l)); try assumption;
      now apply openApiToZod_Ok in Hz as [_ [_ [_ [_ [_ [_ [_ [_ [_ Ho]]]]]]]]].
  - intros schema required z path parent resolved props k child l
           Hz Hs Hr Hp Hk Hl Hn.
    destruct (field_at_path spec path depth schema required z parent resolved
                props k child Hz Hs Hr Hp Hk Hl) as [zk [r [Hat [Hreq Hopt]]]].
    exists zk. split; [exact Hat|].
    apply (optional_iff zk r); [exact Hopt|].
    now apply (required_includes_names resolved k l r).
  - intros operation shape Hb. unfold buildZodSchemaFromOperation in Hb.
    bind_inv Hb. bind_inv Hb.
    destruct (negb (truthy a0)); [now injection Hb as <-|].
    do 4 bind_inv Hb.
    apply (foldM_shape_other
             (fun k c => isRequired <- includes_key (or a3 (Arr [])) k ;;
                         openApiToZod depth c spec isRequired)
             (fun zodShape kp =>
                isRequired <- includes_key (or a3 (Arr [])) (fst kp) ;;
                z <- openApiToZod depth (snd kp) spec isRequired ;;
                Ok (Js.set zodShape (fst kp) z))
             ltac:(intros zodShape kp; cbn beta;
                     destruct (includes_key (or a3 (Arr [])) (fst kp));
                     reflexivity)
             a4 [] shape "__proto__" (or_intror eq_refl)) in Hb.
    exact Hb.
  - intros schema required. apply plain_returns.
  - intros operation rawSchema fields es Hs Ht Hr Hreq Hes Hp.
    unfold buildZodSchemaFromOperation. unfold body_schema in Hs.
    bind_inv Hs. rewrite E. cbn [bind]. rewrite Hs. cbn [bind].
    rewrite Ht. cbn [negb]. rewrite Hr. cbn [bind get]. rewrite Hes.
    cbn [bind].
    apply (foldM_shape_returns
             (fun k c =>
                isRequired <- includes_key
                                (or (Js.opt (lookup "required" fields))
                                    (Arr [])) k ;;
                openApiToZod depth c spec isRequired)).
    + intros zodShape kp. cbn beta.
      now destruct (includes_key _ (fst kp)).
    + intros kp Hin.
      assert (Hi : exists r,
                 includes_key (or (Js.opt (lookup "required" fields))
                                  (Arr [])) (fst kp) = Ok r).
      { revert Hreq. unfold or.
        destruct (Js.opt (lookup "required" fields)) as [| |b|n|s|l|fs];
          cbn [truthy];
          repeat match goal with
                 | |- context [if ?c then _ else _] => destruct c
                 end;
          cbn; try discriminate; intros _; now eexists. }
      destruct Hi as [r ->]. cbn [bind]. apply plain_returns.
      rewrite forallb_forall in Hp. now apply Hp.
Qed.

(** On the sample document the projection of the weather operation
    returns: [details] is an optional field of the body, and inside it
    [units] is required and [lang] optional. *)
Lemma optional_exactly_when_not_required_witness :
  exists shape zk zu,
    buildZodSchemaFromOperation 3 Sample.weather_operation Sample.spec
    = Ok shape
    /\ lookup "details" shape = Some zk
    /\ (is_optional zk = true <-> ~ In (Str "details") [Str "city"])
    /\ zod_at [Field "units"] zk = Some zu
    /\ (is_optional zu = true <-> ~ In (Str "units") [Str "units"]).
Proof.
  destruct (proj2 (proj2 (proj2 (proj2
              (optional_exactly_when_not_required Sample.spec 3))))
              Sample.weather_operation
              (Obj [("$ref", Str "#/components/schemas/WeatherInput")])
              [("type", Str "object");
               ("properties", Obj [("city", Sample.string_schema);
                                   ("details", Sample.details_schema)]);
               ("required", Arr [Str "city"])]
              [("city", Sample.string_schema);
               ("details", Sample.details_schema)]
              eq_refl eq_refl eq_refl eq_refl eq_refl eq_refl)
    as [shape Hb].
  destruct (proj1 (optional_exactly_when_not_required Sample.spec 3)
              Sample.weather_operation shape
              (Obj [("$ref", Str "#/components/schemas/WeatherInput")])
              Sample.weather_schema
              [("city", Sample.string_schema);
               ("details", Sample.details_schema)]
              "details" Sample.details_schema [Str "city"]
              Hb eq_refl eq_refl eq_refl eq_refl
              (distinct_NoDup ["city"; "details"] eq_refl)
              ltac:(discriminate) eq_refl eq_refl)
    as [zk [required [Hzk [Hz Hopt]]]].
  destruct (proj1 (proj2 (optional_exactly_when_not_required Sample.spec 3))
              Sample.details_schema required zk [] Sample.details_schema
              Sample.details_schema
              [("units", Sample.string_schema); ("lang", Sample.string_schema)]
              "units" Sample.string_schema [Str "units"]
              Hz eq_refl eq_refl eq_refl ltac:(discriminate)
              eq_refl eq_refl)
    as [zu [Hzu Hou]].
  exists shape, zk, zu. repeat split; try assumption; try apply Hopt;
    try apply Hou.
Defined.

End Projection.

(** ** Routing a tool call *)

Module Routing.

Import LeapterTool.

Local Open Scope Q_scope.







Section Scoring.
Variable inputKeys : list string.








End Scoring.

Local Close Scope Q_scope.

(** [blueprints.find(...)] returns the first blueprint of the name. *)
Lemma find_first (wanted : string) (pre post : list Blueprint) (bp : Blueprint) :
  name bp = wanted ->
  (forall c, In c pre -> name c <> wanted) ->
  find (fun c => String.eqb (name c) wanted) (pre ++ bp :: post) = Some bp.
Proof.
  intros Hbp. induction pre as [|a pre IH]; intros Hpre; simpl.
  - now rewrite Hbp, String.eqb_refl.
  - destruct (String.eqb_spec (name a) wanted) as [E|_].
    + exfalso. apply (Hpre a); [now left | exact E].
    + apply IH. intros c Hc. apply Hpre. now right.
Qed.




(** The keys scored are the distinct keys of the tool arguments. *)
Lemma set_add_In (s : list string) (k x : string) :
  In x (set_add s k) <-> In x s \/ x = k.
Proof.
  unfold set_add. destruct (set_has s k) eqn:E.
  - apply Forwarding.set_has_In in E. split; [tauto|].
    intros [H | ->]; assumption.
  - rewrite in_app_iff. simpl. intuition.
Qed.

Lemma set_add_NoDup (s : list string) (k : string) :
  NoDup s -> NoDup (set_add s k).
Proof.
  intros Hs. unfold set_add. destruct (set_has s k) eqn:E; [assumption|].
  apply NoDup_app; [assumption | repeat constructor; intros [] |].
  intros x Hx [<-|[]].
  apply Forwarding.set_has_In in Hx. congruence.
Qed.

Lemma set_of_list_spec (l : list string) :
  NoDup (set_of_list l) /\ forall x, In x (set_of_list l) <-> In x l.
Proof.
  unfold set_of_list.
  assert (G : forall acc, NoDup acc ->
                NoDup (fold_left set_add l acc)
                /\ forall x, In x (fold_left set_add l acc)
                             <-> In x acc \/ In x l).
  { induction l as [|k l IH]; intros acc Hacc; simpl.
    - split; [assumption | intros x; tauto].
    - destruct (IH (set_add acc k) (set_add_NoDup acc k Hacc)) as [Hn Hi].
      split; [assumption|]. intros x. rewrite Hi, set_add_In.
      intuition. }
  destruct (G [] (NoDup_nil _)) as [Hn Hi].
  split; [assumption | intros x; rewrite Hi; simpl; tauto].
Qed.

(** *** The candidates *)

(** [v[k]] where the access raises nothing. *)
Definition field (v : value) (k : string) : value :=
  match get v k with Ok x => x | Throw _ => Undefined end.

(** A path whose POST operation exists and is not deprecated. *)
Definition is_candidate (entry : string * value) : bool :=
  let operation := field (snd entry) "post" in
  truthy operation && negb (truthy (field operation "deprecated")).

Lemma blueprint_of_candidate (serverUrl : string) (spec : value)
  (entry : string * value) (ob : option Blueprint) :
  blueprint_of serverUrl spec entry = Ok ob ->
  match ob with
  | Some bp =>
      is_candidate entry = true
      /\ path bp = fst entry
      /\ operationUrl bp = (serverUrl ++ fst entry)%string
  | None => is_candidate entry = false
  end.
Proof.
  destruct entry as [p pathItem]. unfold blueprint_of, is_candidate, field.
  cbn [fst snd]. intros E.
  destruct (get pathItem "post") as [operation|]; [|discriminate].
  cbn [bind] in E. destruct (truthy operation) eqn:Ho; cbn [negb] in E.
  - destruct (get operation "deprecated") as [deprecated|]; [|discriminate].
    cbn [bind] in E. destruct (truthy deprecated) eqn:Hd.
    + now injection E as <-.
    + repeat (match type of E with
              | bind ?m _ = _ =>
                  let x := fresh "x" in
                  destruct m as [x|]; [cbn [bind] in E | discriminate]
              end).
      injection E as <-. now repeat split.
  - now injection E as <-.
Qed.

Lemma collected_in_order (serverUrl : string) (spec : value)
  (es : list (string * value)) (bs : list (option Blueprint)) :
  mapM (blueprint_of serverUrl spec) es = Ok bs ->
  Forall2 (fun entry bp => blueprint_of serverUrl spec entry = Ok (Some bp))
          (List.filter is_candidate es) (somes bs).
Proof.
  revert bs. induction es as [|e es IH]; intros bs E; simpl in E.
  - injection E as <-. constructor.
  - destruct (blueprint_of serverUrl spec e) as [ob|] eqn:Eb; [|discriminate].
    cbn [bind] in E.
    destruct (mapM (blueprint_of serverUrl spec) es) as [bs'|]; [|discriminate].
    injection E as <-. specialize (IH bs' eq_refl).
    pose proof (blueprint_of_candidate _ _ _ _ Eb) as Hc.
    cbn [List.filter]. destruct ob as [bp|].
    + destruct Hc as [-> _]. cbn [somes]. now constructor.
    + rewrite Hc. exact IH.
Qed.

(** *** The decision *)



Definition search : Blueprint :=
  {| name := "search";
     path := "/models/search/runs";
     operationUrl := "https://api.example.com/models/search/runs";
     schemaKeys := ["query"] |}.


End Routing.

(** ** Properties of what the editor loads *)

Module Loading.

Import Load.

(** *** Fields *)

Definition field_types : list value :=
  [Str "options"; Str "string"; Str "number"; Str "boolean"; Str "object"].

Lemma mapOpenApiType_cases (openApiType : value) :
  In (mapOpenApiType openApiType)
     [Str "string"; Str "number"; Str "boolean"; Str "object"; Str "array"].
Proof.
  unfold mapOpenApiType.
  set (key := to_text (or openApiType (Str "string"))). clearbody key.
  unfold typeMap. cbn [lookup].
  repeat match goal with
         | |- context [String.eqb key ?s] =>
             destruct (String.eqb key s); [simpl; tauto|]
         end.
  simpl. tauto.
Qed.

(** A type given as a string maps to [array] only when it is [array]. *)
Lemma mapOpenApiType_string (t : string) :
  mapOpenApiType (Str t) = Str "array" -> t = "array".
Proof.
  unfold mapOpenApiType, or. cbn [truthy].
  destruct (String.eqb_spec t EmptyString) as [->|Hne]; cbn [negb to_text].
  - cbn. discriminate.
  - unfold typeMap. cbn [lookup].
    destruct (String.eqb t "string"); [cbn; discriminate|].
    destruct (String.eqb t "integer"); [cbn; discriminate|].
    destruct (String.eqb t "number"); [cbn; discriminate|].
    destruct (String.eqb t "boolean"); [cbn; discriminate|].
    destruct (String.eqb t "object"); [cbn; discriminate|].
    destruct (String.eqb_spec t "array") as [->|_]; [reflexivity|].
    cbn. discriminate.
Qed.

(** The type of a schema node is absent, or is a string that names no
    member every object inherits: [typeMap[type]] is then a read of
    [typeMap]'s own properties. *)
Definition typed (resolved : value) : Prop :=
  match get resolved "type" with
  | Ok (Str t) => Js.inherited t = false
  | Ok Undefined => True
  | _ => False
  end.

Lemma mapM_Forall2 {A B : Type} (f : A -> res B) (l : list A) (l' : list B) :
  mapM f l = Ok l' -> Forall2 (fun a b => f a = Ok b) l l'.
Proof.
  revert l'. induction l as [|a l IH]; intros l' E; simpl in E.
  - injection E as <-. constructor.
  - Projection.bind_inv E. Projection.bind_inv E. injection E as <-.
    constructor; [assumption | now apply IH].
Qed.

(** What [getOperationFields] does for one property. *)
Lemma field_of_facts (spec required : value) (kp : string * value) (f : value) :
  field_of spec required kp = Ok f ->
  get f "id" = Ok (Str ("body." ++ fst kp))
  /\ (exists b, get f "required" = Ok (Bool b)
                /\ includes_key required (fst kp) = Ok b)
  /\ exists resolved t,
       resolveSchema (snd kp) spec = Ok resolved
       /\ get f "type" = Ok t
       /\ (typed resolved -> In t field_types)
       /\ (forall enum,
              get resolved "enum" = Ok enum -> truthy enum = false ->
              get resolved "type" = Ok (Str "array") ->
              t = Str "string"
              /\ (get f "defaultValue" = Ok (Str string_array_placeholder)
                  \/ get f "defaultValue" = Ok (Str "[1, 2, 3]"))).
Proof.
  destruct kp as [fieldName fieldSchema]. unfold field_of. cbn [fst snd].
  intros E. Projection.bind_inv E. rename a into resolved.
  Projection.bind_inv E. Projection.bind_inv E. rename a0 into enum.
  destruct (truthy enum) eqn:Henum.
  - Projection.bind_inv E. Projection.bind_inv E. injection E as <-.
    split; [reflexivity|]. split; [now exists a0|].
    exists resolved, (Str "options").
    split; [exact E0|]. split; [reflexivity|]. split.
    + intros _. simpl. tauto.
    + intros enum' He' Hf'. rewrite E2 in He'. injection He' as <-. congruence.
  - Projection.bind_inv E. rename a0 into ty.
    destruct (strict_eq ty (Str "array")) eqn:Harr.
    + Projection.bind_inv E. Projection.bind_inv E. Projection.bind_inv E.
      injection E as <-.
      split; [reflexivity|]. split; [now exists a2|].
      exists resolved, (Str "string").
      split; [exact E0|]. split; [reflexivity|]. split.
      * intros _. simpl. tauto.
      * intros _ _ _ _. split; [reflexivity|]. cbn [get lookup String.eqb
          Ascii.eqb Bool.eqb Js.opt].
        destruct (strict_eq (or a1 (Str "string")) (Str "string"));
          [now left | now right].
    + Projection.bind_inv E. injection E as <-.
      split; [reflexivity|]. split; [now exists a0|].
      exists resolved, (mapOpenApiType ty).
      split; [exact E0|]. split; [reflexivity|]. split.
      * unfold typed. rewrite E3. intros Ht.
        pose proof (mapOpenApiType_cases ty) as Hc.
        assert (Hn : mapOpenApiType ty <> Str "array").
        { intros Ha. destruct ty; try contradiction.
          - cbn in Ha. discriminate.
          - apply mapOpenApiType_string in Ha. subst. discriminate. }
        simpl in Hc. simpl. intuition congruence.
      * intros enum' _ _ Hty. rewrite E3 in Hty. injection Hty as ->.
        discriminate.
Qed.

(** The fields are made of the properties of the resolved body schema. *)
Lemma body_fields_of_schema (operationDef spec rawSchema schema required : value)
  (props : list (string * value)) :
  Projection.body_schema operationDef = Ok rawSchema ->
  truthy rawSchema = true ->
  resolveSchema rawSchema spec = Ok schema ->
  Projection.top_properties schema = Some props ->
  get schema "required" = Ok required ->
  body_fields operationDef spec
  = mapM (field_of spec (or required (Arr []))) props.
Proof.
  unfold Projection.body_schema, jsonContent_of, Projection.top_properties,
    body_fields.
  intros Hs Ht Hr Hp Hq.
  Projection.bind_inv Hs. Projection.bind_inv E. Projection.bind_inv E.
  rewrite E0. cbn [bind].
  assert (Hrb : truthy a0 = true).
  { destruct a0 as [| |[]|n|t|l|fs]; try reflexivity; cbn in E1.
    - injection E1 as <-. cbn in E. injection E as <-. cbn in Hs.
      injection Hs as <-. discriminate.
    - injection E1 as <-. cbn in E. injection E as <-. cbn in Hs.
      injection Hs as <-. discriminate.
    - injection E1 as <-. cbn in E. injection E as <-. cbn in Hs.
      injection Hs as <-. discriminate.
    - cbn. destruct (n =? 0)%Z; [|reflexivity].
      injection E1 as <-. cbn in E. injection E as <-. cbn in Hs.
      injection Hs as <-. discriminate.
    - cbn. destruct (String.eqb_spec t EmptyString) as [->|]; [|reflexivity].
      cbn in E1. injection E1 as <-. cbn in E. injection E as <-. cbn in Hs.
      injection Hs as <-. discriminate. }
  rewrite Hrb.
  assert (Hc : get a0 "content" = Ok a1).
  { destruct a0; try discriminate; exact E1. }
  rewrite Hc. cbn [bind]. rewrite E. cbn [bind]. rewrite Hs. cbn [bind].
  rewrite Ht, Hr. cbn [bind].
  destruct (get schema "properties") as [p|] eqn:Hprops; [|discriminate].
  cbn [bind]. rewrite Hq. cbn [bind].
  destruct (entries (or p (Obj []))) as [es|]; [|discriminate].
  injection Hp as <-. reflexivity.
Qed.

(** X1. [getOperationFields] makes one field per property of the resolved
    body schema, in the order of the document; the field of property [k]
    has the identifier [body.k] and is required exactly when [k] is in the
    [required] list of the schema. *)
Theorem fields_follow_the_properties (operationDef spec rawSchema schema : value)
  (props : list (string * value)) (l : list value) (fields : list value) :
  body_fields operationDef spec = Ok fields ->
  Projection.body_schema operationDef = Ok rawSchema ->
  truthy rawSchema = true ->
  resolveSchema rawSchema spec = Ok schema ->
  Projection.top_properties schema = Some props ->
  Projection.required_names schema = Some l ->
  Forall2 (fun kp f =>
             get f "id" = Ok (Str ("body." ++ fst kp))
             /\ exists b, get f "required" = Ok (Bool b)
                          /\ (b = true <-> In (Str (fst kp)) l))
          props fields.
Proof.
  intros Hf Hs Ht Hr Hp Hn.
  destruct (get schema "required") as [required|] eqn:Hq.
  2:{ unfold Projection.required_names in Hn. now rewrite Hq in Hn. }
  rewrite (body_fields_of_schema _ _ _ _ _ _ Hs Ht Hr Hp Hq) in Hf.
  apply mapM_Forall2 in Hf.
  refine (Forall2_impl _ _ Hf). intros kp f Hkf. cbn beta in Hkf.
  destruct (field_of_facts _ _ _ _ Hkf) as [Hid [[b [Hb Hi]] _]].
  split; [exact Hid|]. exists b. split; [exact Hb|].
  now apply (Projection.includes_key_names schema required (fst kp) l b).
Qed.

Lemma fields_follow_the_properties_witness :
  Forall2 (fun kp f =>
             get f "id" = Ok (Str ("body." ++ fst kp))
             /\ exists b, get f "required" = Ok (Bool b)
                          /\ (b = true <-> In (Str (fst kp)) [Str "city"]))
          [("city", Sample.string_schema); ("details", Sample.details_schema)]
          [Obj [("id", Str "body.city"); ("displayName", Str "city");
                ("required", Bool true); ("defaultMatch", Bool false);
                ("display", Bool true); ("type", Str "string");
                ("canBeUsedToMatch", Bool false)];
           Obj [("id", Str "body.details"); ("displayName", Str "details");
                ("required", Bool false); ("defaultMatch", Bool false);
                ("display", Bool true); ("type", Str "object");
                ("canBeUsedToMatch", Bool false)]].
Proof.
  apply (fields_follow_the_properties Sample.weather_operation Sample.spec
           (Obj [("$ref", Str "#/components/schemas/WeatherInput")])
           Sample.weather_schema);
    reflexivity.
Defined.




(** *** Errors of [getOperationFields] *)

(** X3. [getOperationFields] returns no field while the project or the
    operation is not selected. Every failure of it leaves as a
    [NodeOperationError] made from the text
    [Failed to load operation fields: ] followed by the message of what
    the body of the [try] threw, the node's own errors included: an
    operation value whose path is no property of [spec.paths] fails with
    the error made from [Failed to load operation fields: ] followed by
    the message of the error made from
    [Path <path> not found in spec]. *)
Theorem operation_fields_errors_are_wrapped `{Host} :
  (forall projectValue operationValue,
      projectValue = EmptyString \/ operationValue = EmptyString ->
      getOperationFields projectValue operationValue = Ok [])
  /\ (forall projectValue operationValue e,
         getOperationFields projectValue operationValue = Throw e ->
         exists err,
           getOperationFields_body projectValue operationValue = Throw err
           /\ e = NodeOperationError
                    ("Failed to load operation fields: " ++ exn_message err))
  /\ (forall projectValue operationValue path spec ps,
         projectValue <> EmptyString ->
         operationValue <> EmptyString ->
         LeapterTool.nth_part (Str.split operationValue "::") 1 = Str path ->
         Js.inherited path = false ->
         httpRequestWithAuthentication
           (spec_request (LeapterTool.nth_part (Str.split projectValue "::") 1))
         = Ok spec ->
         get spec "paths" = Ok (Obj ps) ->
         lookup path ps = None ->
         getOperationFields projectValue operationValue
         = Throw (NodeOperationError
                    ("Failed to load operation fields: "
                     ++ NodeOperationError_message
                          ("Path " ++ path ++ " not found in spec")))).
Proof.
  split; [|split].
  - intros projectValue operationValue [-> | ->]; unfold getOperationFields.
    + reflexivity.
    + now rewrite String.eqb_refl, orb_true_r.
  - intros projectValue operationValue e. unfold getOperationFields.
    destruct (String.eqb projectValue EmptyString
              || String.eqb operationValue EmptyString); [discriminate|].
    destruct (getOperationFields_body projectValue operationValue) as [|err];
      [discriminate|].
    cbn [catch]. intros [= <-]. now exists err.
  - intros projectValue operationValue path spec ps Hp Ho Hpath _ Hs Hps Hl.
    unfold getOperationFields.
    destruct (String.eqb_spec projectValue EmptyString); [contradiction|].
    destruct (String.eqb_spec operationValue EmptyString); [contradiction|].
    cbn [orb]. unfold getOperationFields_body.
    rewrite Hs. cbn [bind]. rewrite Hps. cbn [bind]. rewrite Hpath.
    cbn [to_text get]. rewrite Hl. reflexivity.
Qed.

Lemma operation_fields_errors_are_wrapped_witness :
  @getOperationFields Lab.host
    "p1::https://lab.example.com/specs/p1.json::https://lab.example.com/editor/p1::Demo"
    "post::/models/unknown/runs"
  = Throw (NodeOperationError
             "Failed to load operation fields: Path /models/unknown/runs not found in spec").
Proof.
  apply (proj2 (proj2 (@operation_fields_errors_are_wrapped Lab.host)) _ _
           "/models/unknown/runs" Sample.spec
           ltac:(match eval cbv in (get Sample.spec "paths") with
                 | Ok (Obj ?ps) => exact ps
                 end));
    (reflexivity || discriminate).
Defined.

(** *** From the fields to the request body *)

Lemma prefix_split (p s : string) :
  String.prefix p s = true -> exists rest, s = (p ++ rest)%string.
Proof.
  revert s. induction p as [|c p IH]; intros s E.
  - now exists s.
  - destruct s as [|d s]; [discriminate|].
    rewrite Selector.prefix_cons in E.
    destruct (ascii_dec c d) as [-> | _]; [|discriminate].
    destruct (IH s E) as [rest ->]. now exists rest.
Qed.

(** The loop of visual mode, read name by name. *)
Lemma gather_body_fields `{Host} (es acc : list (string * value)) :
  NoDup (List.map fst es) ->
  NoDup (List.map fst acc) ->
  exists bodyParams,
    foldM Leapter.gather_step es acc = Ok bodyParams
    /\ NoDup (List.map fst bodyParams)
    /\ forall k,
         lookup k bodyParams
         = match (if String.eqb k "__proto__" then None
                  else lookup ("body." ++ k) es) with
           | Some v => Some (Parameters.parsed_or_kept v)
           | None => lookup k acc
           end.
Proof.
  revert acc. induction es as [|[k0 v0] es IH]; intros acc Hes Hacc.
  - exists acc. split; [reflexivity|]. split; [exact Hacc|].
    intros k. cbn. now destruct (String.eqb k "__proto__").
  - inversion Hes as [|? ? Hk0 Hes']; subst.
    cbn [foldM Leapter.gather_step]. unfold Str.startsWith.
    destruct (String.prefix "body." k0) eqn:Ep.
    + apply prefix_split in Ep as [rest ->].
      rewrite Selector.replaceFirst_prefix.
      change (EmptyString ++ rest)%string with rest.
      rewrite Parameters.tryParseJson_returns. cbn [bind].
      destruct (IH (Js.set acc rest (Parameters.parsed_or_kept v0)) Hes'
                   (Objects.NoDup_set _ _ _ Hacc)) as [bodyParams [E [Hnd Hl]]].
      exists bodyParams. split; [exact E|]. split; [exact Hnd|].
      intros k. rewrite Hl. cbn [lookup].
      destruct (String.eqb_spec k rest) as [-> | Hne].
      * rewrite String.eqb_refl.
        rewrite (Forwarding.lookup_None _ _ _ Hk0).
        destruct (String.eqb_spec rest "__proto__") as [-> | Hp];
          [reflexivity|].
        now apply Objects.lookup_set_same.
      * destruct (String.eqb_spec ("body." ++ k) ("body." ++ rest))
          as [E' | _]; [injection E' as ->; contradiction|].
        destruct (if String.eqb k "__proto__" then None
                  else lookup ("body." ++ k) es); [reflexivity|].
        now apply Objects.lookup_set_other.
    + cbn [bind].
      destruct (IH acc Hes' Hacc) as [bodyParams [E [Hnd Hl]]].
      exists bodyParams. split; [exact E|]. split; [exact Hnd|].
      intros k. rewrite Hl. cbn [lookup].
      destruct (String.eqb_spec ("body." ++ k) k0) as [<- | _];
        [|reflexivity].
      now rewrite Selector.prefix_append in Ep.
Qed.

(** X4. Visual mode undoes the identifiers of the fields. The request
    body has exactly one property [k] for each value entered under an
    identifier [body.k], other than [body.__proto__]: its value is the
    entered one, parsed when it is a string that looks like a JSON array
    or object and kept otherwise. What is entered under another
    identifier is not sent, and the body has no property [__proto__]. *)
Theorem visual_values_reach_the_body `{Host} (values : list (string * value))
  (parametersJson : string) :
  NoDup (List.map fst values) ->
  exists bodyParams,
    Leapter.gather "visual" (Obj [("value", Obj values)]) parametersJson
    = Ok (Obj bodyParams)
    /\ NoDup (List.map fst bodyParams)
    /\ (forall k entered,
           k <> "__proto__" ->
           lookup ("body." ++ k) values = Some entered ->
           lookup k bodyParams
           = Some (match entered with
                   | Str s =>
                       if looks_like_json (Str.trim s)
                       then match JSON_parse (Str.trim s) with
                            | Ok parsed => parsed
                            | Throw _ => entered
                            end
                       else entered
                   | _ => entered
                   end))
    /\ (forall k,
           lookup k bodyParams <> None ->
           k <> "__proto__" /\ lookup ("body." ++ k) values <> None).
Proof.
  intros Hnd. unfold Leapter.gather. cbn [String.eqb Ascii.eqb Bool.eqb].
  cbn [get lookup String.eqb Ascii.eqb Bool.eqb Js.opt bind or truthy entries].
  destruct (gather_body_fields values [] Hnd (NoDup_nil _))
    as [bodyParams [E [Hb Hl]]].
  exists bodyParams. rewrite E. cbn [bind]. split; [reflexivity|].
  split; [exact Hb|]. split.
  - intros k entered Hk He. rewrite Hl.
    destruct (String.eqb_spec k "__proto__"); [contradiction|].
    rewrite He. reflexivity.
  - intros k. rewrite Hl.
    destruct (String.eqb_spec k "__proto__") as [-> | Hk];
      [intros Hn; now contradiction Hn|].
    destruct (lookup ("body." ++ k) values);
      [intros _; split; [exact Hk | discriminate]
      | intros Hn; now contradiction Hn].
Qed.

Lemma visual_values_reach_the_body_witness :
  NoDup (List.map fst [("body.city", Str "Paris"); ("note", Str "kept here");
                       ("body.tags", Str " [] ")])
  /\ exists bodyParams,
       @Leapter.gather Lab.host "visual"
         (Obj [("value", Obj [("body.city", Str "Paris");
                              ("note", Str "kept here");
                              ("body.tags", Str " [] ")])]) "{}"
       = Ok (Obj bodyParams)
       /\ lookup "tags" bodyParams = Some (Arr [])
       /\ lookup "note" bodyParams = None.
Proof.
  assert (Hnd : NoDup (List.map fst [("body.city", Str "Paris");
                                     ("note", Str "kept here");
                                     ("body.tags", Str " [] ")])).
  { repeat constructor; simpl; intuition discriminate. }
  split; [exact Hnd|].
  destruct (@visual_values_reach_the_body Lab.host
              [("body.city", Str "Paris"); ("note", Str "kept here");
               ("body.tags", Str " [] ")] "{}" Hnd)
    as [bodyParams [E [_ [Hin Hout]]]].
  exists bodyParams. split; [exact E|]. split.
  - exact (Hin "tags" (Str " [] ") ltac:(discriminate) eq_refl).
  - destruct (lookup "note" bodyParams) eqn:En; [|reflexivity].
    destruct (Hout "note" ltac:(rewrite En; discriminate)) as [_ Hn].
    now contradiction Hn.
Defined.

(** *** Projects *)

Lemma node_error_is_not_unauthorized `{Editor} (argument : value) :
  unauthorized (NodeOperationError argument) = false.
Proof. unfold unauthorized. now rewrite node_error_without_status. Qed.

(** X5. [fetchProjects] never returns an empty list and never lets
    another error than a [NodeOperationError] out: a request refused with
    status 401 or 403 gives the error made from the credentials text,
    every other failure the error made from [Failed to load projects: ]
    followed by the message of its cause, and a project list that is
    missing or empty the error made from [Failed to load projects: ]
    followed by the message of the node's own error, itself made from
    [No projects found. ...]. *)
Theorem projects_failures `{Host} `{Editor} :
  (forall e,
      fetchProjects = Throw e ->
      exists err,
        fetchProjects_body = Throw err
        /\ e = NodeOperationError
                 (if unauthorized err
                  then "Invalid API key or no project access. Please check your credentials."
                  else "Failed to load projects: " ++ exn_message err))
  /\ (forall credentials labUrl response projects,
         getCredentials = Ok credentials ->
         get credentials "server" = Ok labUrl ->
         httpRequestWithAuthentication (projects_request labUrl) = Ok response ->
         get response "projects" = Ok projects ->
         truthy projects = false \/ projects = Arr [] ->
         fetchProjects
         = Throw (NodeOperationError
                    ("Failed to load projects: "
                     ++ NodeOperationError_message
                          "No projects found. Ensure your API key has access to at least one project.")))
  /\ (forall credentials labUrl e,
         getCredentials = Ok credentials ->
         get credentials "server" = Ok labUrl ->
         httpRequestWithAuthentication (projects_request labUrl) = Throw e ->
         statusCode_of e = Num 401 \/ statusCode_of e = Num 403 ->
         fetchProjects
         = Throw (NodeOperationError
                    "Invalid API key or no project access. Please check your credentials."))
  /\ (forall options, fetchProjects = Ok options -> options <> []).
Proof.
  split; [|split; [|split]].
  - intros e. unfold fetchProjects.
    destruct fetchProjects_body as [options|err]; [discriminate|].
    cbn [catch]. intros E. exists err. split; [reflexivity|].
    destruct (unauthorized err); now injection E as <-.
  - intros credentials labUrl response projects Hc Hl Hr Hp Hnone.
    unfold fetchProjects, fetchProjects_body.
    rewrite Hc. cbn [bind]. rewrite Hl. cbn [bind]. rewrite Hr. cbn [bind].
    rewrite Hp. cbn [bind].
    assert (Hm : missing_or_empty projects = Ok true).
    { unfold missing_or_empty. destruct Hnone as [Hf | ->].
      - now rewrite Hf.
      - reflexivity. }
    rewrite Hm. cbn [bind catch].
    now rewrite node_error_is_not_unauthorized.
  - intros credentials labUrl e Hc Hl Hr Hs.
    unfold fetchProjects, fetchProjects_body.
    rewrite Hc. cbn [bind]. rewrite Hl. cbn [bind]. rewrite Hr. cbn [bind catch].
    unfold unauthorized. now destruct Hs as [-> | ->].
  - intros options E.
    assert (Eb : fetchProjects_body = Ok options).
    { unfold fetchProjects in E.
      destruct fetchProjects_body as [o|err]; [exact E|].
      cbn [catch] in E. destruct (unauthorized err); discriminate E. }
    unfold fetchProjects_body in Eb.
    Projection.bind_inv Eb. Projection.bind_inv Eb. Projection.bind_inv Eb.
    Projection.bind_inv Eb. Projection.bind_inv Eb.
    destruct a3; [discriminate Eb|].
    Projection.bind_inv Eb.
    apply sort_permutes in Eb. intros ->.
    apply Permutation_sym, Permutation_nil in Eb. subst a3.
    match goal with
    | Hm : missing_or_empty ?p = Ok false,
      Ha : array_map project_option ?p = Ok [] |- _ =>
        destruct p as [| |?|?|?|l|?]; try discriminate Ha;
        destruct l as [|x l]; [cbn in Hm; discriminate Hm|];
        cbn in Ha; destruct (project_option x); [|discriminate Ha];
        cbn in Ha; destruct (mapM project_option l); discriminate Ha
    end.
Qed.

Lemma projects_failures_witness :
  @fetchProjects Lab.host_without_projects Lab.editor
  = Throw (NodeOperationError
             "Failed to load projects: No projects found. Ensure your API key has access to at least one project.").
Proof.
  apply (proj1 (proj2 (@projects_failures Lab.host_without_projects Lab.editor))
           (Obj [("server", Str "https://lab.example.com")])
           (Str "https://lab.example.com")
           (Obj [("accountId", Str "acc-1"); ("projects", Arr [])])
           (Arr []));
    try reflexivity.
  now right.
Defined.

(** A project as the discovery response lists it, and its option. *)
Definition project_of (p : ProjectInfo) : value :=
  Obj [("projectId", Str (projectId p));
       ("projectName", Str (projectName p));
       ("specUrl", Str (specUrl p));
       ("editorBaseUrl", Str (editorBaseUrl p))].

Definition option_of (p : ProjectInfo) : value :=
  Obj [("name", Str (projectName p));
       ("value", Str (project_value p));
       ("description", Str ("Project ID: " ++ projectId p))].

Lemma options_of_projects (infos : list ProjectInfo) :
  mapM project_option (List.map project_of infos)
  = Ok (List.map option_of infos).
Proof.
  induction infos as [|p infos IH]; [reflexivity|].
  cbn [List.map mapM]. rewrite IH. reflexivity.
Qed.

(** X6. For a discovery response that lists at least one project,
    [fetchProjects] returns, in the order the sort gives them, exactly one
    option per project: its name is the project name, its value the
    compound [id::specUrl::editorBaseUrl::name] and its description
    [Project ID: id]. *)
Theorem one_option_per_project `{Host} `{Editor}
  (credentials labUrl response : value) (p : ProjectInfo)
  (infos : list ProjectInfo) (options : list value) :
  getCredentials = Ok credentials ->
  get credentials "server" = Ok labUrl ->
  httpRequestWithAuthentication (projects_request labUrl) = Ok response ->
  get response "projects" = Ok (Arr (List.map project_of (p :: infos))) ->
  sort_by_name (List.map option_of (p :: infos)) = Ok options ->
  fetchProjects = Ok options
  /\ Permutation (List.map option_of (p :: infos)) options
  /\ List.length options = S (List.length infos).
Proof.
  intros Hc Hl Hr Hp Hs.
  assert (Hperm := sort_permutes _ _ Hs).
  split; [|split; [exact Hperm|]].
  - unfold fetchProjects, fetchProjects_body.
    rewrite Hc. cbn [bind]. rewrite Hl. cbn [bind]. rewrite Hr. cbn [bind].
    rewrite Hp. cbn [bind].
    change (missing_or_empty (Arr (List.map project_of (p :: infos))))
      with (Ok false : res bool).
    cbn [bind array_map]. rewrite options_of_projects. cbn [bind].
    now rewrite Hs.
  - rewrite <- (Permutation_length Hperm). cbn [List.map List.length].
    now rewrite length_map.
Qed.

Lemma one_option_per_project_witness :
  exists options,
    @fetchProjects Lab.host Lab.editor = Ok options
    /\ List.length options = 2.
Proof.
  exists (Lab.sort
            (List.map option_of
               [{| projectId := "p2"; projectName := "Zeta";
                   specUrl := "https://lab.example.com/specs/p2.json";
                   editorBaseUrl := "https://lab.example.com/editor/p2" |};
                {| projectId := "p1"; projectName := "Demo";
                   specUrl := "https://lab.example.com/specs/p1.json";
                   editorBaseUrl := "https://lab.example.com/editor/p1" |}])).
  destruct (@one_option_per_project Lab.host Lab.editor
              (Obj [("server", Str "https://lab.example.com")])
              (Str "https://lab.example.com") Lab.discovery
              {| projectId := "p2"; projectName := "Zeta";
                 specUrl := "https://lab.example.com/specs/p2.json";
                 editorBaseUrl := "https://lab.example.com/editor/p2" |}
              [{| projectId := "p1"; projectName := "Demo";
                  specUrl := "https://lab.example.com/specs/p1.json";
                  editorBaseUrl := "https://lab.example.com/editor/p1" |}]
              _ eq_refl eq_refl eq_refl eq_refl eq_refl) as [E [_ Hlen]].
  split; [exact E | exact Hlen].
Defined.

(** *** Operations *)

(** X7. [fetchOperations] returns no option for an empty project value
    and lets only [NodeOperationError]s out: the error made from the
    credentials text when the message of the cause includes
    [Invalid API key] or its status is 401 or 403, else the error made
    from [Failed to load blueprints: ] followed by the message of the
    cause. The cause is the node's own error, made from
    [Invalid OpenAPI specification], for a document without [openapi]
    or [paths], and the one made from
    [OpenAPI spec must define at least one server URL] for a document
    whose [servers] are missing or empty. *)
Theorem operations_failures `{Host} `{Editor} :
  fetchOperations EmptyString = Ok []
  /\ (forall projectValue e,
         fetchOperations projectValue = Throw e ->
         exists err,
           fetchOperations_body projectValue = Throw err
           /\ e = NodeOperationError
                    (if Str.includes (exn_message err) "Invalid API key"
                        || unauthorized err
                     then "Invalid API key. Please check your credentials."
                     else "Failed to load blueprints: " ++ exn_message err))
  /\ (forall projectValue spec openapi paths,
         projectValue <> EmptyString ->
         httpRequestWithAuthentication
           (spec_request (LeapterTool.nth_part (Str.split projectValue "::") 1))
         = Ok spec ->
         get spec "openapi" = Ok openapi ->
         get spec "paths" = Ok paths ->
         truthy openapi = false \/ truthy paths = false ->
         fetchOperations_body projectValue
         = Throw (NodeOperationError "Invalid OpenAPI specification")
         /\ (Str.includes
               (NodeOperationError_message "Invalid OpenAPI specification")
               "Invalid API key" = false ->
             fetchOperations projectValue
             = Throw (NodeOperationError
                        ("Failed to load blueprints: "
                         ++ NodeOperationError_message
                              "Invalid OpenAPI specification"))))
  /\ (forall projectValue spec openapi paths servers,
         projectValue <> EmptyString ->
         httpRequestWithAuthentication
           (spec_request (LeapterTool.nth_part (Str.split projectValue "::") 1))
         = Ok spec ->
         get spec "openapi" = Ok openapi ->
         get spec "paths" = Ok paths ->
         truthy openapi = true ->
         truthy paths = true ->
         get spec "servers" = Ok servers ->
         truthy servers = false \/ servers = Arr [] ->
         fetchOperations_body projectValue
         = Throw (NodeOperationError
                    "OpenAPI spec must define at least one server URL")
         /\ (Str.includes
               (NodeOperationError_message
                  "OpenAPI spec must define at least one server URL")
               "Invalid API key" = false ->
             fetchOperations projectValue
             = Throw (NodeOperationError
                        ("Failed to load blueprints: "
                         ++ NodeOperationError_message
                              "OpenAPI spec must define at least one server URL")))).
Proof.
  split; [reflexivity | split; [|split]].
  - intros projectValue e. unfold fetchOperations.
    destruct (String.eqb projectValue EmptyString); [discriminate|].
    destruct (fetchOperations_body projectValue) as [o|err]; [discriminate|].
    cbn [catch]. intros E. exists err. split; [reflexivity|].
    destruct (Str.includes (exn_message err) "Invalid API key"
              || unauthorized err); now injection E as <-.
  - intros projectValue spec openapi paths Hp Hs Ho Hpa Hf.
    unfold fetchOperations.
    destruct (String.eqb_spec projectValue EmptyString); [contradiction|].
    unfold fetchOperations_body, check_spec.
    rewrite Hs. cbn [bind]. rewrite Ho. cbn [bind]. rewrite Hpa. cbn [bind].
    assert (Hb : negb (truthy openapi) || negb (truthy paths) = true).
    { destruct Hf as [-> | ->]; [reflexivity | apply orb_true_r]. }
    rewrite Hb. cbn [bind]. split; [reflexivity|]. intros Hi.
    cbn [catch exn_message]. rewrite Hi.
    now rewrite node_error_is_not_unauthorized.
  - intros projectValue spec openapi paths servers Hp Hs Ho Hpa Hto Htp Hsv Hf.
    unfold fetchOperations.
    destruct (String.eqb_spec projectValue EmptyString); [contradiction|].
    unfold fetchOperations_body, check_spec.
    rewrite Hs. cbn [bind]. rewrite Ho. cbn [bind]. rewrite Hpa. cbn [bind].
    rewrite Hto, Htp. cbn [negb orb]. rewrite Hsv. cbn [bind].
    assert (Hm : missing_or_empty servers = Ok true).
    { unfold missing_or_empty. destruct Hf as [Hf | ->].
      - now rewrite Hf.
      - reflexivity. }
    rewrite Hm. cbn [bind]. split; [reflexivity|]. intros Hi.
    cbn [catch exn_message]. rewrite Hi.
    now rewrite node_error_is_not_unauthorized.
Qed.

Lemma operations_failures_witness :
  @fetchOperations Lab.host_without_version Lab.editor
    "p1::https://lab.example.com/specs/p1.json::https://lab.example.com/editor/p1::Demo"
  = Throw (NodeOperationError
             "Failed to load blueprints: Invalid OpenAPI specification").
Proof.
  apply (proj1 (proj2 (proj2 (@operations_failures Lab.host_without_version
                                 Lab.editor)))
           _ (Obj [("paths", Obj []); ("servers", Arr [])])
           Undefined (Obj []));
    try reflexivity; [discriminate | now left].
Defined.

(** The name [fetchOperations] gives a blueprint: its summary, else the
    model identifier of its path, else the path. *)
Definition blueprintName_of (entry : string * value) : value :=
  or (Routing.field (Routing.field (snd entry) "post") "summary")
     (or (modelId_of (fst entry)) (Str (fst entry))).

Lemma operation_option_candidate (serverUrl : string) (editorBaseUrl : value)
  (entry : string * value) (oo : option value) :
  operation_option serverUrl editorBaseUrl entry = Ok oo ->
  match oo with
  | Some option =>
      Routing.is_candidate entry = true
      /\ get option "name" = Ok (blueprintName_of entry)
      /\ get option "value"
         = Ok (Str ("post::" ++ fst entry ++ "::" ++ (serverUrl ++ fst entry)
                    ++ "::" ++ to_text editorBaseUrl ++ "::"
                    ++ to_text (blueprintName_of entry)))
  | None => Routing.is_candidate entry = false
  end.
Proof.
  destruct entry as [path pathItem].
  unfold operation_option, Routing.is_candidate, blueprintName_of, Routing.field.
  cbn [fst snd]. intros E.
  destruct (get pathItem "post") as [operation|]; [|discriminate].
  cbn [bind] in E. destruct (truthy operation) eqn:Ho; cbn [negb] in E.
  - destruct (get operation "deprecated") as [deprecated|]; [|discriminate].
    cbn [bind] in E. destruct (truthy deprecated) eqn:Hd.
    + now injection E as <-.
    + destruct (get operation "summary") as [summary|]; [|discriminate].
      cbn [bind] in E.
      destruct (get operation "description") as [description|]; [|discriminate].
      cbn [bind] in E. injection E as <-. now repeat split.
  - now injection E as <-.
Qed.

Lemma offered_in_order (serverUrl : string) (editorBaseUrl : value)
  (es : list (string * value)) (returnData : list (option value)) :
  mapM (operation_option serverUrl editorBaseUrl) es = Ok returnData ->
  Forall2 (fun entry option =>
             operation_option serverUrl editorBaseUrl entry = Ok (Some option))
          (List.filter Routing.is_candidate es) (LeapterTool.somes returnData).
Proof.
  revert returnData. induction es as [|e es IH]; intros returnData E;
    simpl in E.
  - injection E as <-. constructor.
  - Projection.bind_inv E. Projection.bind_inv E. injection E as <-.
    specialize (IH _ E1).
    pose proof (operation_option_candidate _ _ _ _ E0) as Hc.
    cbn [List.filter]. destruct a as [option|].
    + destruct Hc as [-> _]. cbn [LeapterTool.somes]. now constructor.
    + rewrite Hc. exact IH.
Qed.

(** X8. The options [fetchOperations] returns are, in the order the sort
    gives them, one per path of the document whose POST operation exists
    and is not deprecated, and no other: the option of path [p] is named
    by the summary of the operation, else the model identifier of [p],
    else [p], and its value is
    [post::p::<serverUrl><p>::<editorBaseUrl>::<name>]. *)
Theorem one_option_per_live_operation `{Host} `{Editor}
  (projectValue : string) (spec paths : value) (serverUrl : string)
  (es : list (string * value)) (options : list value) :
  fetchOperations projectValue = Ok options ->
  projectValue <> EmptyString ->
  httpRequestWithAuthentication
    (spec_request (LeapterTool.nth_part (Str.split projectValue "::") 1))
  = Ok spec ->
  serverUrl_of spec = Ok serverUrl ->
  get spec "paths" = Ok paths ->
  entries paths = Ok es ->
  exists offered,
    Permutation offered options
    /\ Forall2 (fun entry option =>
                  get option "name" = Ok (blueprintName_of entry)
                  /\ get option "value"
                     = Ok (Str ("post::" ++ fst entry ++ "::"
                                ++ (serverUrl ++ fst entry) ++ "::"
                                ++ to_text (LeapterTool.nth_part
                                              (Str.split projectValue "::") 2)
                                ++ "::" ++ to_text (blueprintName_of entry))))
               (List.filter Routing.is_candidate es) offered.
Proof.
  intros E Hp Hs Hv Hpa He.
  assert (Eb : fetchOperations_body projectValue = Ok options).
  { unfold fetchOperations in E.
    destruct (String.eqb_spec projectValue EmptyString); [contradiction|].
    destruct (fetchOperations_body projectValue) as [o|err]; [exact E|].
    cbn [catch] in E.
    destruct (Str.includes (exn_message err) "Invalid API key" || unauthorized err);
      discriminate E. }
  unfold fetchOperations_body in Eb. rewrite Hs in Eb. cbn [bind] in Eb.
  Projection.bind_inv Eb. rewrite Hv in Eb. cbn [bind] in Eb.
  rewrite Hpa in Eb. cbn [bind] in Eb.
  assert (Ht : truthy paths = true).
  { unfold check_spec in E0. rewrite Hpa in E0.
    destruct (get spec "openapi") as [openapi|]; [|discriminate E0].
    cbn [bind] in E0. destruct (truthy openapi); [|discriminate E0].
    destruct (truthy paths); [reflexivity | discriminate E0]. }
  unfold or in Eb. rewrite Ht, He in Eb. cbn [bind] in Eb.
  Projection.bind_inv Eb.
  exists (LeapterTool.somes a0). split; [now apply sort_permutes|].
  refine (Forall2_impl _ _ (offered_in_order _ _ _ _ E1)).
  intros entry option Ho.
  now destruct (operation_option_candidate _ _ _ _ Ho) as [_ Hnv].
Qed.

Lemma one_option_per_live_operation_witness :
  exists offered options,
    @fetchOperations Lab.host Lab.editor
      "p1::https://lab.example.com/specs/p1.json::https://lab.example.com/editor/p1::Demo"
    = Ok options
    /\ Permutation offered options
    /\ Forall2 (fun entry option =>
                  get option "name" = Ok (blueprintName_of entry))
               [("/models/weather/runs", Obj [("post", Sample.weather_operation)]);
                ("/models/search/runs",
                 Obj [("post", Sample.operation "Search" Sample.search_schema)])]
               offered.
Proof.
  destruct (@one_option_per_live_operation Lab.host Lab.editor
              "p1::https://lab.example.com/specs/p1.json::https://lab.example.com/editor/p1::Demo"
              Sample.spec
              (Obj [("/models/weather/runs",
                     Obj [("post", Sample.weather_operation)]);
                    ("/models/search/runs",
                     Obj [("post", Sample.operation "Search"
                                     Sample.search_schema)])])
              "https://api.example.com" _ _
              eq_refl ltac:(discriminate) eq_refl eq_refl eq_refl eq_refl)
    as [offered [Hperm Hall]].
  exists offered. eexists. split; [reflexivity|]. split; [exact Hperm|].
  refine (Forall2_impl _ _ Hall). intros entry option [Hn _]. exact Hn.
Defined.

Lemma operation_value_split (path operationUrl editorBaseUrl name : string) :
  Str.includes path "::" = false ->
  Str.includes operationUrl "::" = false ->
  Str.includes editorBaseUrl "::" = false ->
  Str.includes name "::" = false ->
  Str.endsWith path ":" = false ->
  Str.endsWith operationUrl ":" = false ->
  Str.endsWith editorBaseUrl ":" = false ->
  Str.split ("post::" ++ path ++ "::" ++ operationUrl ++ "::"
             ++ editorBaseUrl ++ "::" ++ name) "::"
  = ["post"; path; operationUrl; editorBaseUrl; name].
Proof.
  intros Hp Hu He Hn Ep Eu Ee. unfold Str.split.
  change ("post::" ++ path ++ "::" ++ operationUrl ++ "::"
          ++ editorBaseUrl ++ "::" ++ name)%string
    with ("post" ++ "::" ++ path ++ "::" ++ operationUrl ++ "::"
          ++ editorBaseUrl ++ "::" ++ name)%string.
  rewrite (Selector.split_go_piece "post") by reflexivity.
  rewrite !Selector.split_go_piece by assumption.
  now rewrite Selector.split_go_last by assumption.
Qed.

(** X9. The value of an operation is read back by [execute]: when the
    path, the operation URL, the editor base URL and the name hold no
    [::] and the first three do not end with a colon, splitting
    [post::<path>::<serverUrl><path>::<editorBaseUrl>::<name>] gives the
    method, the path, the operation URL and the editor base URL, and the
    model identifier [execute] takes is that of the path. *)
Theorem operation_value_is_read_back
  (path serverUrl editorBaseUrl name : string) :
  Str.includes path "::" = false ->
  Str.includes (serverUrl ++ path) "::" = false ->
  Str.includes editorBaseUrl "::" = false ->
  Str.includes name "::" = false ->
  Str.endsWith path ":" = false ->
  Str.endsWith (serverUrl ++ path) ":" = false ->
  Str.endsWith editorBaseUrl ":" = false ->
  let parts :=
    Str.split ("post::" ++ path ++ "::" ++ (serverUrl ++ path) ++ "::"
               ++ editorBaseUrl ++ "::" ++ name) "::" in
  parts = ["post"; path; (serverUrl ++ path)%string; editorBaseUrl; name]
  /\ Leapter.part parts 0 = Str "post"
  /\ Leapter.part parts 1 = Str path
  /\ Leapter.part parts 2 = Str (serverUrl ++ path)
  /\ Leapter.part parts 3 = Str editorBaseUrl
  /\ Leapter.modelId_of_value (Leapter.part parts 1) = Ok (modelId_of path).
Proof.
  intros Hp Hu He Hn Ep Eu Ee parts. unfold parts.
  rewrite operation_value_split by assumption. repeat split.
Qed.

Lemma operation_value_is_read_back_witness :
  Str.split
    "post::/models/weather/runs::https://api.example.com/models/weather/runs::https://lab.example.com/editor/p1::Weather"
    "::"
  = ["post"; "/models/weather/runs";
     "https://api.example.com/models/weather/runs";
     "https://lab.example.com/editor/p1"; "Weather"].
Proof.
  apply (operation_value_is_read_back "/models/weather/runs"
           "https://api.example.com" "https://lab.example.com/editor/p1"
           "Weather"); reflexivity.
Defined.

End Loading.

(** ** Running the node *)

Module Running.

Import Leapter.

(** [{...a, ...b}] read at one key: the property of [b], else that of
    [a]. *)
Lemma lookup_spread (a b : list (string * value)) (k : string) :
  NoDup (List.map fst b) ->
  lookup k (spread a b)
  = match lookup k b with Some v => Some v | None => lookup k a end.
Proof.
  unfold spread. revert a. induction b as [|[k' v'] b IH]; intros a Hnd.
  - reflexivity.
  - cbn [fold_left fst snd]. inversion Hnd as [|? ? Hk Hb]; subst.
    rewrite (IH _ Hb). cbn [lookup].
    destruct (String.eqb_spec k k') as [-> | Hne].
    + rewrite (Forwarding.lookup_None _ _ _ Hk). apply Objects.lookup_define_same.
    + rewrite Objects.lookup_define_other by exact Hne. reflexivity.
Qed.

(** *** What a record keeps of the response *)

(** X10. Below 400 the record is the response body with [_metadata]
    written over it: in both nodes every other field of an object body
    is in the record with its value. The tool node puts a body that is
    not an object under [result]; the node, which spreads the body,
    keeps nothing of a body that is a number, a boolean or null. *)
Theorem response_fields_are_passed_through :
  (forall continueOnFail u modelId editorBaseUrl hs fields itemIndex,
      LeapterTool.ge400 (statusCode u) = false ->
      responseHeaders u = Obj hs ->
      responseBody u = Obj fields ->
      exists json,
        classify continueOnFail u modelId editorBaseUrl itemIndex
        = Ok (record json itemIndex)
        /\ (forall k, k <> "_metadata" -> lookup k json = lookup k fields)
        /\ lookup "_metadata" json
           = Some (Obj [("runId", Responses.runId_read hs);
                        ("editorLink", editorLink_of modelId editorBaseUrl)]))
  /\ (forall continueOnFail u modelId editorBaseUrl hs itemIndex,
         LeapterTool.ge400 (statusCode u) = false ->
         responseHeaders u = Obj hs ->
         match responseBody u with
         | Num _ | Bool _ | Null | Undefined => True
         | _ => False
         end ->
         classify continueOnFail u modelId editorBaseUrl itemIndex
         = Ok (record [("_metadata",
                        Obj [("runId", Responses.runId_read hs);
                             ("editorLink",
                              editorLink_of modelId editorBaseUrl)])]
                      itemIndex))
  /\ (forall matched editorBaseUrl response sc body hs itemIndex,
         get response "statusCode" = Ok sc ->
         LeapterTool.ge400 (or sc (Num 200)) = false ->
         get response "body" = Ok body ->
         get response "headers" = Ok (Obj hs) ->
         let metadata :=
           Obj [("runId", Responses.runId_read hs);
                ("editorLink",
                 LeapterTool.editorLink_of (LeapterTool.path matched)
                                           editorBaseUrl)] in
         match body with
         | Obj fields =>
             exists json,
               LeapterTool.classify matched editorBaseUrl response itemIndex
               = Ok (LeapterTool.record json itemIndex)
               /\ (forall k, k <> "_metadata" -> lookup k json = lookup k fields)
               /\ lookup "_metadata" json = Some metadata
         | Arr _ => True
         | _ =>
             LeapterTool.classify matched editorBaseUrl response itemIndex
             = Ok (LeapterTool.record [("result", body); ("_metadata", metadata)]
                                      itemIndex)
         end).
Proof.
  split; [|split].
  - intros c u modelId editorBaseUrl hs fields itemIndex Hge Hh Hb.
    unfold classify, success. rewrite Hge, Hh, Hb.
    cbn [bind LeapterTool.runId_of get spread_entries entries].
    eexists. split; [reflexivity|]. split.
    + intros k Hk. now apply Objects.lookup_define_other.
    + apply Objects.lookup_define_same.
  - intros c u modelId editorBaseUrl hs itemIndex Hge Hh Hb.
    unfold classify, success. rewrite Hge, Hh.
    cbn [bind LeapterTool.runId_of get].
    destruct (responseBody u); try contradiction; reflexivity.
  - intros matched editorBaseUrl response sc body hs itemIndex Hsc Hge Hb Hh
           metadata.
    unfold LeapterTool.classify.
    rewrite Hsc. cbn [bind]. rewrite Hb. cbn [bind]. rewrite Hge, Hh.
    cbn [bind LeapterTool.runId_of get].
    destruct body as [| |b|n|s|l|fields]; try reflexivity; try exact I.
    cbn [LeapterTool.resultObj_of is_object entries bind].
    eexists. split; [reflexivity|]. split.
    + intros k Hk. now apply Objects.lookup_define_other.
    + apply Objects.lookup_define_same.
Qed.

Lemma response_fields_are_passed_through_witness :
  exists json,
    classify false
      {| responseBody := Obj [("answer", Str "sunny")];
         responseHeaders := Obj [("x-run-id", Str "abc123")];
         statusCode := Num 200 |}
      (Str "weather") (Str "https://lab.example.com/editor") 0
    = Ok (record json 0)
    /\ lookup "answer" json = Some (Str "sunny").
Proof.
  destruct (proj1 response_fields_are_passed_through false
              {| responseBody := Obj [("answer", Str "sunny")];
                 responseHeaders := Obj [("x-run-id", Str "abc123")];
                 statusCode := Num 200 |}
              (Str "weather") (Str "https://lab.example.com/editor")
              [("x-run-id", Str "abc123")] [("answer", Str "sunny")] 0
              eq_refl eq_refl eq_refl) as [json [E [Hk _]]].
  exists json. split; [exact E|]. rewrite Hk; [reflexivity | discriminate].
Defined.

(** X11. With continue-on-fail, the record of a response of status
    [n >= 400] with an object body holds the fields of the body, and
    [error] and [statusCode] only where the body has no field of that
    name: a body with an [error] field of its own keeps it, even when the
    message was read from [detail]. *)
Theorem body_fields_win_in_the_error_record
  (u : Unpacked) (fields : list (string * value)) (n : Z)
  (modelId editorBaseUrl : value) (itemIndex : nat) :
  responseBody u = Obj fields ->
  NoDup (List.map fst fields) ->
  statusCode u = Num n ->
  (400 <= n)%Z ->
  exists json,
    classify true u modelId editorBaseUrl itemIndex = Ok (record json itemIndex)
    /\ lookup "error" json
       = Some (match lookup "error" fields with
               | Some v => v
               | None => Responses.preferred fields (Num n)
               end)
    /\ lookup "statusCode" json
       = Some (match lookup "statusCode" fields with
               | Some v => v
               | None => Num n
               end)
    /\ (forall k, k <> "error" -> k <> "statusCode" ->
                  lookup k json = lookup k fields).
Proof.
  intros Hb Hnd Hsc Hn.
  destruct (Responses.status_is_kept n Hn) as [_ Hge].
  unfold classify, error_status.
  rewrite Hsc, Hge, Hb, Responses.errorMessage_of_object.
  cbn [bind spread_entries entries].
  eexists. split; [reflexivity|]. split; [|split].
  - rewrite lookup_spread by exact Hnd.
    now destruct (lookup "error" fields).
  - rewrite lookup_spread by exact Hnd.
    now destruct (lookup "statusCode" fields).
  - intros k He Hs. rewrite lookup_spread by exact Hnd.
    destruct (lookup k fields); [reflexivity|].
    cbn [lookup].
    destruct (String.eqb_spec k "error"); [contradiction|].
    destruct (String.eqb_spec k "statusCode"); [contradiction | reflexivity].
Qed.

Lemma body_fields_win_in_the_error_record_witness :
  exists json,
    classify true
      {| responseBody := Obj [("detail", Str "not found");
                              ("error", Str "E404")];
         responseHeaders := Obj [];
         statusCode := Num 404 |}
      (Str "weather") (Str "https://lab.example.com/editor") 0
    = Ok (record json 0)
    /\ lookup "error" json = Some (Str "E404")
    /\ lookup "statusCode" json = Some (Num 404).
Proof.
  destruct (body_fields_win_in_the_error_record
              {| responseBody := Obj [("detail", Str "not found");
                                      ("error", Str "E404")];
                 responseHeaders := Obj [];
                 statusCode := Num 404 |}
              [("detail", Str "not found"); ("error", Str "E404")] 404%Z
              (Str "weather") (Str "https://lab.example.com/editor") 0
              eq_refl
              ltac:(repeat constructor; simpl; intuition discriminate)
              eq_refl ltac:(lia))
    as [json [E [He [Hs _]]]].
  exists json. split; [exact E | split; [exact He | exact Hs]].
Defined.

(** *** The loop over the items *)

Lemma mapM_returns {A B : Type} (f : A -> res B) (P : A -> B -> Prop)
  (l : list A) :
  (forall a, In a l -> exists b, f a = Ok b /\ P a b) ->
  exists bs, mapM f l = Ok bs /\ Forall2 P l bs.
Proof.
  induction l as [|a l IH]; intros Hf; simpl.
  - exists []. split; [reflexivity | constructor].
  - destruct (Hf a (or_introl eq_refl)) as [b [-> Hb]].
    destruct IH as [bs [-> Hbs]].
    { intros a' Hin. apply Hf. now right. }
    exists (b :: bs). split; [reflexivity | now constructor].
Qed.

Lemma classify_record (u : Unpacked) (modelId editorBaseUrl r : value)
  (itemIndex : nat) :
  classify true u modelId editorBaseUrl itemIndex = Ok r ->
  exists json, r = record json itemIndex.
Proof.
  unfold classify, error_status, success. intros E.
  destruct (LeapterTool.ge400 (statusCode u)).
  - Projection.bind_inv E. Projection.bind_inv E. injection E as <-.
    now eexists.
  - Projection.bind_inv E. Projection.bind_inv E. injection E as <-.
    now eexists.
Qed.

Lemma item_record `{Host} (executionId : value) (operation inputMode : string)
  (options parameters : value) (parametersJson : string) (itemIndex : nat) :
  exists json,
    item true executionId operation inputMode options parameters
         parametersJson itemIndex
    = Ok (record json itemIndex).
Proof.
  unfold item.
  destruct (item_body true executionId operation inputMode options parameters
              parametersJson itemIndex) as [r|err] eqn:E; cbn [catch].
  - unfold item_body in E. do 5 Projection.bind_inv E.
    apply classify_record in E as [json ->]. now exists json.
  - now eexists.
Qed.

(** X12. With continue-on-fail the node does not fail once a project is
    selected: whatever the parameters, the server and the responses,
    [execute] returns one record for each input item, in order, the
    record of item [i] paired with [i]. *)
Theorem continue_on_fail_gives_a_record_per_item `{Host}
  (executionId projectValue : value)
  (getNodeParameters : nat -> NodeParameters) (items : list value) :
  truthy projectValue = true ->
  exists records,
    execute true executionId projectValue getNodeParameters items = Ok records
    /\ Forall2 (fun itemIndex r => exists json, r = record json itemIndex)
               (seq 0 (List.length items)) records
    /\ List.length records = List.length items.
Proof.
  intros Hp. unfold execute. rewrite Hp. cbn [negb].
  destruct (mapM_returns
              (fun itemIndex =>
                 let p := getNodeParameters itemIndex in
                 item true executionId (operation p) (inputMode p) (options p)
                      (parameters p) (parametersJson p) itemIndex)
              (fun itemIndex r => exists json, r = record json itemIndex)
              (seq 0 (List.length items))) as [records [E Hall]].
  { intros itemIndex _. cbn zeta.
    destruct (item_record executionId
                (operation (getNodeParameters itemIndex))
                (inputMode (getNodeParameters itemIndex))
                (options (getNodeParameters itemIndex))
                (parameters (getNodeParameters itemIndex))
                (parametersJson (getNodeParameters itemIndex)) itemIndex)
      as [json E].
    eexists. split; [exact E | now exists json]. }
  exists records. split; [exact E | split; [exact Hall|]].
  apply Forall2_length in Hall. now rewrite length_seq in Hall.
Qed.

Lemma continue_on_fail_gives_a_record_per_item_witness :
  exists records,
    @execute Lab.host_not_found true (Str "exec-1") (Str Sample.projectValue)
      (fun _ => Lab.weather_parameters) [Obj []; Obj []]
    = Ok records
    /\ List.length records = 2.
Proof.
  destruct (@continue_on_fail_gives_a_record_per_item Lab.host_not_found
              (Str "exec-1") (Str Sample.projectValue)
              (fun _ => Lab.weather_parameters) [Obj []; Obj []] eq_refl)
    as [records [E [_ Hl]]].
  exists records. split; [exact E | exact Hl].
Defined.

Lemma classify_success (u : Unpacked) (modelId editorBaseUrl r : value)
  (itemIndex : nat) :
  classify false u modelId editorBaseUrl itemIndex = Ok r ->
  classify true u modelId editorBaseUrl itemIndex = Ok r.
Proof.
  unfold classify, error_status. destruct (LeapterTool.ge400 (statusCode u));
    [|trivial].
  intros E. Projection.bind_inv E. discriminate E.
Qed.

Lemma item_success `{Host} (executionId : value) (operation inputMode : string)
  (options parameters : value) (parametersJson : string) (itemIndex : nat)
  (r : value) :
  item false executionId operation inputMode options parameters
       parametersJson itemIndex = Ok r ->
  item true executionId operation inputMode options parameters
       parametersJson itemIndex = Ok r.
Proof.
  unfold item.
  destruct (item_body false executionId operation inputMode options parameters
              parametersJson itemIndex) as [r'|err] eqn:E; cbn [catch];
    [|discriminate].
  intros [= <-].
  assert (Et : item_body true executionId operation inputMode options
                 parameters parametersJson itemIndex = Ok r').
  { unfold item_body in *.
    repeat match type of E with
           | bind ?m _ = _ =>
               destruct m; cbn [bind] in E |- *; [|discriminate E]
           end.
    now apply classify_success. }
  now rewrite Et.
Qed.

Lemma mapM_ext_in {A B : Type} (f g : A -> res B) (l : list A) (bs : list B) :
  (forall a b, In a l -> f a = Ok b -> g a = Ok b) ->
  mapM f l = Ok bs -> mapM g l = Ok bs.
Proof.
  revert bs. induction l as [|a l IH]; intros bs Hfg E; simpl in *.
  - exact E.
  - Projection.bind_inv E. Projection.bind_inv E. injection E as <-.
    rewrite (Hfg a a0 (or_introl eq_refl) E0). cbn [bind].
    rewrite (IH a1); [reflexivity | | exact E1].
    intros a' b Hin. apply Hfg. now right.
Qed.

Lemma mapM_Throw {A B : Type} (f : A -> res B) (l : list A) (e : exn) :
  mapM f l = Throw e -> exists a, In a l /\ f a = Throw e.
Proof.
  induction l as [|a l IH]; simpl; intros E; [discriminate|].
  destruct (f a) as [b|e'] eqn:Ea; cbn [bind] in E.
  - destruct (mapM f l) as [bs|e'']; [discriminate|].
    cbn [bind] in E. injection E as ->.
    destruct (IH eq_refl) as [a' [Hin Ea']]. exists a'. split; [now right | exact Ea'].
  - injection E as ->. exists a. split; [now left | exact Ea].
Qed.

(** X13. Without continue-on-fail, [execute] fails only with a
    [NodeOperationError]: the one made from the request to select a
    project when none is selected, else the one made from
    [Blueprint execution failed: ] followed by the message of what the
    body of the [try] threw for one of the items. The error the status
    check raises for a response of status [n >= 400] is caught by the
    same handler: the item fails with the error made from this prefix
    followed by the message of the error made from the value taken from
    the body. A run that returns records returns the same records with
    continue-on-fail. *)
Theorem failures_of_a_run `{Host} :
  (forall executionId projectValue getNodeParameters items e,
      execute false executionId projectValue getNodeParameters items = Throw e ->
      (truthy projectValue = false
       /\ e = NodeOperationError
                "No project selected. Please select a project first.")
      \/ exists itemIndex err,
           itemIndex < List.length items
           /\ (let p := getNodeParameters itemIndex in
               item_body false executionId (operation p) (inputMode p)
                         (options p) (parameters p) (parametersJson p)
                         itemIndex) = Throw err
           /\ e = NodeOperationError
                    ("Blueprint execution failed: " ++ exn_message err))
  /\ (forall executionId operation inputMode options parameters parametersJson
             itemIndex modelId bodyParams request response u fields n,
         modelId_of_value (part (Str.split operation "::") 1) = Ok modelId ->
         gather inputMode parameters parametersJson = Ok bodyParams ->
         request_of (to_text (part (Str.split operation "::") 0))
                    (part (Str.split operation "::") 2) executionId
                    options bodyParams = Ok request ->
         httpRequestWithAuthentication request = Ok response ->
         unpack response = Ok u ->
         responseBody u = Obj fields ->
         statusCode u = Num n ->
         (400 <= n)%Z ->
         item false executionId operation inputMode options parameters
              parametersJson itemIndex
         = Throw (NodeOperationError
                    ("Blueprint execution failed: "
                     ++ NodeOperationError_message
                          (Responses.preferred fields (Num n)))))
  /\ (forall executionId projectValue getNodeParameters items records,
         execute false executionId projectValue getNodeParameters items
         = Ok records ->
         execute true executionId projectValue getNodeParameters items
         = Ok records).
Proof.
  split; [|split].
  - intros executionId projectValue getNodeParameters items e.
    unfold execute. destruct (truthy projectValue); cbn [negb].
    + intros E. apply mapM_Throw in E as [itemIndex [Hin E]]. cbn zeta in E.
      unfold item in E.
      destruct (item_body _ _ _ _ _ _ _ _) as [|err] eqn:Eb; cbn [catch] in E;
        [discriminate|].
      injection E as <-. right. exists itemIndex, err.
      apply in_seq in Hin. split; [lia|]. split; [exact Eb | reflexivity].
    + intros [= <-]. now left.
  - intros executionId operation inputMode options parameters parametersJson
           itemIndex modelId bodyParams request response u fields n
           Hm Hg Hr Hh Hu Hb Hsc Hn.
    now destruct (Responses.item_of_error_status executionId operation
                    inputMode options parameters parametersJson itemIndex
                    modelId bodyParams request response u fields n
                    Hm Hg Hr Hh Hu Hb Hsc Hn) as [E _].
  - intros executionId projectValue getNodeParameters items records.
    unfold execute. destruct (truthy projectValue); cbn [negb]; [|discriminate].
    apply mapM_ext_in. intros itemIndex r _. apply item_success.
Qed.

Lemma failures_of_a_run_witness :
  @item Lab.host_not_found false (Str "exec-1")
    (operation Lab.weather_parameters) (inputMode Lab.weather_parameters)
    (options Lab.weather_parameters) (parameters Lab.weather_parameters)
    (parametersJson Lab.weather_parameters) 0
  = Throw (NodeOperationError "Blueprint execution failed: not found").
Proof.
  apply (proj1 (proj2 (@failures_of_a_run Lab.host_not_found))
           (Str "exec-1") _ _ _ _ _ 0 (Str "weather")
           (Obj [("city", Str "Paris")])
           (Obj [("method", Str "post");
                 ("url", Str "https://api.example.com/models/weather/runs");
                 ("headers", Obj [("X-Correlation-Id", Str "exec-1");
                                  ("Content-Type", Str "application/json")]);
                 ("body", Obj [("city", Str "Paris")]);
                 ("json", Bool true);
                 ("returnFullResponse", Bool true);
                 ("ignoreHttpStatusErrors", Bool true)])
           Lab.not_found
           {| responseBody := Obj [("detail", Str "not found");
                                   ("error", Str "E404")];
              responseHeaders := Obj [];
              statusCode := Num 404 |}
           [("detail", Str "not found"); ("error", Str "E404")] 404%Z);
    try reflexivity; lia.
Defined.

(** X25. A run of a loaded operation, end to end. For the operation
    value [fetchOperations] makes of a path, [execute] posts the
    gathered parameters to the operation URL; when the server answers
    with a status below 400 and an object body, the record of the item
    holds the fields of that body and, as [_metadata], the run
    identifier of the response and the link to the model's editor. *)
Theorem loaded_operation_runs `{Host}
  (continueOnFail : bool) (executionId : value)
  (path serverUrl editorBaseUrl name inputMode : string)
  (options parameters : value) (parametersJson : string) (itemIndex : nat)
  (bodyParams request sc : value) (fields hs : list (string * value)) :
  Str.includes path "::" = false ->
  Str.includes (serverUrl ++ path) "::" = false ->
  Str.includes editorBaseUrl "::" = false ->
  Str.includes name "::" = false ->
  Str.endsWith path ":" = false ->
  Str.endsWith (serverUrl ++ path) ":" = false ->
  Str.endsWith editorBaseUrl ":" = false ->
  gather inputMode parameters parametersJson = Ok bodyParams ->
  request_of "post" (Str (serverUrl ++ path)) executionId options bodyParams
  = Ok request ->
  httpRequestWithAuthentication request
  = Ok (Obj [("body", Obj fields); ("headers", Obj hs); ("statusCode", sc)]) ->
  LeapterTool.ge400 (or sc (Num 200)) = false ->
  get request "url" = Ok (Str (serverUrl ++ path))
  /\ get request "body" = Ok bodyParams
  /\ exists json,
       item continueOnFail executionId
            ("post::" ++ path ++ "::" ++ (serverUrl ++ path) ++ "::"
             ++ editorBaseUrl ++ "::" ++ name)
            inputMode options parameters parametersJson itemIndex
       = Ok (record json itemIndex)
       /\ (forall k, k <> "_metadata" -> lookup k json = lookup k fields)
       /\ lookup "_metadata" json
          = Some (Obj [("runId", Responses.runId_read hs);
                       ("editorLink",
                        Responses.node_link path editorBaseUrl)]).
Proof.
  intros Hp Hu He Hn Ep Eu Ee Hg Hr Hh Hge.
  assert (Hreq : get request "url" = Ok (Str (serverUrl ++ path))
                 /\ get request "body" = Ok bodyParams).
  { unfold request_of in Hr. do 2 Projection.bind_inv Hr.
    injection Hr as <-. destruct (truthy a0); now split. }
  split; [apply Hreq | split; [apply Hreq|]].
  unfold item, item_body.
  rewrite Loading.operation_value_split by assumption.
  cbn [part nth_error modelId_of_value bind to_text].
  rewrite Hg. cbn [bind]. rewrite Hr. cbn [bind]. rewrite Hh.
  cbn [bind unpack is_object has_property lookup String.eqb Ascii.eqb
       Bool.eqb andb get opt].
  cbn. unfold classify, success. cbn [statusCode]. rewrite Hge.
  cbn [responseHeaders responseBody bind LeapterTool.runId_of get
       spread_entries entries catch].
  eexists. split; [reflexivity|]. split.
  - intros k Hk. now apply Objects.lookup_define_other.
  - rewrite Objects.lookup_define_same, Responses.node_editorLink.
    reflexivity.
Qed.

Lemma loaded_operation_runs_witness :
  exists json,
    @item Sample.host false (Str "exec-1")
      (operation Lab.weather_parameters) (inputMode Lab.weather_parameters)
      (options Lab.weather_parameters) (parameters Lab.weather_parameters)
      (parametersJson Lab.weather_parameters) 0
    = Ok (record json 0)
    /\ lookup "answer" json = Some (Str "sunny").
Proof.
  destruct (@loaded_operation_runs Sample.host false (Str "exec-1")
              "/models/weather/runs" "https://api.example.com"
              "https://lab.example.com/editor/p1" "Weather" "visual"
              (Obj []) (Obj [("value", Obj [("body.city", Str "Paris")])])
              "{}" 0 _ _ (Num 200) [("answer", Str "sunny")]
              [("x-run-id", Str "abc123")]
              eq_refl eq_refl eq_refl eq_refl eq_refl eq_refl eq_refl
              eq_refl eq_refl eq_refl eq_refl)
    as [_ [_ [json [E [Hk _]]]]].
  exists json. split; [exact E|]. now apply Hk.
Defined.

End Running.

(** ** Names of tools, continued *)

Module ToolNames.

Import StrFacts Names.

(** [^[a-z0-9_-]{1,64}$] *)
Definition valid_name (s : string) : Prop :=
  s <> EmptyString
  /\ String.length s <= 64
  /\ Str.forallb is_name_char s = true.

Lemma name_char (c : ascii) :
  is_name_char c = true -> Str.is_space c = false /\ Str.lower_char c = c.
Proof.
  destruct c as [b0 b1 b2 b3 b4 b5 b6 b7].
  destruct b0, b1, b2, b3, b4, b5, b6, b7;
    vm_compute; intros E; (discriminate E || (split; reflexivity)).
Qed.

Lemma toLowerCase_name (s : string) :
  Str.forallb is_name_char s = true -> Str.toLowerCase s = s.
Proof.
  unfold Str.toLowerCase.
  induction s as [|c s IH]; cbn [Str.forallb Str.map]; intros E;
    [reflexivity|].
  apply andb_true_iff in E as [Hc Hs].
  destruct (name_char c Hc) as [_ ->]. now rewrite IH.
Qed.

Lemma collapse_spaces_name (s : string) (in_run : bool) :
  Str.forallb is_name_char s = true -> collapse_spaces s in_run = s.
Proof.
  revert in_run.
  induction s as [|c s IH]; cbn [Str.forallb]; intros in_run E;
    [reflexivity|].
  apply andb_true_iff in E as [Hc Hs].
  destruct (name_char c Hc) as [Hsp _].
  rewrite collapse_spaces_other by exact Hsp. now rewrite IH.
Qed.

Lemma filter_name (s : string) :
  Str.forallb is_name_char s = true -> Str.filter is_name_char s = s.
Proof.
  induction s as [|c s IH]; cbn [Str.forallb Str.filter]; intros E;
    [reflexivity|].
  apply andb_true_iff in E as [Hc Hs]. rewrite Hc. now rewrite IH.
Qed.

Lemma slice0_short (n : nat) (s : string) :
  String.length s <= n -> Str.slice0 n s = s.
Proof.
  unfold Str.slice0. revert n.
  induction s as [|c s IH]; intros n Hn.
  - now destruct n.
  - destruct n as [|n]; [simpl in Hn; lia|].
    simpl. rewrite IH; [reflexivity | simpl in Hn; lia].
Qed.

Lemma sanitizeToolName_valid (s : string) :
  valid_name s -> sanitizeToolName s = s.
Proof.
  intros [Hne [Hlen Hch]]. unfold sanitizeToolName.
  rewrite toLowerCase_name, collapse_spaces_name, filter_name, slice0_short
    by assumption.
  destruct (String.eqb_spec s EmptyString); [contradiction | reflexivity].
Qed.

(** X14. The names [sanitizeToolName] leaves as they are are exactly the
    names of one to 64 characters of [a-z0-9_-]; its results are such
    names, so sanitizing twice is sanitizing once. *)
Theorem sanitized_names_are_fixed :
  (forall s, sanitizeToolName s = s <-> valid_name s)
  /\ (forall name,
         sanitizeToolName (sanitizeToolName name) = sanitizeToolName name).
Proof.
  split.
  - intros s. split.
    + intros E. rewrite <- E. apply sanitizeToolName_shape.
    + apply sanitizeToolName_valid.
  - intros name. apply sanitizeToolName_valid, sanitizeToolName_shape.
Qed.

(** *** Decimal numerals *)

Lemma forallb_append (p : ascii -> bool) (a b : string) :
  Str.forallb p (a ++ b) = Str.forallb p a && Str.forallb p b.
Proof.
  induction a as [|c a IH]; simpl; [reflexivity|].
  now rewrite IH, andb_assoc.
Qed.

Definition is_digit (c : ascii) : bool :=
  (48 <=? Str.code c) && (Str.code c <=? 57).

Lemma digits_of_uint (d : Decimal.uint) :
  Str.forallb is_digit (NilEmpty.string_of_uint d) = true.
Proof. induction d; simpl; try rewrite IHd; reflexivity. Qed.

Lemma digits_of_nat (n : nat) : Str.forallb is_digit (Str.of_nat n) = true.
Proof.
  unfold Str.of_nat, NilZero.string_of_uint.
  destruct (Nat.to_uint n) eqn:E; try reflexivity;
    rewrite <- E; rewrite E; apply digits_of_uint.
Qed.

Lemma forallb_impl (p q : ascii -> bool) (s : string) :
  (forall c, p c = true -> q c = true) ->
  Str.forallb p s = true -> Str.forallb q s = true.
Proof.
  intros Hpq. induction s as [|c s IH]; simpl; [trivial|].
  intros E. apply andb_true_iff in E as [Hc Hs].
  now rewrite (Hpq c Hc), IH.
Qed.

Lemma digit_name_char (c : ascii) : is_digit c = true -> is_name_char c = true.
Proof.
  unfold is_digit, is_name_char. intros ->. cbn. now rewrite orb_true_r.
Qed.

Definition not_underscore (c : ascii) : bool := negb (Ascii.eqb c "_").

Lemma digit_not_underscore (c : ascii) :
  is_digit c = true -> not_underscore c = true.
Proof.
  unfold is_digit, not_underscore. intros E.
  destruct (Ascii.eqb_spec c "_") as [-> | _]; [discriminate E | reflexivity].
Qed.

(** The numeral of [n] reads back as [n]. *)
Lemma of_nat_read (n : nat) :
  option_map Nat.of_uint (NilZero.uint_of_string (Str.of_nat n)) = Some n.
Proof.
  unfold Str.of_nat.
  pose proof (Unsigned.of_to n) as Hn.
  destruct (Nat.to_uint n) eqn:E;
    try (rewrite NilZero.usu by discriminate; cbn [option_map];
         now rewrite Hn).
  cbn in Hn. subst n. reflexivity.
Qed.

Lemma of_nat_inj (n m : nat) : Str.of_nat n = Str.of_nat m -> n = m.
Proof.
  intros E. pose proof (of_nat_read n) as Hn. rewrite E, of_nat_read in Hn.
  now injection Hn.
Qed.

(** A name followed by an underscore and a numeral is read in one way. *)
Lemma suffixed_inj (a b x y : string) :
  Str.forallb not_underscore x = true ->
  Str.forallb not_underscore y = true ->
  (a ++ "_" ++ x)%string = (b ++ "_" ++ y)%string ->
  a = b /\ x = y.
Proof.
  intros Hx Hy. revert b.
  induction a as [|c a IH]; intros [|c' b] E; cbn in E.
  - injection E as E. now split.
  - injection E as Ec Ex. subst x.
    rewrite forallb_append in Hx. cbn in Hx.
    now rewrite andb_false_r in Hx.
  - injection E as Ec Ey. subst y.
    rewrite forallb_append in Hy. cbn in Hy.
    now rewrite andb_false_r in Hy.
  - injection E as Ec E. subst c'.
    destruct (IH b E) as [-> ->]. now split.
Qed.

(** *** Deduplicated names *)

Lemma slice0_nonempty (n : nat) (c : ascii) (s : string) :
  Str.slice0 (S n) (String c s) <> EmptyString.
Proof. unfold Str.slice0. simpl. discriminate. Qed.

Lemma occurrence_name_valid (name : string) (count : nat) :
  valid_name name -> valid_name (occurrence_name name count).
Proof.
  intros [Hne [Hlen Hch]]. unfold occurrence_name.
  destruct (count =? 0); [now repeat split|].
  split; [|split].
  - destruct name as [|c name]; [contradiction|]. apply slice0_nonempty.
  - apply slice0_length.
  - apply forallb_slice0. rewrite !forallb_append, Hch. cbn.
    apply (forallb_impl _ _ _ digit_name_char), digits_of_nat.
Qed.

Lemma In_renamed (names seen : list string) (y : string) :
  In y (renamed seen names) ->
  exists x c,
    In x names /\ y = occurrence_name x c
    /\ occurrences x seen <= c < occurrences x (seen ++ names).
Proof.
  revert seen. induction names as [|name names IH]; intros seen Hy;
    cbn [renamed] in Hy; [contradiction|].
  destruct Hy as [<- | Hy].
  - exists name, (occurrences name seen). split; [now left|].
    split; [reflexivity|].
    unfold occurrences. rewrite count_occ_app, count_occ_cons_eq by reflexivity.
    lia.
  - destruct (IH _ Hy) as [x [c [Hin [-> Hc]]]].
    exists x, c. split; [now right | split; [reflexivity|]].
    rewrite <- app_assoc in Hc. cbn [app] in Hc.
    split; [|apply Hc].
    destruct Hc as [Hc _]. unfold occurrences in *.
    rewrite count_occ_app in Hc. lia.
Qed.

Lemma deduplicateToolNames_renamed (names : list string) :
  deduplicateToolNames names = renamed [] names.
Proof.
  unfold deduplicateToolNames.
  now rewrite (fold_dedup_step names [] [] []) by reflexivity.
Qed.

Lemma deduplicateToolNames_valid (names : list string) :
  Forall valid_name names -> Forall valid_name (deduplicateToolNames names).
Proof.
  intros Hl. rewrite deduplicateToolNames_renamed.
  apply Forall_forall. intros y Hy.
  apply In_renamed in Hy as [x [c [Hin [-> _]]]].
  apply occurrence_name_valid.
  rewrite Forall_forall in Hl. now apply Hl.
Qed.

Lemma renamed_length (names seen : list string) :
  List.length (renamed seen names) = List.length names.
Proof.
  revert seen. induction names as [|name names IH]; intros seen; simpl;
    [reflexivity | now rewrite IH].
Qed.

Lemma deduplicateToolNames_length (names : list string) :
  List.length (deduplicateToolNames names) = List.length names.
Proof. rewrite deduplicateToolNames_renamed. apply renamed_length. Qed.

(** The name given to the element that follows [pre]. *)
Lemma renamed_at (pre post seen : list string) (x : string) :
  nth_error (renamed seen (pre ++ x :: post)) (List.length pre)
  = Some (occurrence_name x (occurrences x (seen ++ pre))).
Proof.
  revert seen. induction pre as [|p pre IH]; intros seen; simpl.
  - now rewrite app_nil_r.
  - rewrite IH. now rewrite <- app_assoc.
Qed.

(** X15. Deduplication keeps names valid: when every name given to
    [deduplicateToolNames] has one to 64 characters of [a-z0-9_-], as the
    results of [sanitizeToolName] have, so has every name it returns. *)
Theorem deduplicated_names_stay_valid (names : list string) :
  Forall valid_name names ->
  Forall valid_name (deduplicateToolNames names)
  /\ Forall valid_name
       (deduplicateToolNames (List.map sanitizeToolName names)).
Proof.
  intros Hn. split; [now apply deduplicateToolNames_valid|].
  apply deduplicateToolNames_valid, Forall_forall. intros y Hy.
  apply in_map_iff in Hy as [x [<- _]]. apply sanitizeToolName_shape.
Qed.

Lemma deduplicated_names_stay_valid_witness :
  Forall valid_name ["run"; "run"; "stop"]
  /\ Forall valid_name (deduplicateToolNames ["run"; "run"; "stop"]).
Proof.
  assert (H : Forall valid_name ["run"; "run"; "stop"]).
  { repeat constructor; (discriminate || (simpl; lia)). }
  split; [exact H | apply (deduplicated_names_stay_valid _ H)].
Defined.

Section Distinct.

Variable all : list string.

(** No name of the list is another name of the list followed by an
    underscore and a number the deduplication uses for it, and no
    suffixed name is cut. *)
Hypothesis no_clash :
  forall name c,
    In name all -> 1 <= c < occurrences name all ->
    ~ In (name ++ "_" ++ Str.of_nat c)%string all.
Hypothesis no_cut :
  forall name c,
    In name all -> 1 <= c < occurrences name all ->
    String.length (name ++ "_" ++ Str.of_nat c) <= 64.

Lemma occurrence_name_inj (x x' : string) (c c' : nat) :
  In x all -> In x' all ->
  c < occurrences x all -> c' < occurrences x' all ->
  occurrence_name x c = occurrence_name x' c' ->
  x = x' /\ c = c'.
Proof.
  intros Hx Hx' Hc Hc'. unfold occurrence_name.
  destruct (Nat.eqb_spec c 0) as [-> | Hc0];
    destruct (Nat.eqb_spec c' 0) as [-> | Hc0'].
  - now intros ->.
  - rewrite slice0_short by (apply no_cut; [assumption | lia]).
    intros E. exfalso. apply (no_clash x' c'); [assumption | lia|].
    now rewrite <- E.
  - rewrite slice0_short by (apply no_cut; [assumption | lia]).
    intros E. exfalso. apply (no_clash x c); [assumption | lia|].
    now rewrite E.
  - rewrite !slice0_short by (apply no_cut; [assumption | lia]).
    intros E. apply suffixed_inj in E as [-> E].
    + split; [reflexivity | now apply of_nat_inj].
    + apply (forallb_impl _ _ _ digit_not_underscore), digits_of_nat.
    + apply (forallb_impl _ _ _ digit_not_underscore), digits_of_nat.
Qed.

Lemma renamed_NoDup (names seen : list string) :
  (seen ++ names)%list = all -> NoDup (renamed seen names).
Proof.
  revert seen. induction names as [|name names IH]; intros seen E;
    cbn [renamed]; constructor.
  - intros Hin. apply In_renamed in Hin as [x [c [Hx [Ey Hc]]]].
    assert (Eall : ((seen ++ [name]) ++ names)%list = all).
    { now rewrite <- app_assoc. }
    rewrite Eall in Hc.
    assert (Hname : In name all).
    { rewrite <- E. apply in_or_app. right. now left. }
    assert (Hxa : In x all).
    { rewrite <- E. apply in_or_app. right. now right. }
    assert (Hcn : occurrences name seen < occurrences name all).
    { rewrite <- E. unfold occurrences.
      rewrite count_occ_app, count_occ_cons_eq by reflexivity. lia. }
    destruct (occurrence_name_inj name x (occurrences name seen) c
                Hname Hxa Hcn (proj2 Hc) Ey) as [<- <-].
    destruct Hc as [Hc _]. unfold occurrences in Hc.
    rewrite count_occ_app, count_occ_cons_eq in Hc by reflexivity.
    cbn in Hc. lia.
  - apply IH. now rewrite <- app_assoc.
Qed.

End Distinct.

(** X16. The names [deduplicateToolNames] returns are pairwise distinct
    when no suffixed name it makes is cut at 64 characters and none is
    already a name of the list: for a name that occurs [m] times the
    suffixes are [_1] to [_(m-1)]. *)
Theorem deduplicated_names_are_distinct (names : list string) :
  (forall name c,
      In name names -> 1 <= c < occurrences name names ->
      ~ In (name ++ "_" ++ Str.of_nat c)%string names) ->
  (forall name c,
      In name names -> 1 <= c < occurrences name names ->
      String.length (name ++ "_" ++ Str.of_nat c) <= 64) ->
  NoDup (deduplicateToolNames names).
Proof.
  intros Hclash Hcut. rewrite deduplicateToolNames_renamed.
  now apply (renamed_NoDup names Hclash Hcut names []).
Qed.

Lemma deduplicated_names_are_distinct_witness :
  NoDup (deduplicateToolNames ["run"; "run"; "stop"]).
Proof.
  apply deduplicated_names_are_distinct.
  - intros name c [<- | [<- | [<- | []]]] Hc; cbn in Hc;
      assert (Ec : c = 1) by lia; subst c; cbn; intuition discriminate.
  - intros name c [<- | [<- | [<- | []]]] Hc; cbn in Hc;
      assert (Ec : c = 1) by lia; subst c; cbn; lia.
Defined.

End ToolNames.

(** ** Schemas *)

Module Schemas.

(** The schemas [openApiToZod] calls itself on, for a resolved node:
    the items of an array and the properties of an object. *)
Definition child (resolved c : value) : Prop :=
  (get resolved "type" = Ok (Str "array")
   /\ get resolved "items" = Ok c /\ truthy c = true)
  \/ (get resolved "type" = Ok (Str "object")
      /\ exists properties es k,
           get resolved "properties" = Ok properties
           /\ truthy properties = true
           /\ entries properties = Ok es
           /\ In (k, c) es).

Section Recursive.

Variable spec : value.

(** A set of nodes each of which has a child that resolves into the
    set: the nodes of a schema that contains itself. *)
Variable P : value -> Prop.
Hypothesis closed :
  forall n, P n -> exists c n', child n c /\ resolveSchema c spec = Ok n' /\ P n'.

Lemma openApiToZod_fails (depth : nat) :
  forall s required n,
    resolveSchema s spec = Ok n -> P n ->
    exists e, openApiToZod depth s spec required = Throw e.
Proof.
  induction depth as [|d IH]; intros s required n Hs Hn; [now eexists|].
  rewrite Projection.openApiToZod_S, Hs. cbn [bind].
  destruct (closed n Hn) as [c [n' [Hc [Hr Hn']]]].
  destruct Hc as [[Ht [Hi Htc]] | [Ht [properties [es [k [Hp [Htp [He Hin]]]]]]]].
  - rewrite Ht. cbn [bind]. unfold zodType_of. cbn [strict_eq orb].
    cbn. rewrite Hi. cbn [bind]. rewrite Htc.
    destruct (IH c true n' Hr Hn') as [e ->]. now eexists.
  - rewrite Ht. cbn [bind]. unfold zodType_of. cbn [strict_eq orb].
    cbn. rewrite Hp. cbn [bind]. rewrite Htp, He. cbn [bind].
    destruct (Projection.foldM_shape_fails
                (fun k c => isRequired <- required_includes n k ;;
                            openApiToZod d c spec isRequired)
                (fun shape kp =>
                   isRequired <- required_includes n (fst kp) ;;
                   z <- openApiToZod d (snd kp) spec isRequired ;;
                   Ok (Js.set shape (fst kp) z))
                ltac:(intros shape kp; cbn beta;
                      destruct (required_includes n (fst kp)); reflexivity)
                es [] (k, c) Hin) as [e ->];
      [|now eexists].
    cbn [fst snd]. destruct (required_includes n k) as [r|e];
      cbn [bind]; [|now eexists].
    destruct (IH c r n' Hr Hn') as [e ->]. now eexists.
Qed.

End Recursive.

(** X17. A schema that contains itself has no projection: when each
    node of a set has items or a property that resolve to a node of the
    set, [openApiToZod] returns for no bound of the call stack on a
    schema that resolves into the set, and [buildZodSchemaFromOperation]
    returns for none on an operation whose body schema has a property
    that does. *)
Theorem recursive_schemas_have_no_projection (spec : value)
  (P : value -> Prop) :
  (forall n, P n ->
             exists c n', child n c /\ resolveSchema c spec = Ok n' /\ P n') ->
  (forall depth s required n,
      resolveSchema s spec = Ok n -> P n ->
      exists e, openApiToZod depth s spec required = Throw e)
  /\ (forall depth operation rawSchema schema properties es k c n,
         Projection.body_schema operation = Ok rawSchema ->
         truthy rawSchema = true ->
         resolveSchema rawSchema spec = Ok schema ->
         get schema "properties" = Ok properties ->
         truthy properties = true ->
         entries properties = Ok es ->
         In (k, c) es ->
         resolveSchema c spec = Ok n -> P n ->
         exists e, buildZodSchemaFromOperation depth operation spec = Throw e).
Proof.
  intros closed. split.
  - intros depth. now apply openApiToZod_fails.
  - intros depth operation rawSchema schema properties es k c n
           Hb Ht Hs Hp Htp He Hin Hc Hn.
    unfold buildZodSchemaFromOperation.
    unfold Projection.body_schema in Hb.
    destruct (jsonContent_of operation) as [jsonContent|]; [|discriminate Hb].
    cbn [bind] in Hb |- *. rewrite Hb. cbn [bind]. rewrite Ht. cbn [negb].
    rewrite Hs. cbn [bind]. rewrite Hp. cbn [bind].
    destruct (get schema "required") as [r|e]; cbn [bind]; [|now eexists].
    unfold or at 1. rewrite Htp, He. cbn [bind].
    apply (Projection.foldM_shape_fails
             (fun k c => isRequired <- includes_key (or r (Arr [])) k ;;
                         openApiToZod depth c spec isRequired)
             (fun zodShape kp =>
                isRequired <- includes_key (or r (Arr [])) (fst kp) ;;
                z <- openApiToZod depth (snd kp) spec isRequired ;;
                Ok (Js.set zodShape (fst kp) z))
             ltac:(intros shape kp; cbn beta;
                   destruct (includes_key (or r (Arr [])) (fst kp));
                   reflexivity)
             es [] (k, c) Hin). cbn [fst snd].
    destruct (includes_key _ k) as [isRequired|e]; cbn [bind]; [|now eexists].
    destruct (openApiToZod_fails spec P closed depth c isRequired n Hc Hn)
      as [e ->].
    now eexists.
Qed.

Lemma recursive_schemas_have_no_projection_witness :
  exists e,
    buildZodSchemaFromOperation 64
      (Sample.operation "Tree" (Obj [("$ref", Str "#/components/schemas/Tree")]))
      Lab.tree_spec
    = Throw e.
Proof.
  apply (proj2 (recursive_schemas_have_no_projection Lab.tree_spec
                  (fun n => n = Lab.tree_schema \/ n = Lab.children_schema)
                  ltac:(intros n [-> | ->];
                        [exists Lab.children_schema, Lab.children_schema;
                         split; [right; split; [reflexivity|];
                                 eexists _, _, "children";
                                 repeat split; try reflexivity;
                                 right; now left
                                | split; [reflexivity | now right]]
                        |exists (Obj [("$ref", Str "#/components/schemas/Tree")]),
                                Lab.tree_schema;
                         split; [left; now repeat split
                                | split; [reflexivity | now left]]]))
           64 _ (Obj [("$ref", Str "#/components/schemas/Tree")])
           Lab.tree_schema
           (Obj [("value", Sample.string_schema);
                 ("children", Lab.children_schema)])
           [("value", Sample.string_schema);
            ("children", Lab.children_schema)]
           "children" Lab.children_schema Lab.children_schema);
    try reflexivity; [right; now left | now right].
Defined.

(** *** The keys the router scores against *)

Lemma get_opt_truthy (v : value) (k : string) :
  truthy v = true -> get_opt v k = get v k.
Proof. now destruct v. Qed.

Lemma get_opt_of_get (v r : value) (k : string) :
  get v k = Ok r -> get_opt v k = Ok r.
Proof. now destruct v. Qed.

Lemma content_of_falsy (requestBody : value) :
  truthy requestBody = false -> get_opt requestBody "content" = Ok Undefined.
Proof.
  destruct requestBody as [| |b|n|s|l|fields]; cbn; try discriminate;
    reflexivity.
Qed.

(** X18. The router scores a call against the parameters the tool
    advertises: for an operation of which [buildZodSchemaFromOperation]
    returns a shape, the fields of that shape are, each once, the schema
    keys [execute] collects for the blueprint, but for a property named
    [__proto__], which is a schema key and no field of the shape. *)
Theorem router_keys_are_the_advertised_parameters
  (depth : nat) (operation spec : value) (shape : list (string * zod))
  (ks : list string) :
  buildZodSchemaFromOperation depth operation spec = Ok shape ->
  LeapterTool.schemaKeys_of operation spec = Ok ks ->
  NoDup ks
  /\ NoDup (List.map fst shape)
  /\ forall k, In k (List.map fst shape) <-> In k ks /\ k <> "__proto__".
Proof.
  unfold buildZodSchemaFromOperation, jsonContent_of, LeapterTool.schemaKeys_of.
  intros Eb Ek.
  assert (Hnone : shape = [] -> ks = [] ->
                  NoDup ks
                  /\ NoDup (List.map fst shape)
                  /\ forall k, In k (List.map fst shape)
                               <-> In k ks /\ k <> "__proto__").
  { intros -> ->. repeat split; try constructor; cbn; tauto. }
  destruct (get operation "requestBody") as [requestBody|]; [|discriminate Ek].
  cbn [bind] in Eb, Ek.
  destruct (truthy requestBody) eqn:Hrb.
  - rewrite get_opt_truthy in Eb by exact Hrb.
    destruct (get requestBody "content") as [c|]; [|discriminate Ek].
    cbn [bind] in Eb, Ek.
    destruct (get_opt c "application/json") as [content|]; [|discriminate Ek].
    cbn [bind] in Eb, Ek.
    destruct (get_opt content "schema") as [rawSchema|]; [|discriminate Ek].
    cbn [bind] in Eb, Ek.
    destruct (truthy rawSchema); cbn [negb] in Eb.
    + destruct (resolveSchema rawSchema spec) as [schema|]; [|discriminate Ek].
      cbn [bind] in Eb, Ek.
      destruct (get schema "properties") as [p|] eqn:Hp; [|discriminate Eb].
      rewrite (get_opt_of_get _ _ _ Hp) in Ek.
      cbn [bind] in Eb, Ek.
      destruct (get schema "required") as [r|]; [|discriminate Eb].
      cbn [bind] in Eb. unfold or at 1 in Eb.
      destruct (truthy p).
      * unfold keys in Ek.
        destruct (entries p) as [es|]; [|discriminate Ek].
        cbn [bind] in Eb, Ek. injection Ek as <-.
        destruct (Routing.set_of_list_spec (List.map fst es)) as [Hnd Hin].
        assert (Hstep : forall zodShape (kp : string * value),
                   (isRequired <- includes_key (or r (Arr [])) (fst kp) ;;
                    z <- openApiToZod depth (snd kp) spec isRequired ;;
                    Ok (Js.set zodShape (fst kp) z))
                   = (b <- (isRequired <- includes_key (or r (Arr []))
                                                       (fst kp) ;;
                            openApiToZod depth (snd kp) spec isRequired) ;;
                      Ok (Js.set zodShape (fst kp) b))).
        { intros zodShape kp.
          now destruct (includes_key (or r (Arr [])) (fst kp)). }
        split; [exact Hnd|]. split.
        -- apply (Projection.foldM_shape_NoDup
                    (fun k c =>
                       isRequired <- includes_key (or r (Arr [])) k ;;
                       openApiToZod depth c spec isRequired)
                    _ Hstep es [] shape (NoDup_nil _) Eb).
        -- intros k.
           rewrite (Projection.foldM_shape_keys
                      (fun k c =>
                         isRequired <- includes_key (or r (Arr [])) k ;;
                         openApiToZod depth c spec isRequired)
                      _ Hstep es [] shape k Eb).
           rewrite Hin. cbn. tauto.
      * cbn [entries bind foldM] in Eb. injection Eb as <-.
        injection Ek as <-. now apply Hnone.
    + injection Eb as <-. injection Ek as <-. now apply Hnone.
  - rewrite (content_of_falsy _ Hrb) in Eb. cbn in Eb.
    injection Eb as <-. injection Ek as <-. now apply Hnone.
Qed.

Lemma router_keys_are_the_advertised_parameters_witness :
  LeapterTool.schemaKeys_of Sample.weather_operation Sample.spec
  = Ok ["city"; "details"]
  /\ (In "details"
         (List.map fst
            [("city", ZString);
             ("details",
              ZOptional (ZObject [("units", ZString);
                                  ("lang", ZOptional ZString)]))])
      <-> In "details" ["city"; "details"] /\ "details" <> "__proto__").
Proof.
  split; [reflexivity|].
  apply (router_keys_are_the_advertised_parameters 8
           Sample.weather_operation Sample.spec
           [("city", ZString);
            ("details",
             ZOptional (ZObject [("units", ZString);
                                 ("lang", ZOptional ZString)]))]
           ["city"; "details"] eq_refl eq_refl).
Defined.

End Schemas.

(** ** The tools given to the agent *)

Module Supplying.

Import Supply.

Lemma mapM_somes {A B : Type} (f : A -> res (option B)) (keep : A -> bool)
  (es : list A) (found : list (option B)) :
  (forall a ob, f a = Ok ob ->
                keep a = match ob with Some _ => true | None => false end) ->
  mapM f es = Ok found ->
  Forall2 (fun a b => f a = Ok (Some b)) (List.filter keep es)
          (LeapterTool.somes found).
Proof.
  intros Hk. revert found.
  induction es as [|e es IH]; intros found E; simpl in E.
  - injection E as <-. constructor.
  - Projection.bind_inv E. Projection.bind_inv E. injection E as <-.
    specialize (IH _ E1). cbn [List.filter]. rewrite (Hk _ _ E0).
    destruct a as [b|]; cbn [LeapterTool.somes]; [now constructor | exact IH].
Qed.

(** The paths the filter lets through: all of them when it is empty. *)
Definition selected (filterPaths : list value) (p : string) : bool :=
  negb (hasFilter filterPaths) || has filterPaths p.

(** [operation.summary || operation.operationId || path.replace(/\//g, '_')] *)
Definition blueprintName_of (entry : string * value) : value :=
  let operation := Routing.field (snd entry) "post" in
  or (or (Routing.field operation "summary")
         (Routing.field operation "operationId"))
     (Str (LeapterTool.slashes_to_underscores (fst entry))).

Section Entries.
Context `{Host}.
Variable describeOperationParams : value -> value -> res value.
Variables (depth : nat) (spec toolDescriptionPrefix : value)
          (filterPaths : list value).

Lemma toolEntry_of_facts (entry : string * value) (ote : option ToolEntry) :
  toolEntry_of describeOperationParams depth spec toolDescriptionPrefix
               filterPaths entry = Ok ote ->
  match ote with
  | Some te =>
      Routing.is_candidate entry && selected filterPaths (fst entry) = true
      /\ LeapterTool.sanitize_value (blueprintName_of entry)
         = Ok (entry_name te)
      /\ buildZodSchemaFromOperation depth (Routing.field (snd entry) "post")
                                     spec
         = Ok (entry_schema te)
  | None =>
      Routing.is_candidate entry && selected filterPaths (fst entry) = false
  end.
Proof.
  destruct entry as [p pathItem].
  unfold toolEntry_of, Routing.is_candidate, blueprintName_of, Routing.field,
    selected.
  cbn [fst snd]. intros E.
  destruct (get pathItem "post") as [operation|]; [|discriminate].
  cbn [bind] in E. destruct (truthy operation) eqn:Ho; cbn [negb] in E.
  - destruct (get operation "deprecated") as [deprecated|]; [|discriminate].
    cbn [bind] in E. destruct (truthy deprecated) eqn:Hd.
    + now injection E as <-.
    + cbn [negb andb].
      destruct (hasFilter filterPaths); cbn [negb andb orb] in E |- *.
      * destruct (has filterPaths p); cbn [negb] in E.
        -- destruct (get operation "summary") as [summary|]; [|discriminate].
           cbn [bind] in E.
           destruct (get operation "operationId") as [operationId|];
             [|discriminate].
           cbn [bind] in E. do 4 Projection.bind_inv E.
           injection E as <-. cbn [entry_name entry_schema]. now repeat split.
        -- now injection E as <-.
      * destruct (get operation "summary") as [summary|]; [|discriminate].
        cbn [bind] in E.
        destruct (get operation "operationId") as [operationId|];
          [|discriminate].
        cbn [bind] in E. do 4 Projection.bind_inv E.
        injection E as <-. cbn [entry_name entry_schema]. now repeat split.
  - now injection E as <-.
Qed.

Lemma toolEntry_of_keeps (entry : string * value) (ote : option ToolEntry) :
  toolEntry_of describeOperationParams depth spec toolDescriptionPrefix
               filterPaths entry = Ok ote ->
  Routing.is_candidate entry && selected filterPaths (fst entry)
  = match ote with Some _ => true | None => false end.
Proof.
  intros E. apply toolEntry_of_facts in E. destruct ote; [apply E | exact E].
Qed.

Lemma entry_name_valid (entry : string * value) (te : ToolEntry) :
  toolEntry_of describeOperationParams depth spec toolDescriptionPrefix
               filterPaths entry = Ok (Some te) ->
  ToolNames.valid_name (entry_name te).
Proof.
  intros E. apply toolEntry_of_facts in E as [_ [E _]].
  unfold LeapterTool.sanitize_value in E.
  destruct (blueprintName_of entry); try discriminate E.
  injection E as <-. apply Names.sanitizeToolName_shape.
Qed.

End Entries.

(** What [supplyData] has computed when it returns. *)
Lemma supplyData_returns `{Host}
  (describeOperationParams : value -> value -> res value) (depth : nat)
  (projectValue : string) (blueprintFilter toolDescriptionPrefix nodeName : value)
  (tools : list Tool) :
  supplyData describeOperationParams depth projectValue blueprintFilter
             toolDescriptionPrefix nodeName = Ok tools ->
  exists spec filterPaths paths es found,
    httpRequestWithAuthentication
      (Load.spec_request
         (LeapterTool.nth_part (Str.split projectValue "::") 1)) = Ok spec
    /\ filterPaths_of blueprintFilter = Ok filterPaths
    /\ get spec "paths" = Ok paths
    /\ entries paths = Ok es
    /\ mapM (toolEntry_of describeOperationParams depth spec
                          toolDescriptionPrefix filterPaths) es = Ok found
    /\ LeapterTool.somes found <> []
    /\ tools
       = List.map (fun ie =>
                     tool_of (deduplicateToolNames
                                (List.map entry_name (LeapterTool.somes found)))
                             nodeName (fst ie) (snd ie))
                  (combine (seq 0 (List.length (LeapterTool.somes found)))
                           (LeapterTool.somes found)).
Proof.
  unfold supplyData. intros E.
  destruct (String.eqb projectValue EmptyString); [discriminate E|].
  destruct (LeapterTool.bad_specUrl _); [discriminate E|].
  do 3 Projection.bind_inv E.
  destruct (negb (Str.startsWith a1 "http://")
            && negb (Str.startsWith a1 "https://")).
  { destruct (rawServerUrl_of a); discriminate E. }
  do 4 Projection.bind_inv E.
  destruct (List.length (LeapterTool.somes a5) =? 0) eqn:Hl; [discriminate E|].
  injection E as <-.
  exists a, a2, a3, a4, a5. repeat split; try assumption.
  intros Hnil. rewrite Hnil in Hl. discriminate Hl.
Qed.

Lemma In_indexed {A : Type} (l : list A) (i : nat) (x : A) :
  In (i, x) (combine (seq 0 (List.length l)) l) ->
  i < List.length l /\ In x l.
Proof.
  intros Hin. split.
  - apply in_combine_l, in_seq in Hin. lia.
  - now apply in_combine_r in Hin.
Qed.

(** X19. The tools [supplyData] returns: there is at least one; the name
    of each is a string of one to 64 characters of [a-z0-9_-]; the
    schema of each is an object with at least one parameter, the
    optional [input] standing in for an operation without parameters;
    each carries the name of the node. *)
Theorem supplied_tools_are_well_formed `{Host}
  (describeOperationParams : value -> value -> res value) (depth : nat)
  (projectValue : string) (blueprintFilter toolDescriptionPrefix nodeName : value)
  (tools : list Tool) :
  supplyData describeOperationParams depth projectValue blueprintFilter
             toolDescriptionPrefix nodeName = Ok tools ->
  tools <> []
  /\ Forall (fun t => exists n, tool_name t = Str n /\ ToolNames.valid_name n)
            tools
  /\ Forall (fun t => exists shape, tool_schema t = ZObject shape /\ shape <> [])
            tools
  /\ Forall (fun t => sourceNodeName t = nodeName) tools.
Proof.
  intros E.
  apply supplyData_returns in E
    as [spec [filterPaths [paths [es [found [_ [_ [_ [_ [Em [Hne ->]]]]]]]]]]].
  set (toolEntries := LeapterTool.somes found) in *.
  assert (Hvalid : Forall ToolNames.valid_name
                     (deduplicateToolNames (List.map entry_name toolEntries))).
  { apply ToolNames.deduplicateToolNames_valid, Forall_forall.
    intros n Hn. apply in_map_iff in Hn as [te [<- Hte]].
    pose proof (mapM_somes _ _ _ _
                  (toolEntry_of_keeps describeOperationParams depth spec
                     toolDescriptionPrefix filterPaths) Em) as Hall.
    fold toolEntries in Hall.
    clear - Hall Hte. induction Hall as [|entry te' l l' Hx Hall IH];
      [contradiction|].
    destruct Hte as [<- | Hte]; [|now apply IH].
    now apply (entry_name_valid _ _ _ _ _ _ _ Hx). }
  split; [|split; [|split]].
  - intros Hnil. apply (f_equal (@List.length _)) in Hnil.
    rewrite length_map, length_combine, length_seq, Nat.min_id in Hnil.
    destruct toolEntries; [now apply Hne | discriminate Hnil].
  - apply Forall_forall. intros t Ht.
    apply in_map_iff in Ht as [[i te] [<- Hin]].
    apply In_indexed in Hin as [Hi _]. cbn [fst snd tool_of tool_name].
    unfold LeapterTool.nth_part.
    destruct (nth_error _ i) as [n|] eqn:En.
    + exists n. split; [reflexivity|].
      rewrite Forall_forall in Hvalid. apply Hvalid.
      now apply nth_error_In in En.
    + apply nth_error_None in En.
      rewrite ToolNames.deduplicateToolNames_length, length_map in En. lia.
  - apply Forall_forall. intros t Ht.
    apply in_map_iff in Ht as [[i te] [<- _]].
    cbn [fst snd tool_of tool_schema].
    destruct (entry_schema te) as [|kz shape]; cbn.
    + eexists. split; [reflexivity | discriminate].
    + eexists. split; [reflexivity | discriminate].
  - apply Forall_forall. intros t Ht.
    now apply in_map_iff in Ht as [[i te] [<- _]].
Qed.

Lemma supplied_tools_are_well_formed_witness :
  exists tools,
    @supplyData Sample.host Lab.describeOperationParams 8 Sample.projectValue
      (Arr []) (Str EmptyString) (Str "Leapter Tool") = Ok tools
    /\ tools <> [].
Proof.
  eexists. split; [reflexivity|].
  apply (@supplied_tools_are_well_formed Sample.host
           Lab.describeOperationParams 8 Sample.projectValue
           (Arr []) (Str EmptyString) (Str "Leapter Tool") _ eq_refl).
Defined.

Lemma map_indexed {A B : Type} (g : A -> B) (l : list A) (n : nat) :
  List.map (fun ie => g (snd ie)) (combine (seq n (List.length l)) l)
  = List.map g l.
Proof.
  revert n. induction l as [|x l IH]; intros n; simpl; [reflexivity|].
  now rewrite IH.
Qed.

Lemma names_indexed (names : list string) (k : nat) (rest : list string) :
  forall pre, List.length pre = k ->
  List.map (fun i => LeapterTool.nth_part (pre ++ rest) i)
           (seq k (List.length rest))
  = List.map Str rest.
Proof.
  revert k. induction rest as [|x rest IH]; intros k pre Hk; simpl;
    [reflexivity|].
  f_equal.
  - unfold LeapterTool.nth_part.
    rewrite nth_error_app2 by lia. subst k. now rewrite Nat.sub_diag.
  - specialize (IH (S k) (pre ++ [x])).
    rewrite <- app_assoc in IH. cbn [app] in IH. apply IH.
    rewrite length_app. simpl. lia.
Qed.

(** X20. [supplyData] makes one tool for each path of the document whose
    POST operation exists, is not deprecated and passes the filter, in
    the order of the document, and no other; an empty filter, or one
    that is not an array, lets every path through. Before deduplication
    the name of the tool is the sanitized summary of the operation, else
    its operation identifier, else the path with underscores for
    slashes; the names of the tools are the deduplicated names. The
    schema of the tool is the object of the fields
    [buildZodSchemaFromOperation] returns for the operation, or, when it
    returns none, the object with the one optional field [input]. *)
Theorem one_tool_per_selected_operation `{Host}
  (describeOperationParams : value -> value -> res value) (depth : nat)
  (projectValue : string) (blueprintFilter toolDescriptionPrefix nodeName : value)
  (tools : list Tool) (spec paths : value) (filterPaths : list value)
  (es : list (string * value)) :
  supplyData describeOperationParams depth projectValue blueprintFilter
             toolDescriptionPrefix nodeName = Ok tools ->
  httpRequestWithAuthentication
    (Load.spec_request (LeapterTool.nth_part (Str.split projectValue "::") 1))
  = Ok spec ->
  get spec "paths" = Ok paths ->
  entries paths = Ok es ->
  filterPaths_of blueprintFilter = Ok filterPaths ->
  (match blueprintFilter with
   | Arr (_ :: _) => True
   | _ => forall p, selected filterPaths p = true
   end)
  /\ exists toolEntries,
       Forall2 (fun entry te =>
                  LeapterTool.sanitize_value (blueprintName_of entry)
                  = Ok (entry_name te)
                  /\ buildZodSchemaFromOperation
                       depth (Routing.field (snd entry) "post") spec
                     = Ok (entry_schema te))
               (List.filter (fun entry =>
                               Routing.is_candidate entry
                               && selected filterPaths (fst entry)) es)
               toolEntries
       /\ List.map tool_name tools
          = List.map Str (deduplicateToolNames
                            (List.map entry_name toolEntries))
       /\ List.map tool_description tools
          = List.map entry_description toolEntries
       /\ List.map tool_schema tools
          = List.map (fun te =>
                        match entry_schema te with
                        | [] =>
                            ZObject [("input",
                                      ZDescribed (ZOptional ZString)
                                                 (Str "Optional input"))]
                        | shape => ZObject shape
                        end) toolEntries.
Proof.
  intros E Hs Hp He Hf. split.
  { destruct blueprintFilter as [| | | | |[|v l]|]; try exact I;
      cbn in Hf; injection Hf as <-; reflexivity. }
  apply supplyData_returns in E
    as [spec' [filterPaths' [paths' [es' [found [Hs' [Hf' [Hp' [He' [Em [_ ->]]]]]]]]]]].
  rewrite Hs in Hs'. injection Hs' as <-.
  rewrite Hf in Hf'. injection Hf' as <-.
  rewrite Hp in Hp'. injection Hp' as <-.
  rewrite He in He'. injection He' as <-.
  exists (LeapterTool.somes found). split; [|split; [|split]].
  - pose proof (mapM_somes _ _ _ _
                  (toolEntry_of_keeps describeOperationParams depth spec
                     toolDescriptionPrefix filterPaths) Em) as Hall.
    refine (Forall2_impl _ _ Hall). intros entry te Hx.
    now apply toolEntry_of_facts in Hx as [_ Hx].
  - rewrite map_map. cbn [tool_of tool_name fst].
    set (toolEntries := LeapterTool.somes found).
    set (uniqueNames := deduplicateToolNames (List.map entry_name toolEntries)).
    assert (Hl : List.length toolEntries = List.length uniqueNames).
    { unfold uniqueNames.
      now rewrite ToolNames.deduplicateToolNames_length, length_map. }
    rewrite <- (names_indexed uniqueNames 0 uniqueNames [] eq_refl).
    cbn [app]. rewrite <- Hl.
    generalize (LeapterTool.nth_part uniqueNames). intros g.
    clear Hl. clear uniqueNames. clearbody toolEntries.
    generalize 0. induction toolEntries as [|te l IH]; intros n; simpl;
      [reflexivity | now rewrite IH].
  - rewrite map_map. cbn [tool_of tool_description snd].
    apply (map_indexed entry_description).
  - rewrite map_map. cbn [tool_of tool_schema snd].
    rewrite (map_indexed
               (fun te =>
                  if 0 <? List.length (entry_schema te)
                  then ZObject (entry_schema te)
                  else ZObject [("input",
                                 ZDescribed (ZOptional ZString)
                                            (Str "Optional input"))])).
    apply map_ext. intros te. now destruct (entry_schema te).
Qed.

Lemma one_tool_per_selected_operation_witness :
  exists tools toolEntries,
    @supplyData Sample.host Lab.describeOperationParams 8 Sample.projectValue
      (Arr [Str "post::/models/search/runs::https://api.example.com/models/search/runs::https://lab.example.com/editor::Search"])
      (Str EmptyString) (Str "Leapter Tool") = Ok tools
    /\ List.map tool_name tools
       = List.map Str (deduplicateToolNames (List.map entry_name toolEntries))
    /\ List.map tool_name tools = [Str "search"]
    /\ List.map tool_schema tools = [ZObject [("query", ZString)]].
Proof.
  destruct (@one_tool_per_selected_operation Sample.host
              Lab.describeOperationParams 8 Sample.projectValue
              (Arr [Str "post::/models/search/runs::https://api.example.com/models/search/runs::https://lab.example.com/editor::Search"])
              (Str EmptyString) (Str "Leapter Tool") _ Sample.spec
              _ [Str "/models/search/runs"] _
              eq_refl eq_refl eq_refl eq_refl eq_refl)
    as [_ [toolEntries [_ [Hn _]]]].
  eexists. exists toolEntries.
  split; [reflexivity | split; [exact Hn | split; reflexivity]].
Defined.

(** *** From the tool to the blueprint *)

Lemma blueprint_of_name (serverUrl : string) (spec : value)
  (entry : string * value) (bp : LeapterTool.Blueprint) :
  LeapterTool.blueprint_of serverUrl spec entry = Ok (Some bp) ->
  LeapterTool.sanitize_value (blueprintName_of entry)
  = Ok (LeapterTool.name bp).
Proof.
  destruct entry as [p pathItem].
  unfold LeapterTool.blueprint_of, blueprintName_of, Routing.field.
  cbn [fst snd]. intros E.
  destruct (get pathItem "post") as [operation|]; [|discriminate].
  cbn [bind] in E. destruct (truthy operation); cbn [negb] in E;
    [|discriminate].
  destruct (get operation "deprecated") as [deprecated|]; [|discriminate].
  cbn [bind] in E. destruct (truthy deprecated); [discriminate|].
  destruct (get operation "summary") as [summary|]; [|discriminate].
  cbn [bind] in E.
  destruct (get operation "operationId") as [operationId|]; [|discriminate].
  cbn [bind] in E. do 2 Projection.bind_inv E.
  injection E as <-. exact E1.
Qed.

Lemma blueprint_names_valid (serverUrl : string) (spec : value)
  (bps : list LeapterTool.Blueprint) :
  LeapterTool.collectBlueprints serverUrl spec = Ok bps ->
  Forall (fun bp => ToolNames.valid_name (LeapterTool.name bp)) bps.
Proof.
  unfold LeapterTool.collectBlueprints. intros E.
  do 3 Projection.bind_inv E. injection E as <-.
  pose proof (Routing.collected_in_order _ _ _ _ E2) as Hall.
  induction Hall as [|entry bp l l' Hx Hall IH]; constructor; [|exact IH].
  apply blueprint_of_name in Hx. unfold LeapterTool.sanitize_value in Hx.
  destruct (blueprintName_of entry); try discriminate Hx.
  injection Hx as <-. apply Names.sanitizeToolName_shape.
Qed.

Lemma Forall2_In_r {A B : Type} (P : A -> B -> Prop) (l : list A)
  (l' : list B) (b : B) :
  Forall2 P l l' -> In b l' -> exists a, In a l /\ P a b.
Proof.
  induction 1 as [|a b' l l' Hab _ IH]; intros Hin; [contradiction|].
  destruct Hin as [<- | Hin].
  - exists a. split; [now left | exact Hab].
  - destruct (IH Hin) as [a' [Ha' Hp]].
    exists a'. split; [now right | exact Hp].
Qed.

Lemma Forall2_split {A B : Type} (P : A -> B -> Prop) (l1 l2 : list A)
  (a : A) (l' : list B) :
  Forall2 P (l1 ++ a :: l2) l' ->
  exists l1' b l2',
    l' = (l1' ++ b :: l2')%list
    /\ Forall2 P l1 l1' /\ P a b /\ Forall2 P l2 l2'.
Proof.
  intros Hall. apply Forall2_app_inv_l in Hall as [l1' [r [H1 [H2 ->]]]].
  inversion H2 as [|? b ? l2' Hab H2']; subst.
  now exists l1', b, l2'.
Qed.

Lemma nth_error_indexed {A B : Type} (g : nat -> A -> B) (l : list A) :
  forall k i x,
    nth_error l i = Some x ->
    nth_error (List.map (fun ie => g (fst ie) (snd ie))
                        (combine (seq k (List.length l)) l)) i
    = Some (g (k + i) x).
Proof.
  induction l as [|y l IH]; intros k [|i] x E; simpl in *; try discriminate.
  - injection E as ->. now rewrite Nat.add_0_r.
  - rewrite (IH (S k) i x E). do 2 f_equal. lia.
Qed.

(** The first name of its kind is advertised as it is. *)
Lemma first_of_its_name (pre post : list string) (x : string) :
  ~ In x pre ->
  LeapterTool.nth_part (deduplicateToolNames (pre ++ x :: post))
                       (List.length pre)
  = Str x.
Proof.
  intros Hx. unfold LeapterTool.nth_part.
  rewrite ToolNames.deduplicateToolNames_renamed, ToolNames.renamed_at.
  cbn [app]. unfold Names.occurrences.
  now rewrite (proj1 (count_occ_not_In string_dec _ _)) by exact Hx.
Qed.

Lemma supplyData_specUrl `{Host}
  (describeOperationParams : value -> value -> res value) (depth : nat)
  (projectValue : string) (blueprintFilter toolDescriptionPrefix nodeName : value)
  (tools : list Tool) :
  supplyData describeOperationParams depth projectValue blueprintFilter
             toolDescriptionPrefix nodeName = Ok tools ->
  exists specUrl,
    LeapterTool.nth_part (Str.split projectValue "::") 1 = Str specUrl
    /\ LeapterTool.bad_specUrl (Str specUrl) = false.
Proof.
  unfold supplyData. intros E.
  destruct (String.eqb projectValue EmptyString); [discriminate E|].
  destruct (LeapterTool.nth_part (Str.split projectValue "::") 1)
    as [| | | |specUrl| |] eqn:En; try discriminate E.
  exists specUrl. split; [reflexivity|].
  now destruct (LeapterTool.bad_specUrl (Str specUrl)).
Qed.

(** X21. A call under the advertised name reaches the blueprint the tool
    was made for. Take a path of the document whose operation is live
    and passes the filter, and whose sanitized name no live operation
    earlier in the document has. Among the tools [supplyData] returns,
    the one made for this path, which stands at the rank of the path
    among the paths that get a tool, is advertised under that name; and
    when an item comes in whose [action] is that name, [execute] finds
    among its candidates the blueprint of this very path and goes on to
    post the tool arguments to its operation URL, whatever the
    arguments are. *)
Theorem advertised_name_routes_back `{Host}
  (describeOperationParams : value -> value -> res value) (depth : nat)
  (projectValue : string) (blueprintFilter toolDescriptionPrefix nodeName : value)
  (tools : list Tool) (spec paths : value) (filterPaths : list value)
  (es1 es2 : list (string * value)) (entry : string * value) (n : string) :
  supplyData describeOperationParams depth projectValue blueprintFilter
             toolDescriptionPrefix nodeName = Ok tools ->
  httpRequestWithAuthentication
    (Load.spec_request (LeapterTool.nth_part (Str.split projectValue "::") 1))
  = Ok spec ->
  filterPaths_of blueprintFilter = Ok filterPaths ->
  get spec "paths" = Ok paths ->
  entries paths = Ok (es1 ++ entry :: es2)%list ->
  Routing.is_candidate entry && selected filterPaths (fst entry) = true ->
  LeapterTool.sanitize_value (blueprintName_of entry) = Ok n ->
  (forall c, In c es1 -> Routing.is_candidate c = true ->
             LeapterTool.sanitize_value (blueprintName_of c) <> Ok n) ->
  exists t,
    nth_error tools
      (List.length
         (List.filter (fun e => Routing.is_candidate e
                                && selected filterPaths (fst e)) es1))
    = Some t
    /\ tool_name t = Str n
    /\ forall executionId input itemIndex toolArgs serverUrl bps,
         LeapterTool.action_of input = Ok n ->
         LeapterTool.toolArgs_of input = Ok toolArgs ->
         LeapterTool.serverUrl_of spec = Ok serverUrl ->
         Str.startsWith serverUrl "http" = true ->
         LeapterTool.collectBlueprints serverUrl spec = Ok bps ->
         exists bp,
           In bp bps
           /\ LeapterTool.path bp = fst entry
           /\ LeapterTool.operationUrl bp = (serverUrl ++ fst entry)%string
           /\ LeapterTool.route n bps toolArgs = Some bp
           /\ LeapterTool.item_body executionId projectValue input itemIndex
              = (response <- httpRequestWithAuthentication
                               (LeapterTool.blueprint_request executionId bp
                                                              toolArgs) ;;
                 LeapterTool.classify
                   bp (LeapterTool.nth_part (Str.split projectValue "::") 2)
                   response itemIndex).
Proof.
  intros E Hs Hf Hp He Hkeep Hn Hfirst.
  destruct (supplyData_specUrl _ _ _ _ _ _ _ E) as [specUrl [Hurl Hbad]].
  apply supplyData_returns in E
    as [spec' [filterPaths' [paths' [es' [found [Hs' [Hf' [Hp' [He' [Em [_ ->]]]]]]]]]]].
  rewrite Hs in Hs'. injection Hs' as <-.
  rewrite Hf in Hf'. injection Hf' as <-.
  rewrite Hp in Hp'. injection Hp' as <-.
  rewrite He in He'. injection He' as <-.
  pose proof (mapM_somes _ _ _ _
                (toolEntry_of_keeps describeOperationParams depth spec
                   toolDescriptionPrefix filterPaths) Em) as Hall.
  rewrite filter_app in Hall. cbn [List.filter] in Hall.
  rewrite Hkeep in Hall.
  apply Forall2_split in Hall as [tes1 [te [tes2 [Etes [H1 [Hte H2]]]]]].
  assert (Hname : entry_name te = n).
  { apply toolEntry_of_facts in Hte as [_ [Hte _]].
    rewrite Hn in Hte. now injection Hte. }
  assert (Hpre : ~ In n (List.map entry_name tes1)).
  { intros Hin. apply in_map_iff in Hin as [te' [Ee Hin]].
    destruct (Forall2_In_r _ _ _ _ H1 Hin) as [c [Hc Hx]].
    apply filter_In in Hc as [Hc Hk]. apply andb_true_iff in Hk as [Hk _].
    apply toolEntry_of_facts in Hx as [_ [Hx _]].
    apply (Hfirst c Hc Hk). now rewrite Hx, Ee. }
  assert (Hcand : Routing.is_candidate entry = true).
  { now apply andb_true_iff in Hkeep as [Hk _]. }
  exists (tool_of (deduplicateToolNames
                     (List.map entry_name (LeapterTool.somes found)))
                  nodeName (List.length tes1) te).
  split; [|split].
  - rewrite (Forall2_length H1).
    rewrite (nth_error_indexed
               (tool_of (deduplicateToolNames
                           (List.map entry_name (LeapterTool.somes found)))
                        nodeName)
               (LeapterTool.somes found) 0 (List.length tes1) te);
      [reflexivity|].
    rewrite Etes, nth_error_app2, Nat.sub_diag by lia. reflexivity.
  - cbn [tool_of tool_name]. rewrite Etes, map_app. cbn [List.map].
    rewrite Hname, <- (length_map entry_name tes1).
    now apply first_of_its_name.
  - intros executionId input itemIndex toolArgs serverUrl bps
           Ha Ht Hv Hh Hc.
    pose proof Hc as Hbps. unfold LeapterTool.collectBlueprints in Hbps.
    rewrite Hp in Hbps. cbn [bind] in Hbps. rewrite He in Hbps.
    cbn [bind] in Hbps.
    destruct (mapM (LeapterTool.blueprint_of serverUrl spec)
                   (es1 ++ entry :: es2)) as [bs|] eqn:Emap;
      [|discriminate Hbps].
    cbn [bind] in Hbps. injection Hbps as <-.
    pose proof (Routing.collected_in_order _ _ _ _ Emap) as Hb.
    rewrite filter_app in Hb. cbn [List.filter] in Hb. rewrite Hcand in Hb.
    apply Forall2_split in Hb as [pre [bp [post [Ebps [Hb1 [Hbp Hb2]]]]]].
    assert (Hbn : LeapterTool.name bp = n).
    { apply blueprint_of_name in Hbp. rewrite Hn in Hbp. now injection Hbp. }
    assert (Hbpre : forall c, In c pre -> LeapterTool.name c <> n).
    { intros c Hin Ec.
      destruct (Forall2_In_r _ _ _ _ Hb1 Hin) as [e [He1 Hx]].
      apply filter_In in He1 as [He1 Hk].
      apply blueprint_of_name in Hx.
      apply (Hfirst e He1 Hk). now rewrite Hx, Ec. }
    assert (Hvalid : ToolNames.valid_name n).
    { unfold LeapterTool.sanitize_value in Hn.
      destruct (blueprintName_of entry); try discriminate Hn.
      injection Hn as <-. apply Names.sanitizeToolName_shape. }
    assert (Hroute : LeapterTool.route n (LeapterTool.somes bs) toolArgs
                     = Some bp).
    { rewrite Ebps. unfold LeapterTool.route, LeapterTool.match_action.
      destruct Hvalid as [Hne Hrest].
      destruct (String.eqb_spec n EmptyString); [contradiction|].
      cbn [negb].
      rewrite ToolNames.sanitizeToolName_valid by (split; assumption).
      now rewrite Routing.find_first. }
    exists bp.
    destruct (Routing.blueprint_of_candidate _ _ _ _ Hbp) as [_ [Hpath Hop]].
    split; [rewrite Ebps; apply in_or_app; right; now left|].
    split; [exact Hpath|]. split; [exact Hop|]. split; [exact Hroute|].
    unfold LeapterTool.item_body. rewrite Ha, Ht. cbn [bind].
    rewrite Hurl, Hbad. rewrite Hurl in Hs.
    change (LeapterTool.spec_request (to_text (Str specUrl)))
      with (Load.spec_request (Str specUrl)).
    rewrite Hs. cbn [bind]. rewrite Hv. cbn [bind]. rewrite Hh. cbn [negb].
    rewrite Hc. cbn [bind]. now rewrite Hroute.
Qed.

Lemma advertised_name_routes_back_witness :
  exists t bp,
    nth_error
      [{| tool_name := Str "weather";
          tool_description := "Weather";
          tool_schema :=
            ZObject [("city", ZString);
                     ("details",
                      ZOptional (ZObject [("units", ZString);
                                          ("lang", ZOptional ZString)]))];
          tool_func :=
            @JSON_stringify Sample.host
              (Obj [("error",
                     Str "Unexpected: func should not be called directly")]);
          sourceNodeName := Str "Leapter Tool" |}] 0 = Some t
    /\ tool_name t = Str "weather"
    /\ LeapterTool.path bp = "/models/weather/runs"
    /\ @LeapterTool.item_body Sample.host "exec-1" Sample.projectValue
         (Obj [("action", Str "weather"); ("city", Str "Paris")]) 0
       = (response <- @httpRequestWithAuthentication Sample.host
                        (LeapterTool.blueprint_request
                           "exec-1" bp [("city", Str "Paris")]) ;;
          LeapterTool.classify
            bp (LeapterTool.nth_part (Str.split Sample.projectValue "::") 2)
            response 0).
Proof.
  destruct (@advertised_name_routes_back Sample.host
              Lab.describeOperationParams 8 Sample.projectValue
              (Arr [Str "post::/models/weather/runs::https://api.example.com/models/weather/runs::https://lab.example.com/editor::Weather"])
              (Str EmptyString) (Str "Leapter Tool")
              [{| tool_name := Str "weather";
                  tool_description := "Weather";
                  tool_schema :=
                    ZObject [("city", ZString);
                             ("details",
                              ZOptional
                                (ZObject [("units", ZString);
                                          ("lang", ZOptional ZString)]))];
                  tool_func :=
                    @JSON_stringify Sample.host
                      (Obj [("error",
                             Str "Unexpected: func should not be called directly")]);
                  sourceNodeName := Str "Leapter Tool" |}]
              Sample.spec
              (Obj [("/models/weather/runs",
                     Obj [("post", Sample.weather_operation)]);
                    ("/models/search/runs",
                     Obj [("post", Sample.operation "Search"
                                     Sample.search_schema)])])
              [Str "/models/weather/runs"]
              []
              [("/models/search/runs",
                Obj [("post", Sample.operation "Search" Sample.search_schema)])]
              ("/models/weather/runs", Obj [("post", Sample.weather_operation)])
              "weather"
              eq_refl eq_refl eq_refl eq_refl eq_refl eq_refl eq_refl
              ltac:(intros c []))
    as [t [Ht [Hname Hcall]]].
  destruct (Hcall "exec-1"
              (Obj [("action", Str "weather"); ("city", Str "Paris")]) 0
              [("city", Str "Paris")] "https://api.example.com"
              [Responses.weather; Routing.search]
              eq_refl eq_refl eq_refl eq_refl eq_refl)
    as [bp [_ [Hpath [_ [_ Hitem]]]]].
  exists t, bp. split; [exact Ht|]. split; [exact Hname|].
  split; [exact Hpath | exact Hitem].
Defined.

(** *** The tool that calls the blueprint itself *)

(** X22. The function of a tool made by [createTool] raises nothing: it
    answers the text of an object that has an [error] or the
    [_metadata] of the run. A call that cannot be made is answered with
    [Blueprint execution failed: ] and the message of the failure; the
    tool of an operation without parameters sends an empty body,
    whatever its arguments. *)
Theorem tool_function_always_answers `{Host} (opts : Options) :
  (forall toolArgs,
      exists fields,
        func opts toolArgs = Ok (JSON_stringify (Obj fields))
        /\ (lookup "error" fields <> None
            \/ lookup "_metadata" fields <> None))
  /\ (forall toolArgs e,
         func_body opts toolArgs = Throw e ->
         func opts toolArgs
         = Ok (JSON_stringify
                 (Obj [("error",
                        Str ("Blueprint execution failed: "
                             ++ exn_message e))])))
  /\ (hasSchema opts = false ->
      forall toolArgs, func opts toolArgs = func opts (Obj [])).
Proof.
  split; [|split].
  - intros toolArgs. unfold func.
    destruct (func_body opts toolArgs) as [text|e] eqn:E; cbn [catch].
    + unfold func_body in E. do 3 Projection.bind_inv E.
      destruct (LeapterTool.ge400 (or a0 (Num 200))).
      * Projection.bind_inv E. injection E as <-.
        eexists. split; [reflexivity|]. left. discriminate.
      * do 3 Projection.bind_inv E. injection E as <-.
        eexists. split; [reflexivity|]. right.
        now rewrite Objects.lookup_define_same.
    + eexists. split; [reflexivity|]. left. discriminate.
  - intros toolArgs e E. unfold func. now rewrite E.
  - intros Hs toolArgs. unfold func, func_body. now rewrite Hs.
Qed.

Lemma tool_function_always_answers_witness :
  @func Lab.host_unreachable
    {| editorBaseUrl := Str "https://lab.example.com/editor/p1";
       path := "/models/weather/runs";
       operationUrl := "https://api.example.com/models/weather/runs";
       hasSchema := false;
       executionId := "exec-1" |} (Obj [("city", Str "Paris")])
  = @func Lab.host_unreachable
      {| editorBaseUrl := Str "https://lab.example.com/editor/p1";
         path := "/models/weather/runs";
         operationUrl := "https://api.example.com/models/weather/runs";
         hasSchema := false;
         executionId := "exec-1" |} (Obj []).
Proof.
  apply (proj2 (proj2 (@tool_function_always_answers Lab.host_unreachable
                         {| editorBaseUrl :=
                              Str "https://lab.example.com/editor/p1";
                            path := "/models/weather/runs";
                            operationUrl :=
                              "https://api.example.com/models/weather/runs";
                            hasSchema := false;
                            executionId := "exec-1" |}))).
  reflexivity.
Defined.

(** *** Failures *)

(** X23. [supplyData] raises its errors as they are: without a project
    it asks for one; a project value whose second part is missing or
    does not begin with [http] is reported with the value and the part;
    a failure of the request for the document is raised unchanged; and
    when no operation of the document is live and passes the filter,
    it reports that no blueprints were found. *)
Theorem failures_of_supplyData `{Host}
  (describeOperationParams : value -> value -> res value) (depth : nat)
  (blueprintFilter toolDescriptionPrefix nodeName : value) :
  supplyData describeOperationParams depth EmptyString blueprintFilter
             toolDescriptionPrefix nodeName
  = Throw (NodeOperationError
             "No project selected. Please select a project first.")
  /\ (forall projectValue,
         projectValue <> EmptyString ->
         LeapterTool.bad_specUrl
           (LeapterTool.nth_part (Str.split projectValue "::") 1) = true ->
         supplyData describeOperationParams depth projectValue blueprintFilter
                    toolDescriptionPrefix nodeName
         = Throw (NodeOperationError
                    ("Invalid project value. Expected compound format but got: "
                     ++ Str.dquote ++ projectValue ++ Str.dquote
                     ++ " (parsed specUrl: " ++ Str.dquote
                     ++ to_text (LeapterTool.nth_part
                                   (Str.split projectValue "::") 1)
                     ++ Str.dquote ++ ")")))
  /\ (forall projectValue e,
         projectValue <> EmptyString ->
         LeapterTool.bad_specUrl
           (LeapterTool.nth_part (Str.split projectValue "::") 1) = false ->
         httpRequestWithAuthentication
           (Load.spec_request
              (LeapterTool.nth_part (Str.split projectValue "::") 1))
         = Throw e ->
         supplyData describeOperationParams depth projectValue blueprintFilter
                    toolDescriptionPrefix nodeName
         = Throw e)
  /\ (forall projectValue spec serverUrl filterPaths paths es found,
         projectValue <> EmptyString ->
         LeapterTool.bad_specUrl
           (LeapterTool.nth_part (Str.split projectValue "::") 1) = false ->
         httpRequestWithAuthentication
           (Load.spec_request
              (LeapterTool.nth_part (Str.split projectValue "::") 1))
         = Ok spec ->
         Load.check_spec spec = Ok tt ->
         Load.serverUrl_of spec = Ok serverUrl ->
         Str.startsWith serverUrl "http://"
         || Str.startsWith serverUrl "https://" = true ->
         filterPaths_of blueprintFilter = Ok filterPaths ->
         get spec "paths" = Ok paths ->
         entries paths = Ok es ->
         mapM (toolEntry_of describeOperationParams depth spec
                            toolDescriptionPrefix filterPaths) es = Ok found ->
         List.filter (fun entry =>
                        Routing.is_candidate entry
                        && selected filterPaths (fst entry)) es = [] ->
         supplyData describeOperationParams depth projectValue blueprintFilter
                    toolDescriptionPrefix nodeName
         = Throw (NodeOperationError
                    "No blueprints found in the selected project. Ensure the project has published blueprints.")).
Proof.
  split; [reflexivity | split; [|split]].
  - intros projectValue Hp Hb. unfold supplyData.
    destruct (String.eqb_spec projectValue EmptyString); [contradiction|].
    now rewrite Hb.
  - intros projectValue e Hp Hb Hr. unfold supplyData.
    destruct (String.eqb_spec projectValue EmptyString); [contradiction|].
    now rewrite Hb, Hr.
  - intros projectValue spec serverUrl filterPaths paths es found
           Hp Hb Hr Hc Hs Hh Hf Hpa He Em Hnone.
    unfold supplyData.
    destruct (String.eqb_spec projectValue EmptyString); [contradiction|].
    rewrite Hb, Hr. cbn [bind]. rewrite Hc. cbn [bind]. rewrite Hs.
    cbn [bind].
    assert (Hn : negb (Str.startsWith serverUrl "http://")
                 && negb (Str.startsWith serverUrl "https://") = false).
    { rewrite <- negb_orb, Hh. reflexivity. }
    rewrite Hn, Hf. cbn [bind]. rewrite Hpa. cbn [bind]. rewrite He.
    cbn [bind]. rewrite Em. cbn [bind].
    pose proof (mapM_somes _ _ _ _
                  (toolEntry_of_keeps describeOperationParams depth spec
                     toolDescriptionPrefix filterPaths) Em) as Hall.
    rewrite Hnone in Hall. inversion Hall as [E0|]. reflexivity.
Qed.

Lemma failures_of_supplyData_witness :
  @supplyData Lab.host_unreachable Lab.describeOperationParams 8
    Sample.projectValue (Arr []) (Str EmptyString) (Str "Leapter Tool")
  = Throw (TypeError "connect ECONNREFUSED").
Proof.
  apply (proj1 (proj2 (proj2 (@failures_of_supplyData Lab.host_unreachable
                                Lab.describeOperationParams 8 (Arr [])
                                (Str EmptyString) (Str "Leapter Tool")))));
    [discriminate | reflexivity | reflexivity].
Defined.

Lemma first_failure {B : Type} (g : nat -> value -> res B) (e : exn)
  (l : list value) :
  forall k,
    mapM (fun ix => g (fst ix) (snd ix)) (combine (seq k (List.length l)) l)
    = Throw e ->
    exists i input,
      nth_error l i = Some input
      /\ g (k + i) input = Throw e
      /\ forall j x, j < i -> nth_error l j = Some x ->
                     exists r, g (k + j) x = Ok r.
Proof.
  induction l as [|x l IH]; intros k E; [discriminate E|].
  cbn [List.length seq combine mapM fst snd] in E.
  destruct (g k x) as [r|e'] eqn:Ex; cbn [bind] in E.
  - destruct (mapM _ _) as [rs|e''] eqn:Er in E; [discriminate E|].
    cbn [bind] in E. injection E as ->.
    destruct (IH _ Er) as [i [input [Hn [Hi Hbefore]]]].
    exists (S i), input. split; [exact Hn|]. split.
    + now replace (k + S i) with (S k + i) by lia.
    + intros [|j] y Hj Hy.
      * injection Hy as <-. rewrite Nat.add_0_r. now exists r.
      * replace (k + S j) with (S k + j) by lia.
        apply Hbefore; [lia | exact Hy].
  - injection E as ->. exists 0, x. split; [reflexivity|]. split.
    + now rewrite Nat.add_0_r.
    + intros j y Hj. lia.
Qed.

(** X24. An item of the tool node fails only with a
    [NodeOperationError]: the errors the node raises itself leave as
    they are, for every other error the one made from
    [Blueprint execution failed: ] followed by the message of that
    error; a project value whose second part is missing or does not
    begin with [http] is refused, before any request is made and for
    every server, with the error made from
    [Invalid project configuration. Cannot parse spec URL from: ] and
    the quoted value; and the first item that fails ends [execute] with
    its error, the items before it having returned. *)
Theorem failures_of_a_tool_call `{Host} :
  (forall executionId projectValue input itemIndex e,
      LeapterTool.item executionId projectValue input itemIndex = Throw e ->
      exists m, e = NodeOperationError m)
  /\ (forall executionId projectValue input itemIndex e,
         LeapterTool.item_body executionId projectValue input itemIndex
         = Throw e ->
         LeapterTool.item executionId projectValue input itemIndex
         = Throw (if is_NodeOperationError e then e
                  else NodeOperationError
                         ("Blueprint execution failed: " ++ exn_message e)))
  /\ (forall executionId projectValue fields itemIndex,
         LeapterTool.bad_specUrl
           (LeapterTool.nth_part (Str.split projectValue "::") 1) = true ->
         LeapterTool.item executionId projectValue (Obj fields) itemIndex
         = Throw (NodeOperationError
                    ("Invalid project configuration. Cannot parse spec URL from: "
                     ++ Str.dquote ++ projectValue ++ Str.dquote)))
  /\ (forall executionId project items e,
         LeapterTool.execute executionId project items = Throw e ->
         exists itemIndex input,
           nth_error items itemIndex = Some input
           /\ LeapterTool.item executionId (project itemIndex) input itemIndex
              = Throw e
           /\ forall j x,
                j < itemIndex -> nth_error items j = Some x ->
                exists r, LeapterTool.item executionId (project j) x j = Ok r).
Proof.
  split; [|split; [|split]].
  - intros executionId projectValue input itemIndex e.
    unfold LeapterTool.item.
    destruct (LeapterTool.item_body _ _ _ _) as [r|err]; cbn [catch];
      [discriminate|].
    destruct err; cbn [is_NodeOperationError]; intros [= <-]; now eexists.
  - intros executionId projectValue input itemIndex e E.
    unfold LeapterTool.item. rewrite E. cbn [catch].
    now destruct (is_NodeOperationError e).
  - intros executionId projectValue fields itemIndex Hb.
    unfold LeapterTool.item, LeapterTool.item_body, LeapterTool.action_of,
      LeapterTool.toolArgs_of.
    cbn [get entries bind]. now rewrite Hb.
  - intros executionId project items e E.
    unfold LeapterTool.execute in E.
    apply (first_failure
             (fun i input => LeapterTool.item executionId (project i) input i))
      in E.
    exact E.
Qed.

Lemma failures_of_a_tool_call_witness :
  @LeapterTool.item Sample.host "exec-1" "p1" Sample.input 0
  = Throw (NodeOperationError
             ("Invalid project configuration. Cannot parse spec URL from: "
              ++ Str.dquote ++ "p1" ++ Str.dquote)).
Proof.
  apply (proj1 (proj2 (proj2 (@failures_of_a_tool_call Sample.host)))
           "exec-1" "p1" _ 0).
  reflexivity.
Defined.

End Supplying.
